(** * Loro Templates extension: templates, bindings, validation, sample data

    A shallow embedding of the parts of the extension that decide how a
    remote template is bound to an open document and pushed back on save
    ([src/extension.ts], [src/templates/templateService.ts]), of the
    validation heuristic, of the sample-data synthesizer and of the test
    runner ([src/testing/testRunner.ts]), of the tree view
    ([src/templates/treeProvider.ts]) and of the key check and the CodeLens
    commands of [src/auth/authProvider.ts].

    Modelling conventions.
    - JavaScript values are the inductive type [value]; a string is a Rocq
      [string], on which case mapping and white space are the ASCII ones:
      they are JavaScript's on strings of ASCII characters ([ascii_only]).
    - A JavaScript object is the insertion-ordered list of its own
      properties; the names every object inherits from [Object.prototype]
      read as an opaque built-in value, as the realm has them when a
      command starts.  Only the synthesizer can reach a built-in with a
      write: the write is an event of the trace, and the rest of that run
      reads [Object.prototype] with it.
    - Effects (HTTP requests, notifications, the clock, the process-wide
      [templateDocuments] map) are threaded through a state-and-exception
      monad [M]; every asynchronous function runs to completion, so awaits
      are sequencing.
    - The map [templateDocuments] holds references: the template objects
      live in a heap, and [storedTemplate.content = ...] updates the object
      the map points to.
    - Console logging, warning notifications, progress notifications and
      the showing of an editor leave no trace; refreshing the tree view is
      an event, the reload it triggers later is not part of the run. *)

From Stdlib Require Import String Ascii List ZArith QArith Bool Lia.
From stdpp Require Import base option gmap strings stringmap pretty.

Import ListNotations.
Local Open Scope string_scope.
Local Open Scope list_scope.

(** ** JavaScript values *)

Module Js.

Local Unset Elimination Schemes.
Inductive value : Type :=
| VUndefined
| VNull
| VBool (b : bool)
| VNum (q : Q)
| VStr (s : string)
| VArr (items : list value)
| VObj (props : list (string * value))
| VBuiltin (name : string).
Local Set Elimination Schemes.

(** [ToBoolean]: the falsy values are [undefined], [null], [false], [0]
    and the empty string. *)
Definition truthy (v : value) : bool :=
  match v with
  | VUndefined | VNull => false
  | VBool b => b
  | VNum q => negb (Qeq_bool q 0)
  | VStr s => negb (String.eqb s "")
  | VArr _ | VObj _ | VBuiltin _ => true
  end.

(** [a || b] *)
Definition or_else (a b : value) : value := if truthy a then a else b.

(** [v !== undefined] *)
Definition defined (v : value) : bool :=
  match v with VUndefined => false | _ => true end.

(** Property names found on every object through [Object.prototype]. *)
Definition object_prototype_names : list string :=
  [ "constructor"; "__proto__"; "hasOwnProperty"; "isPrototypeOf";
    "propertyIsEnumerable"; "toLocaleString"; "toString"; "valueOf";
    "__defineGetter__"; "__defineSetter__"; "__lookupGetter__";
    "__lookupSetter__" ].

Definition inherited (p : string) : bool :=
  existsb (String.eqb p) object_prototype_names.

Fixpoint own (props : list (string * value)) (p : string) : option value :=
  match props with
  | [] => None
  | (k, v) :: rest => if String.eqb k p then Some v else own rest p
  end.

(** [o[p]] on an ordinary object with own properties [props]. *)
Definition get_prop (props : list (string * value)) (p : string) : value :=
  match own props p with
  | Some v => v
  | None => if inherited p then VBuiltin p else VUndefined
  end.

(** [o[p] = v] on own properties: an existing key keeps its place, a new
    key goes last. *)
Fixpoint set_prop (props : list (string * value)) (p : string) (v : value)
  : list (string * value) :=
  match props with
  | [] => [(p, v)]
  | (k, w) :: rest =>
      if String.eqb k p then (k, v) :: rest else (k, w) :: set_prop rest p v
  end.

(** [Object.keys(o)] *)
Definition keys (props : list (string * value)) : list string :=
  map fst props.

(** ** Strings

    A string is kept as its 8-bit characters; a character from 128 on
    stands for (a part of) a character outside ASCII.  On strings of ASCII
    characters the functions below are JavaScript's.  Outside ASCII they
    are not: the case maps leave such characters alone and [is_space] does
    not take them for white space, whereas JavaScript maps many of them
    (the upper case of U+00DF is [SS]) and counts U+00A0 and others as
    white space.  A statement that rests on the case maps says for which
    strings it is made, with [ascii_only]. *)

Definition ascii_only (s : string) : bool :=
  forallb (fun c => (nat_of_ascii c <? 128)%nat) (list_ascii_of_string s).

Definition is_upper (c : ascii) : bool :=
  let n := nat_of_ascii c in (65 <=? n)%nat && (n <=? 90)%nat.

Definition is_lower (c : ascii) : bool :=
  let n := nat_of_ascii c in (97 <=? n)%nat && (n <=? 122)%nat.

Definition lower_char (c : ascii) : ascii :=
  if is_upper c then ascii_of_nat (nat_of_ascii c + 32) else c.

Definition upper_char (c : ascii) : ascii :=
  if is_lower c then ascii_of_nat (nat_of_ascii c - 32) else c.

Fixpoint map_string (f : ascii -> ascii) (s : string) : string :=
  match s with
  | EmptyString => EmptyString
  | String c s' => String (f c) (map_string f s')
  end.

(** [s.toLowerCase()] and [s.toUpperCase()] on the ASCII letters. *)
Definition toLowerCase : string -> string := map_string lower_char.
Definition toUpperCase : string -> string := map_string upper_char.

(** [s.charAt(0)] and [s.slice(1)] *)
Definition charAt0 (s : string) : string :=
  match s with EmptyString => "" | String c _ => String c "" end.

Definition slice1 (s : string) : string :=
  match s with EmptyString => "" | String _ s' => s' end.

(** White space of [\s] and of [trim], among the ASCII characters. *)
Definition is_space (c : ascii) : bool :=
  let n := nat_of_ascii c in
  (n =? 32)%nat || ((9 <=? n)%nat && (n <=? 13)%nat).

Fixpoint trim_start (s : string) : string :=
  match s with
  | String c s' => if is_space c then trim_start s' else s
  | EmptyString => EmptyString
  end.

Fixpoint trim_end (s : string) : string :=
  match s with
  | EmptyString => EmptyString
  | String c s' =>
      match trim_end s' with
      | EmptyString => if is_space c then EmptyString else String c EmptyString
      | t => String c t
      end
  end.

Definition trim (s : string) : string := trim_end (trim_start s).

(** [s.includes(sub)] *)
Fixpoint includes (s sub : string) : bool :=
  String.prefix sub s
  || match s with
     | EmptyString => false
     | String _ s' => includes s' sub
     end.

(** [s.split(sep)] for a one-character separator: never an empty list. *)
Fixpoint split_on (sep : ascii) (s : string) : list string :=
  match s with
  | EmptyString => [EmptyString]
  | String c s' =>
      if Ascii.eqb c sep then EmptyString :: split_on sep s'
      else match split_on sep s' with
           | [] => [String c EmptyString]
           | h :: t => String c h :: t
           end
  end.

(** The first [n] characters of [s]. *)
Fixpoint take_string (n : nat) (s : string) : string :=
  match n, s with
  | S k, String c s' => String c (take_string k s')
  | _, _ => EmptyString
  end.

End Js.

Import Js.

(** ** Regular expressions

    Every pattern of the sources is a sequence of character classes, each
    taken once, zero or more times ([*]) or one or more times ([+]).  The
    matcher is the backtracking one: a repetition takes as many characters
    as it can and gives them back one at a time while the rest fails. *)

Module Regex.

Inductive quant : Type := Once | Star | Plus.

Record item : Type := Item { cls : ascii -> bool; rep : quant }.

Definition regex : Type := list item.

Definition chr (c : ascii) : item := Item (Ascii.eqb c) Once.

(** A literal pattern. *)
Fixpoint lit (s : string) : regex :=
  match s with
  | EmptyString => []
  | String c s' => chr c :: lit s'
  end.

(** Greedy repetition of class [c], then continuation [k]. *)
Fixpoint star (c : ascii -> bool) (k : string -> option string) (s : string)
  : option string :=
  match s with
  | String a s' =>
      if c a then
        match star c k s' with
        | Some rest => Some rest
        | None => k s
        end
      else k s
  | EmptyString => k s
  end.

(** [match_here r s] is the text left after the first way [r] matches at
    the start of [s]. *)
Fixpoint match_here (r : regex) (s : string) : option string :=
  match r with
  | [] => Some s
  | Item c Once :: r' =>
      match s with
      | String a s' => if c a then match_here r' s' else None
      | EmptyString => None
      end
  | Item c Star :: r' => star c (match_here r') s
  | Item c Plus :: r' =>
      match s with
      | String a s' => if c a then star c (match_here r') s' else None
      | EmptyString => None
      end
  end.

(** The text matched at the start of [s]. *)
Definition match_at (r : regex) (s : string) : option string :=
  match match_here r s with
  | Some rest => Some (take_string (String.length s - String.length rest) s)
  | None => None
  end.

(** The matches of [s.match(/r/g)], left to right: after a match the scan
    resumes where it ended ([skip] counts the characters of the match still
    to pass), after an empty match or a failure one character further. *)
Fixpoint scan (r : regex) (skip : nat) (s : string) : list string :=
  match skip with
  | S k =>
      match s with
      | String _ s' => scan r k s'
      | EmptyString => []
      end
  | O =>
      match match_at r s with
      | Some m =>
          m :: match s with
               | String _ s' => scan r (String.length m - 1) s'
               | EmptyString => []
               end
      | None =>
          match s with
          | String _ s' => scan r 0 s'
          | EmptyString => []
          end
      end
  end.

(** [s.match(/r/g)]: [null] when nothing matches. *)
Definition match_all (r : regex) (s : string) : option (list string) :=
  match scan r 0 s with
  | [] => None
  | ms => Some ms
  end.

(** [(s.match(/r/g) || []).length] *)
Definition match_count (r : regex) (s : string) : nat :=
  length (default [] (match_all r s)).

(** [s.replace(/r/g, repl)] *)
Fixpoint replace_scan (r : regex) (repl : string) (skip : nat) (s : string)
  : string :=
  match skip with
  | S k =>
      match s with
      | String _ s' => replace_scan r repl k s'
      | EmptyString => EmptyString
      end
  | O =>
      match match_at r s with
      | Some m =>
          String.append repl
            match s with
            | String a s' =>
                match m with
                | EmptyString => String a (replace_scan r repl 0 s')
                | String _ m' => replace_scan r repl (String.length m') s'
                end
            | EmptyString => EmptyString
            end
      | None =>
          match s with
          | String a s' => String a (replace_scan r repl 0 s')
          | EmptyString => EmptyString
          end
      end
  end.

Definition replace_all (r : regex) (repl s : string) : string :=
  replace_scan r repl 0 s.

End Regex.

Import Regex.

Definition ws : item := Item is_space Star.

(** [/{{/g], [/}}/g], [/{%/g], [/%}/g] *)
Definition re_open_braces : regex := lit "{{".
Definition re_close_braces : regex := lit "}}".
Definition re_open_statements : regex := lit "{%".
Definition re_close_statements : regex := lit "%}".
(** [/{%\s*if/g], [/{%\s*endif/g], [/{%\s*for/g], [/{%\s*endfor/g] *)
Definition re_if : regex := lit "{%" ++ ws :: lit "if".
Definition re_endif : regex := lit "{%" ++ ws :: lit "endif".
Definition re_for : regex := lit "{%" ++ ws :: lit "for".
Definition re_endfor : regex := lit "{%" ++ ws :: lit "endfor".

(** ** [TemplateService.validateTemplateContent] *)

Record Validation : Type :=
  { isValid : bool; errors : list string }.

Definition brace_mismatch : string := "Mismatched {{ }} braces".
Definition statement_mismatch : string := "Mismatched {% %} statement braces".
Definition if_mismatch : string := "Mismatched if/endif blocks".
Definition for_mismatch : string := "Mismatched for/endfor blocks".

(** [if (a !== b) errors.push(msg)] *)
Definition push_unless_equal (a b : nat) (msg : string) (errs : list string)
  : list string :=
  if Nat.eqb a b then errs else errs ++ [msg].

Definition validateTemplateContent (content : string) : Validation :=
  let errors0 : list string := [] in
  let openBraces := match_count re_open_braces content in
  let closeBraces := match_count re_close_braces content in
  let errors1 := push_unless_equal openBraces closeBraces brace_mismatch errors0 in
  let openStatements := match_count re_open_statements content in
  let closeStatements := match_count re_close_statements content in
  let errors2 :=
    push_unless_equal openStatements closeStatements statement_mismatch errors1 in
  let ifBlocks := match_count re_if content in
  let endifBlocks := match_count re_endif content in
  let errors3 := push_unless_equal ifBlocks endifBlocks if_mismatch errors2 in
  let forBlocks := match_count re_for content in
  let endforBlocks := match_count re_endfor content in
  let errors4 := push_unless_equal forBlocks endforBlocks for_mismatch errors3 in
  {| isValid := Nat.eqb (length errors4) 0; errors := errors4 |}.

(** ** Records of the extension ([src/types/index.ts])

    A [Template] object at run time: the map [templateDocuments] is a
    [Map<string, any>] and the gateway's answers are [any], so every field
    holds a JavaScript value; a field that is absent reads [undefined]. *)

Record Template : Type := mkTemplate
  { id : value;
    name : value;
    category : value;
    description : value;
    content : value;
    sampleData : value;
    isActive : value;
    createdAt : value;
    updatedAt : value;
    userId : value;
    schema : value }.

(** [storedTemplate.content = v] *)
Definition set_content (v : value) (t : Template) : Template :=
  {| id := id t; name := name t; category := category t;
     description := description t; content := v;
     sampleData := sampleData t; isActive := isActive t;
     createdAt := createdAt t; updatedAt := updatedAt t;
     userId := userId t; schema := schema t |}.

(** What [TestResult.duration] is computed from: elapsed milliseconds, or
    [Math.round(parseFloat(renderTime) * 1000)] kept as the value read. *)
Inductive Duration : Type :=
| Millis (ms : Z)
| RoundedSeconds (renderTime : value).

Record TestResult : Type := mkTestResult
  { success : value;
    output : value;
    duration : Duration;
    test_errors : list value;
    usageConsumed : option nat }.

(** ** The host: HTTP layer, secret storage, clock, editor *)

(** A thrown value: [new Error(message)] of the extension's own code, or an
    error raised by the runtime (rejection of the HTTP layer, [SyntaxError]
    of [JSON.parse], [TypeError]). *)
Record error : Type := mkError { err_name : string; err_message : string }.

Definition Error (message : string) : error := mkError "Error" message.
Definition TypeError (message : string) : error := mkError "TypeError" message.

(** [`${error}`], that is [Error.prototype.toString]. *)
Definition error_text (e : error) : string :=
  if String.eqb (err_name e) "" then err_message e
  else if String.eqb (err_message e) "" then err_name e
  else err_name e +:+ ": " +:+ err_message e.

Inductive outcome (A : Type) : Type :=
| Return (a : A)
| Throw (e : error).
Arguments Return {A} a.
Arguments Throw {A} e.

(** The path of a call, with the interpolated id kept as a value. *)
Inductive endpoint : Type :=
| ApiTemplates               (* /api/templates *)
| ApiTemplate (id : value)   (* /api/templates/${id} *)
| ApiRender (id : value)     (* /api/templates/${id}/render?... *)
| ApiUsage.                  (* /api/usage/dashboard *)

(** A request as [makeApiCall] hands it to [httpRequest]; the body is the
    object given to [JSON.stringify]. *)
Record HttpRequest : Type := mkRequest
  { req_endpoint : endpoint;
    req_method : string;
    req_apiKey : string;
    req_body : option value }.

(** [HttpResponse] of the HTTP layer; [json] is [null] for an empty body
    and throws on a body that does not parse. *)
Record HttpResponse : Type := mkResponse
  { ok : bool;
    status : Z;
    statusText : string;
    json : outcome value;
    text : string }.

(** What a run does to the world around the extension.  [BuiltinWrite o p v]
    is the assignment [b[p] = v] on a built-in object of the realm, shared
    with everything else the host runs: [Object.prototype] when [o] is
    [__proto__], else the function every object inherits under the name
    [o]. *)
Inductive event : Type :=
| Http (r : HttpRequest)
| ShowError (message : string)
| ShowInformation (message : string)
| RefreshTree
| BuiltinWrite (o p : string) (v : value).

Record Host : Type := mkHost
  { (* context.secrets.get('loro.apiKey') *)
    secret_apiKey : option string;
    (* the promise of httpRequest, given what happened before *)
    net : list event -> HttpRequest -> outcome HttpResponse;
    (* Date.now() at the n-th reading of the clock *)
    clock : nat -> Z;
    (* Date.prototype.toISOString *)
    toISOString : Z -> string;
    (* String(v) of a template literal *)
    stringify : value -> string;
    (* v > 0 *)
    positive : value -> bool }.

(** The mutable state: the clock readings so far, what the user and the
    network saw, the objects allocated for templates, and the module-level
    [templateDocuments] map from document URI to one of these objects. *)
Record State : Type := mkState
  { ticks : nat;
    trace : list event;
    heap : gmap nat Template;
    templateDocuments : gmap string nat;
    documents : gmap string string }.

Definition M (A : Type) : Type := Host -> State -> outcome A * State.

Definition ret {A} (a : A) : M A := fun _ st => (Return a, st).

Definition bind {A B} (m : M A) (f : A -> M B) : M B :=
  fun h st =>
    match m h st with
    | (Return a, st') => f a h st'
    | (Throw e, st') => (Throw e, st')
    end.

Definition throw {A} (e : error) : M A := fun _ st => (Throw e, st).

(** [try { m } catch (error) { handler error }] *)
Definition try_catch {A} (m : M A) (handler : error -> M A) : M A :=
  fun h st =>
    match m h st with
    | (Return a, st') => (Return a, st')
    | (Throw e, st') => handler e h st'
    end.

Notation "'let!' x := m 'in' k" := (bind m (fun x => k))
  (at level 10, x pattern, m at level 100, k at level 200).
Notation "m >> k" := (bind m (fun _ => k))
  (at level 100, k at level 200, right associativity).

Definition host : M Host := fun h st => (Return h, st).
Definition get_state : M State := fun _ st => (Return st, st).
Definition put_state (st : State) : M unit := fun _ _ => (Return tt, st).

Definition emit (e : event) : M unit :=
  fun _ st =>
    (Return tt,
     mkState (ticks st) (trace st ++ [e]) (heap st) (templateDocuments st)
       (documents st)).

Definition showErrorMessage (s : string) : M unit := emit (ShowError s).
Definition showInformationMessage (s : string) : M unit :=
  emit (ShowInformation s).
Definition refresh : M unit := emit RefreshTree.

(** [Date.now()] *)
Definition Date_now : M Z :=
  fun h st =>
    (Return (clock h (ticks st)),
     mkState (S (ticks st)) (trace st) (heap st) (templateDocuments st)
       (documents st)).

(** [new Date().toISOString()] *)
Definition Date_iso : M string :=
  let! t := Date_now in
  let! h := host in
  ret (toISOString h t).

(** [httpRequest(url, options)]: the request goes out, then the promise
    resolves with a response or rejects. *)
Definition httpRequest (r : HttpRequest) : M HttpResponse :=
  fun h st =>
    let answer := net h (trace st) r in
    let st' := mkState (ticks st) (trace st ++ [Http r]) (heap st)
                 (templateDocuments st) (documents st) in
    match answer with
    | Return resp => (Return resp, st')
    | Throw e => (Throw e, st')
    end.

(** Lifting an outcome computed by the host. *)
Definition lift {A} (o : outcome A) : M A := fun _ st => (o, st).

(** Objects of the heap. *)
Definition alloc (t : Template) : M nat :=
  fun _ st =>
    let l := fresh (dom (heap st)) in
    (Return l,
     mkState (ticks st) (trace st) (<[l := t]> (heap st))
       (templateDocuments st) (documents st)).

Definition read (l : nat) : M Template :=
  fun _ st =>
    match heap st !! l with
    | Some t => (Return t, st)
    | None => (Throw (TypeError "dangling reference"), st)
    end.

Definition write (l : nat) (f : Template -> Template) : M unit :=
  fun _ st =>
    (Return tt,
     mkState (ticks st) (trace st) (alter f l (heap st))
       (templateDocuments st) (documents st)).

(** The template a document is bound to, read through the map. *)
Definition binding (st : State) (uri : string) : option Template :=
  l ← templateDocuments st !! uri; heap st !! l.

(** [v[p]] for a value of unknown shape: reading a property of [null] or
    [undefined] throws; a primitive has none of the properties read here. *)
Definition field (v : value) (p : string) : M value :=
  match v with
  | VUndefined | VNull =>
      throw (TypeError ("Cannot read properties of " +:+
                        (if defined v then "null" else "undefined")))
  | VObj props => ret (get_prop props p)
  | _ => ret (get_prop [] p)
  end.

(** ** [TemplateService] ([src/templates/templateService.ts]) *)

(** [await this.context.secrets.get('loro.apiKey') || null] *)
Definition getApiKey : M (option string) :=
  let! h := host in
  match secret_apiKey h with
  | Some k => if String.eqb k EmptyString then ret None else ret (Some k)
  | None => ret None
  end.

Definition api_failure (r : HttpResponse) : error :=
  Error ("API call failed: " +:+ pretty (status r) +:+ " " +:+ statusText r
         +:+ " - " +:+ text r).

Definition makeApiCall (ep : endpoint) (method : string) (body : option value)
  : M value :=
  let! apiKey := getApiKey in
  match apiKey with
  | None => throw (Error "Not authenticated. Please login first.")
  | Some k =>
      let! response := httpRequest (mkRequest ep method k body) in
      if negb (ok response) then throw (api_failure response)
      else lift (json response)
  end.

(** [response.a || response.b] *)
Definition field_or (response : value) (a b : string) : M value :=
  let! x := field response a in
  if truthy x then ret x else field response b.

(** [getTemplate]: the fetched record, normalised to camelCase, as a new
    object; [null] (here [None]) after any failure. *)
Definition getTemplate (tid : value) : M (option nat) :=
  try_catch
    (let! response := makeApiCall (ApiTemplate tid) "GET" None in
     let! r_id := field_or response "id" "Id" in
     let! r_name := field_or response "name" "Name" in
     let! r_category := field_or response "category" "Category" in
     let! r_description := field_or response "description" "Description" in
     let! r_content := field_or response "content" "Content" in
     let! r_sampleData := field_or response "sampleData" "SampleData" in
     let! r_isActive := field response "isActive" in
     let! r_isActive :=
       (if defined r_isActive then ret r_isActive
        else field response "IsActive") in
     let! r_createdAt := field_or response "createdAt" "CreatedAt" in
     let! r_updatedAt := field_or response "updatedAt" "UpdatedAt" in
     let! r_userId := field_or response "userId" "UserId" in
     let! r_schema := field_or response "schema" "Schema" in
     let! l :=
       alloc {| id := r_id; name := r_name; category := r_category;
                description := r_description; content := r_content;
                sampleData := or_else r_sampleData VNull;
                isActive := r_isActive; createdAt := r_createdAt;
                updatedAt := r_updatedAt; userId := r_userId;
                schema := r_schema |} in
     ret (Some l))
    (fun error =>
       showErrorMessage ("Failed to fetch template: " +:+ error_text error) >>
       ret None).

(** [delete requestBody[key]] for every key whose value is [undefined]. *)
Definition remove_undefined (props : list (string * value))
  : list (string * value) :=
  List.filter (fun kv => defined (snd kv)) props.

(** The PascalCase body of the update request. *)
Definition update_body (tid : value) (templateData : Template) (now : string)
  : list (string * value) :=
  remove_undefined
    [ ("Id", tid);
      ("Name", name templateData);
      ("Description", or_else (description templateData) (VStr EmptyString));
      ("Content", content templateData);
      ("Category", or_else (category templateData) (VStr "General"));
      ("IsActive", if defined (isActive templateData)
                   then isActive templateData else VBool true);
      ("Schema", or_else (schema templateData) VNull);
      ("SampleData", or_else (sampleData templateData) VNull);
      ("UpdatedAt", VStr now) ].

(** The record returned as confirmation after an empty answer. *)
Definition confirmation (tid : value) (templateData : Template) (now : string)
  : value :=
  VObj [ ("id", tid);
         ("name", name templateData);
         ("category", category templateData);
         ("description", description templateData);
         ("content", content templateData);
         ("isActive", isActive templateData);
         ("sampleData", or_else (sampleData templateData) VNull);
         ("schema", or_else (schema templateData) VNull);
         ("createdAt", VStr EmptyString);
         ("updatedAt", VStr now) ].

Definition updateTemplate (tid : value) (templateData : Template) : M value :=
  try_catch
    (if negb (truthy (name templateData)) then
       throw (Error "Name field is required")
     else if negb (truthy (content templateData)) then
       throw (Error "Content field is required")
     else
       let! now := Date_iso in
       let requestBody := update_body tid templateData now in
       let! template :=
         makeApiCall (ApiTemplate tid) "PUT" (Some (VObj requestBody)) in
       match template with
       | VNull =>
           let! now' := Date_iso in
           ret (confirmation tid templateData now')
       | _ => ret template
       end)
    (fun error =>
       showErrorMessage ("Failed to update template: " +:+ error_text error) >>
       ret VNull).

(** [TemplateService.testTemplate]: the render call; a failure is logged
    and thrown again. *)
Definition service_testTemplate (tid : value) (data : value) : M value :=
  try_catch
    (makeApiCall (ApiRender tid) "POST" (Some data))
    (fun error => throw error).

(** ** The binding registry and the open/save workflow ([src/extension.ts]) *)

Record TextDocument : Type := mkDocument { uri : string; getText : string }.

Definition quote : string := String (ascii_of_nat 34) EmptyString.

(** [templateDocuments.set(uri, object)] *)
Definition templateDocuments_set (u : string) (l : nat) : M unit :=
  fun _ st =>
    (Return tt,
     mkState (ticks st) (trace st) (heap st) (<[u := l]> (templateDocuments st))
       (documents st)).

(** [templateDocuments.delete(uri)], the handler of a closed document. *)
Definition onDidCloseTextDocument (u : string) : M unit :=
  fun _ st =>
    (Return tt,
     mkState (ticks st) (trace st) (heap st) (delete u (templateDocuments st))
       (delete u (documents st))).

(** [getTemplateInfo] *)
Definition getTemplateInfo (st : State) (u : string) : option Template :=
  binding st u.

(** The text of a new document made from [content]: a content that is not
    a string gives an empty document. *)
Definition document_text (v : value) : string :=
  match v with VStr s => s | _ => EmptyString end.

(** [vscode.workspace.openTextDocument({content})]: a new untitled
    document; its URI is numbered by the editor. *)
Definition openTextDocument (v : value) : M string :=
  fun _ st =>
    let u := fresh_string "untitled:Untitled-" (documents st) in
    (Return u,
     mkState (ticks st) (trace st) (heap st) (templateDocuments st)
       (<[u := document_text v]> (documents st))).

(** The user types in an open document. *)
Definition edit (u : string) (new_text : string) : M unit :=
  fun _ st =>
    (Return tt,
     mkState (ticks st) (trace st) (heap st) (templateDocuments st)
       (alter (fun _ => new_text) u (documents st))).

Definition openTemplate (template : value) : M unit :=
  try_catch
    (let! tid := field template "id" in
     let! fullTemplate := getTemplate tid in
     match fullTemplate with
     | None => showErrorMessage "Could not load template details"
     | Some l =>
         let! full := read l in
         let! u := openTextDocument (content full) in
         templateDocuments_set u l >>
         let! h := host in
         showInformationMessage
           ("Editing template: " +:+ stringify h (name full) +:+
            ". Use Ctrl+S to save changes back to server.")
     end)
    (fun error =>
       showErrorMessage ("Failed to open template: " +:+ error_text error)).

(** The object literal handed to [updateTemplate] by the save. *)
Definition save_data (stored : Template) (buffer : string) : Template :=
  {| id := VUndefined;
     name := name stored;
     category := category stored;
     description := description stored;
     content := VStr buffer;
     sampleData := sampleData stored;
     isActive := isActive stored;
     createdAt := VUndefined;
     updatedAt := VUndefined;
     userId := VUndefined;
     schema := schema stored |}.

Definition saveTemplateToServer (document : TextDocument) : M unit :=
  let! st := get_state in
  match templateDocuments st !! uri document with
  | None => ret tt
  | Some storedTemplate =>
      try_catch
        (let! stored := read storedTemplate in
         let templateId := id stored in
         let templateName := name stored in
         if negb (truthy (name stored)) then
           throw (Error "Template name is missing from stored template")
         else
           let! updatedTemplate :=
             updateTemplate templateId (save_data stored (getText document)) in
           if truthy updatedTemplate then
             let! h := host in
             showInformationMessage
               ("Template " +:+ quote +:+ stringify h templateName +:+ quote
                +:+ " saved to server successfully") >>
             write storedTemplate (set_content (VStr (getText document))) >>
             refresh
           else ret tt)
        (fun error =>
           showErrorMessage
             ("Failed to save template to server: " +:+ error_text error))
  end.

(** The handler of [onDidSaveTextDocument]. *)
Definition onDidSaveTextDocument (document : TextDocument) : M unit :=
  let! st := get_state in
  match templateDocuments st !! uri document with
  | Some _ => saveTemplateToServer document
  | None => ret tt
  end.

(** The user saves the document at [u] as it stands. *)
Definition save (u : string) : M unit :=
  let! st := get_state in
  match documents st !! u with
  | Some t => onDidSaveTextDocument (mkDocument u t)
  | None => ret tt
  end.

(** ** [TestRunner] ([src/testing/testRunner.ts]) *)

(** [prop.charAt(0).toLowerCase() + prop.slice(1)] and its upper-case twin *)
Definition lowerFirst (prop : string) : string :=
  toLowerCase (charAt0 prop) +:+ slice1 prop.

Definition upperFirst (prop : string) : string :=
  toUpperCase (charAt0 prop) +:+ slice1 prop.

(** [getProp(obj, ...props)] on an object. *)
Fixpoint getProp (obj : list (string * value)) (props : list string) : value :=
  match props with
  | [] => VUndefined
  | prop :: rest =>
      if defined (get_prop obj prop) then get_prop obj prop
      else
        let lowerProp := lowerFirst prop in
        if defined (get_prop obj lowerProp) then get_prop obj lowerProp
        else
          let upperProp := upperFirst prop in
          if defined (get_prop obj upperProp) then get_prop obj upperProp
          else getProp obj rest
  end.

(** [getProp] on whatever the render call returned: reading a property of
    [null] throws, a primitive has no property of its own. *)
Definition getProp_of (result : value) (props : list string) : M value :=
  match props with
  | [] => ret VUndefined
  | prop :: _ =>
      match result with
      | VObj obj => ret (getProp obj props)
      | VUndefined | VNull => let! _ := field result prop in ret VUndefined
      | _ => ret (getProp [] props)
      end
  end.

(** [output.length] *)
Definition length_of (v : value) : value :=
  match v with
  | VStr s => VNum (inject_Z (Z.of_nat (String.length s)))
  | VArr items => VNum (inject_Z (Z.of_nat (length items)))
  | VObj props => get_prop props "length"
  | _ => VUndefined
  end.

Definition failed (startTime : Z) (errs : list value) : M TestResult :=
  let! t := Date_now in
  ret {| success := VBool false;
         output := VStr EmptyString;
         duration := Millis (t - startTime);
         test_errors := errs;
         usageConsumed := None |}.

(** [validateTemplateContent(template.content)]: a content that is not a
    string has no [match] method. *)
Definition validate_value (v : value) : M Validation :=
  match v with
  | VStr s => ret (validateTemplateContent s)
  | _ => throw (TypeError "content.match is not a function")
  end.

Definition testTemplate (template : Template) (data : value) : M TestResult :=
  let! startTime := Date_now in
  try_catch
    (let! validation := validate_value (content template) in
     if negb (isValid validation) then
       failed startTime (map VStr (errors validation))
     else
       let! result := service_testTemplate (id template) data in
       let! o := getProp_of result ["output"; "Output"; "result"; "Result"] in
       let output := or_else o (VStr EmptyString) in
       let! error := getProp_of result ["error"; "Error"] in
       let! renderTime := getProp_of result ["renderTime"; "RenderTime"] in
       let! h := host in
       let success :=
         if truthy error then VBool false
         else if truthy output then VBool (positive h (length_of output))
         else output in
       let! d :=
         (if truthy renderTime then ret (RoundedSeconds renderTime)
          else let! t := Date_now in ret (Millis (t - startTime))) in
       ret {| success := success;
              output := or_else output (VStr "No output received");
              duration := d;
              test_errors := if truthy error then [error] else [];
              usageConsumed := Some 1%nat |})
    (fun error => failed startTime [VStr (err_message error)]).

(** *** Sample data *)

Definition generateSampleValue (propertyName : string) : M value :=
  let lowerName := toLowerCase propertyName in
  if includes lowerName "name" then ret (VStr "John Doe")
  else if includes lowerName "email" then ret (VStr "john@example.com")
  else if includes lowerName "price" || includes lowerName "cost"
          || includes lowerName "amount" then ret (VNum (9999 # 100))
  else if includes lowerName "date" then
    let! now := Date_iso in ret (VStr now)
  else if includes lowerName "phone" then ret (VStr "+1-555-123-4567")
  else if includes lowerName "address" then
    ret (VStr "123 Main St, Anytown, ST 12345")
  else if includes lowerName "url" || includes lowerName "link" then
    ret (VStr "https://example.com")
  else if includes lowerName "id" then ret (VStr "12345")
  else if includes lowerName "count" || includes lowerName "number"
          || includes lowerName "quantity" then ret (VNum (42 # 1))
  else if includes lowerName "description" || includes lowerName "notes" then
    ret (VStr "Sample description text")
  else if includes lowerName "title" then ret (VStr "Sample Title")
  else ret (VStr "Sample Value").

(** [/\{\{\s*([^}]+)\s*\}\}/g] and [/[{}]/g] *)
Definition not_close_brace (c : ascii) : bool := negb (Ascii.eqb c "}").
Definition is_brace (c : ascii) : bool := Ascii.eqb c "{" || Ascii.eqb c "}".

Definition re_variable : regex :=
  lit "{{" ++ [ws; Item not_close_brace Plus; ws] ++ lit "}}".
Definition re_brace : regex := [Item is_brace Once].

Definition variableMatches (content : string) : option (list string) :=
  match_all re_variable content.

(** [match.replace(/[{}]/g, '').trim().split('.')] *)
Definition parts_of (m : string) : list string :=
  split_on "." (trim (replace_all re_brace EmptyString m)).

(** [inner[p] = v] for a primitive [v]: the [__proto__] setter ignores it. *)
Definition assign (inner : list (string * value)) (p : string) (v : value)
  : list (string * value) :=
  if String.eqb p "__proto__" then inner else set_prop inner p v.

(** [sampleData] is an ordinary object: [sampleData[objectName]] finds an
    own property, or else what [Object.prototype] holds under that name,
    which is what the run has written there ([proto]) or what the realm
    starts with. *)
Definition get_prop_over (proto props : list (string * value)) (p : string)
  : value :=
  match own props p with
  | Some v => v
  | None => get_prop proto p
  end.

(** The properties of a built-in function that an assignment cannot
    change: [name] and [length] are read-only, [caller] and [arguments] are
    inherited from [Function.prototype] with a setter that throws, and
    [Object.prototype], the [prototype] of the constructor, is read-only. *)
Definition function_refuses (f p : string) : bool :=
  String.eqb p "name" || String.eqb p "length" || String.eqb p "caller"
  || String.eqb p "arguments"
  || (String.eqb f "constructor" && String.eqb p "prototype").

(** The function found under an inherited name, as the engine prints it. *)
Definition function_text (f : string) : string :=
  "function " +:+ (if String.eqb f "constructor" then "Object" else f)
  +:+ "() { [native code] }".

Definition type_of (v : value) : string :=
  match v with
  | VStr _ => "string"
  | VNum _ => "number"
  | VBool _ => "boolean"
  | VUndefined => "undefined"
  | _ => "object"
  end.

(** The errors of a refused assignment (the module is strict): always a
    [TypeError]; the text is the engine's usual wording, which varies with
    the property and which no statement depends on. *)
Definition read_only_error (f p : string) : error :=
  if String.eqb p "caller" || String.eqb p "arguments" then
    TypeError ("'caller', 'callee', and 'arguments' properties may not be "
               +:+ "accessed on strict mode functions or the arguments "
               +:+ "objects for calls to them")
  else
    TypeError ("Cannot assign to read only property '" +:+ p
               +:+ "' of function '" +:+ function_text f +:+ "'").

Definition primitive_error (h : Host) (b : value) (p : string) : error :=
  TypeError ("Cannot create property '" +:+ p +:+ "' on " +:+ type_of b
             +:+ " '" +:+ stringify h b +:+ "'").

(** What the run has written to the two built-ins it reads again: the
    properties of [Object.prototype], found under every name an object
    does not own, and those of the constructor [Object], whose [keys] the
    synthesizer calls at the end. *)
Record Writes : Type := mkWrites
  { to_prototype : list (string * value);
    to_Object : list (string * value) }.

Definition no_writes : Writes := mkWrites [] [].

(** One turn of the loop over the matches.  Under [objectName] the loop
    finds an object it created, a built-in function or [Object.prototype]
    itself (under [__proto__]), or a string or number it wrote to
    [Object.prototype] in an earlier turn; the write
    [sampleData[objectName][propertyName] = v] lands there.  The loop
    stores objects in [sampleData] and strings and numbers in the
    built-ins, nothing else. *)
Definition add_sample (w : Writes) (sampleData : list (string * value))
    (m : string) : M (Writes * list (string * value)) :=
  match parts_of m with
  | objectName :: propertyName :: _ =>
      let sampleData1 :=
        if truthy (get_prop_over (to_prototype w) sampleData objectName)
        then sampleData
        else set_prop sampleData objectName (VObj []) in
      let! v := generateSampleValue propertyName in
      match get_prop_over (to_prototype w) sampleData1 objectName with
      | VObj inner =>
          ret (w,
               set_prop sampleData1 objectName
                 (VObj (assign inner propertyName v)))
      | VBuiltin f =>
          if String.eqb propertyName "__proto__" then ret (w, sampleData1)
          else if String.eqb f "__proto__" then
            emit (BuiltinWrite f propertyName v) >>
            ret (mkWrites (set_prop (to_prototype w) propertyName v)
                   (to_Object w),
                 sampleData1)
          else if function_refuses f propertyName then
            throw (read_only_error f propertyName)
          else
            emit (BuiltinWrite f propertyName v) >>
            ret (if String.eqb f "constructor"
                 then mkWrites (to_prototype w)
                        (set_prop (to_Object w) propertyName v)
                 else w,
                 sampleData1)
      | b =>
          if String.eqb propertyName "__proto__" then ret (w, sampleData1)
          else let! h := host in throw (primitive_error h b propertyName)
      end
  | _ => ret (w, sampleData)
  end.

Fixpoint add_samples (w : Writes) (sampleData : list (string * value))
    (ms : list string) : M (Writes * list (string * value)) :=
  match ms with
  | [] => ret (w, sampleData)
  | m :: rest =>
      let! turn := add_sample w sampleData m in
      add_samples (fst turn) (snd turn) rest
  end.

(** [Object.keys(o)], called after the loop: a string or a number the loop
    has put in the place of [Object.keys] cannot be called. *)
Definition Object_keys (w : Writes) (props : list (string * value))
  : M (list string) :=
  match own (to_Object w) "keys" with
  | Some _ => throw (TypeError "Object.keys is not a function")
  | None => ret (keys props)
  end.

Definition default_fixture : value :=
  VObj [ ("user", VObj [ ("name", VStr "John Doe");
                         ("email", VStr "john@example.com") ]);
         ("company", VObj [ ("name", VStr "Example Corp") ]) ].

Definition synthesize (content : string) : M value :=
  let! collected :=
    match variableMatches content with
    | Some ms => add_samples no_writes [] ms
    | None => ret (no_writes, [])
    end in
  let sampleData := snd collected in
  let! names := Object_keys (fst collected) sampleData in
  if (0 <? length names)%nat then ret (VObj sampleData)
  else ret default_fixture.

Definition generateSampleDataFromTemplate (template : Template) : M value :=
  match content template with
  | VStr s => synthesize s
  | _ => throw (TypeError "content.match is not a function")
  end.

(** ** Notions the properties are stated with

    Counting occurrences, as the specification words the brace check. *)

(** Written from the specification: the number of occurrences of [pat] in
    the text, counted from the left without overlap ([skip] characters of
    the last occurrence are still to pass). *)
Fixpoint occurrences_from (pat : string) (skip : nat) (s : string) : nat :=
  match s with
  | EmptyString =>
      match skip with
      | O => if String.prefix pat EmptyString then 1 else 0
      | S _ => 0
      end
  | String _ s' =>
      match skip with
      | S k => occurrences_from pat k s'
      | O =>
          if String.prefix pat s
          then S (occurrences_from pat (String.length pat - 1) s')
          else occurrences_from pat 0 s'
      end
  end.

Definition occurrences (pat s : string) : nat := occurrences_from pat 0 s.

(** The text after the first [n] characters. *)
Fixpoint drop_string (n : nat) (s : string) : string :=
  match n, s with
  | S k, String _ s' => drop_string k s'
  | _, _ => s
  end.

(** *** States and events of a run *)

(** The state after [n] more readings of the clock, and after more events. *)
Definition tick (n : nat) (st : State) : State :=
  mkState (n + ticks st) (trace st) (heap st) (templateDocuments st)
    (documents st).

Definition log (evs : list event) (st : State) : State :=
  mkState (ticks st) (trace st ++ evs) (heap st) (templateDocuments st)
    (documents st).

(** The state after [storedTemplate.content = v] on object [l]. *)
Definition store_content (l : nat) (v : value) (st : State) : State :=
  mkState (ticks st) (trace st) (alter (set_content v) l (heap st))
    (templateDocuments st) (documents st).

(** The key [makeApiCall] authenticates with, if any. *)
Definition key_of (h : Host) : option string :=
  match secret_apiKey h with
  | Some k => if String.eqb k EmptyString then None else Some k
  | None => None
  end.

Definition fetch_request (k : string) (tid : value) : HttpRequest :=
  mkRequest (ApiTemplate tid) "GET" k None.

(** The request an update of [templateData] sends at clock reading [now]. *)
Definition update_request (k : string) (tid : value) (templateData : Template)
    (now : string) : HttpRequest :=
  mkRequest (ApiTemplate tid) "PUT" k
    (Some (VObj (update_body tid templateData now))).

Definition update_failed (e : error) : event :=
  ShowError ("Failed to update template: " +:+ error_text e).

Definition save_failed (e : error) : event :=
  ShowError ("Failed to save template to server: " +:+ error_text e).

Definition save_succeeded (h : Host) (templateName : value) : event :=
  ShowInformation
    ("Template " +:+ quote +:+ stringify h templateName +:+ quote
     +:+ " saved to server successfully").

(** The object [getTemplate] builds from an answer with properties
    [props]. *)
Definition normalise (props : list (string * value)) : Template :=
  let either a b := or_else (get_prop props a) (get_prop props b) in
  {| id := either "id" "Id";
     name := either "name" "Name";
     category := either "category" "Category";
     description := either "description" "Description";
     content := either "content" "Content";
     sampleData := or_else (either "sampleData" "SampleData") VNull;
     isActive := if defined (get_prop props "isActive")
                 then get_prop props "isActive"
                 else get_prop props "IsActive";
     createdAt := either "createdAt" "CreatedAt";
     updatedAt := either "updatedAt" "UpdatedAt";
     userId := either "userId" "UserId";
     schema := either "schema" "Schema" |}.

(** The state once a template object [t] has been fetched and allocated. *)
Definition fetched (k : string) (tid : value) (t : Template) (st : State)
  : State :=
  mkState (ticks st) (trace st ++ [Http (fetch_request k tid)])
    (<[fresh (dom (heap st)) := t]> (heap st)) (templateDocuments st)
    (documents st).

(** The state once the fetched template is open in a new document. *)
Definition opened_state (h : Host) (k : string) (tid : value) (t : Template)
    (st : State) : State :=
  let l := fresh (dom (heap st)) in
  let u := fresh_string "untitled:Untitled-" (documents st) in
  mkState (ticks st)
    (trace st
     ++ [Http (fetch_request k tid);
         ShowInformation
           ("Editing template: " +:+ stringify h (name t) +:+
            ". Use Ctrl+S to save changes back to server.")])
    (<[l := t]> (heap st))
    (<[u := l]> (templateDocuments st))
    (<[u := document_text (content t)]> (documents st)).

(** *** Outcomes of a save, and records of the remote service *)

(** The ways the update call of a save fails: a required field is empty,
    there is no API key, the HTTP layer rejects, the status is not 2xx, or
    the body does not parse. *)
Inductive update_fails (h : Host) (st : State) (stored : Template)
    (buffer : string) : Prop :=
| fails_validation :
    truthy (name stored) = false \/ buffer = EmptyString ->
    update_fails h st stored buffer
| fails_unauthenticated :
    key_of h = None -> update_fails h st stored buffer
| fails_network (k : string) (e : error) :
    key_of h = Some k ->
    net h (trace st)
      (update_request k (id stored) (save_data stored buffer)
         (toISOString h (clock h (ticks st)))) = Throw e ->
    update_fails h st stored buffer
| fails_status (k : string) (resp : HttpResponse) :
    key_of h = Some k ->
    net h (trace st)
      (update_request k (id stored) (save_data stored buffer)
         (toISOString h (clock h (ticks st)))) = Return resp ->
    ok resp = false ->
    update_fails h st stored buffer
| fails_body (k : string) (resp : HttpResponse) (e : error) :
    key_of h = Some k ->
    net h (trace st)
      (update_request k (id stored) (save_data stored buffer)
         (toISOString h (clock h (ticks st)))) = Return resp ->
    json resp = Throw e ->
    update_fails h st stored buffer.

(** What a failed save leaves behind: the same objects and bindings, at
    most one request, and an error message as the last event. *)
Definition failed_quietly (st st' : State) : Prop :=
  heap st' = heap st
  /\ templateDocuments st' = templateDocuments st
  /\ exists sent message,
       trace st' = trace st ++ sent ++ [ShowError message]
       /\ (sent = [] \/ exists r, sent = [Http r]).

(** Written from the claim and the error handling it refers to: what the
    user is told when the update of a save fails, by the first cause the
    code meets, together with the request made before the failure.  A
    missing name or an empty buffer is named; a transport failure shows the
    underlying error; a rejected status shows the status code, the status
    text and the body of the answer. *)
Inductive surfaced (h : Host) (st : State) (stored : Template)
    (buffer : string) : list event -> string -> Prop :=
| surfaced_name :
    truthy (name stored) = false ->
    surfaced h st stored buffer []
      ("Failed to save template to server: "
       +:+ "Error: Template name is missing from stored template")
| surfaced_content :
    truthy (name stored) = true ->
    buffer = EmptyString ->
    surfaced h st stored buffer []
      "Failed to update template: Error: Content field is required"
| surfaced_unauthenticated :
    truthy (name stored) = true ->
    buffer <> EmptyString ->
    key_of h = None ->
    surfaced h st stored buffer []
      ("Failed to update template: "
       +:+ "Error: Not authenticated. Please login first.")
| surfaced_network (k : string) (e : error) :
    truthy (name stored) = true ->
    buffer <> EmptyString ->
    key_of h = Some k ->
    net h (trace st)
      (update_request k (id stored) (save_data stored buffer)
         (toISOString h (clock h (ticks st)))) = Throw e ->
    surfaced h st stored buffer
      [Http (update_request k (id stored) (save_data stored buffer)
               (toISOString h (clock h (ticks st))))]
      ("Failed to update template: " +:+ error_text e)
| surfaced_status (k : string) (resp : HttpResponse) :
    truthy (name stored) = true ->
    buffer <> EmptyString ->
    key_of h = Some k ->
    net h (trace st)
      (update_request k (id stored) (save_data stored buffer)
         (toISOString h (clock h (ticks st)))) = Return resp ->
    ok resp = false ->
    surfaced h st stored buffer
      [Http (update_request k (id stored) (save_data stored buffer)
               (toISOString h (clock h (ticks st))))]
      ("Failed to update template: Error: API call failed: "
       +:+ pretty (status resp) +:+ " " +:+ statusText resp +:+ " - "
       +:+ text resp)
| surfaced_body (k : string) (resp : HttpResponse) (e : error) :
    truthy (name stored) = true ->
    buffer <> EmptyString ->
    key_of h = Some k ->
    net h (trace st)
      (update_request k (id stored) (save_data stored buffer)
         (toISOString h (clock h (ticks st)))) = Return resp ->
    ok resp = true ->
    json resp = Throw e ->
    surfaced h st stored buffer
      [Http (update_request k (id stored) (save_data stored buffer)
               (toISOString h (clock h (ticks st))))]
      ("Failed to update template: " +:+ error_text e).

(** The keys of the update body, as written in [updateTemplate]. *)
Definition body_keys : list string :=
  [ "Id"; "Name"; "Description"; "Content"; "Category"; "IsActive";
    "Schema"; "SampleData"; "UpdatedAt" ].

(** Written from the claim: the body carries record [t] whole, every field
    other than [content] and [updatedAt] with the value [t] has. *)
Definition carries_whole_record (t : Template) (body : list (string * value))
  : Prop :=
  get_prop body "Id" = id t
  /\ get_prop body "Name" = name t
  /\ get_prop body "Category" = category t
  /\ get_prop body "Description" = description t
  /\ get_prop body "SampleData" = sampleData t
  /\ get_prop body "IsActive" = isActive t
  /\ get_prop body "CreatedAt" = createdAt t
  /\ get_prop body "UserId" = userId t
  /\ get_prop body "Schema" = schema t.

(** Every field but [content] is the same in [t] and [t']. *)
Definition same_but_content (t t' : Template) : Prop :=
  id t' = id t
  /\ name t' = name t
  /\ category t' = category t
  /\ description t' = description t
  /\ sampleData t' = sampleData t
  /\ isActive t' = isActive t
  /\ createdAt t' = createdAt t
  /\ updatedAt t' = updatedAt t
  /\ userId t' = userId t
  /\ schema t' = schema t.

(** A template as the remote service holds it ([Template] of
    [src/types/index.ts], with its optional fields). *)
Record TemplateRecord : Type := mkRecord
  { r_id : string;
    r_name : string;
    r_category : string;
    r_description : string;
    r_content : string;
    r_sampleData : option string;
    r_isActive : bool;
    r_createdAt : string;
    r_updatedAt : string;
    r_userId : option string;
    r_schema : option string }.

Definition optional (key : string) (o : option string)
  : list (string * value) :=
  match o with
  | Some s => [(key, VStr s)]
  | None => []
  end.

(** The JSON object the gateway answers a fetch of [r] with. *)
Definition record_json (r : TemplateRecord) : list (string * value) :=
  [ ("id", VStr (r_id r)); ("name", VStr (r_name r));
    ("category", VStr (r_category r));
    ("description", VStr (r_description r));
    ("content", VStr (r_content r)) ]
  ++ optional "sampleData" (r_sampleData r)
  ++ [ ("isActive", VBool (r_isActive r));
       ("createdAt", VStr (r_createdAt r));
       ("updatedAt", VStr (r_updatedAt r)) ]
  ++ optional "userId" (r_userId r)
  ++ optional "schema" (r_schema r).

(** The record is one that was written: [id], [name] and [content] are
    not empty. *)
Definition written (r : TemplateRecord) : Prop :=
  r_id r <> EmptyString /\ r_name r <> EmptyString
  /\ r_content r <> EmptyString.

(** *** An example session *)

(** A host and a state to run examples on: a gateway that holds one
    template and answers an update with an empty body. *)
Module Example.

Definition welcome : TemplateRecord :=
  {| r_id := "t-1"; r_name := "Welcome"; r_category := "Email";
     r_description := "Greeting"; r_content := "Hello {{ user.name }}";
     r_sampleData := None; r_isActive := true;
     r_createdAt := "2024-01-01T00:00:00.000Z";
     r_updatedAt := "2024-01-02T00:00:00.000Z";
     r_userId := Some "u-7"; r_schema := None |}.

Definition remote : value := VObj (record_json welcome).

Definition gateway (_ : list event) (r : HttpRequest) : outcome HttpResponse :=
  if String.eqb (req_method r) "GET"
  then Return (mkResponse true 200 "OK" (Return remote) "{...}")
  else Return (mkResponse true 204 "No Content" (Return VNull) EmptyString).

Definition offline (_ : list event) (_ : HttpRequest) : outcome HttpResponse :=
  Throw (Error "connect ECONNREFUSED").

Definition iso (t : Z) : string := "2025-06-01T12:00:0" +:+ pretty t +:+ "Z".

Definition text_of (v : value) : string :=
  match v with VStr s => s | _ => "?" end.

Definition is_positive (v : value) : bool :=
  match v with VNum q => Qle_bool 1 q | _ => false end.

Definition editor : Host :=
  mkHost (Some "secret") gateway Z.of_nat iso text_of is_positive.

Definition unplugged : Host :=
  mkHost (Some "secret") offline Z.of_nat iso text_of is_positive.

Definition start : State := mkState 0 [] ∅ ∅ ∅.

(** The template opened from the tree view, and its document. *)
Definition item : value := VObj [ ("id", VStr "t-1"); ("name", VStr "Welcome") ].

Definition opened : State := snd (openTemplate item editor start).

Definition doc : TextDocument :=
  mkDocument "untitled:Untitled-" "Hello {{ user.name }}, welcome".

Definition stored : Template :=
  {| id := VStr "t-1"; name := VStr "Welcome"; category := VStr "Email";
     description := VStr "Greeting"; content := VStr "Hello {{ user.name }}";
     sampleData := VNull; isActive := VBool true;
     createdAt := VStr "2024-01-01T00:00:00.000Z";
     updatedAt := VStr "2024-01-02T00:00:00.000Z";
     userId := VStr "u-7"; schema := VUndefined |}.

End Example.

(** * The rest of the service, the commands and the views *)

(** ** More of [TemplateService] *)

(** [getTemplates]: the answer when it is an array, the empty array
    otherwise and after any failure. *)
Definition getTemplates : M (list value) :=
  try_catch
    (let! response := makeApiCall ApiTemplates "GET" None in
     match response with
     | VArr templates => ret templates
     | _ => ret []
     end)
    (fun error =>
       showErrorMessage ("Failed to fetch templates: " +:+ error_text error) >>
       ret []).

(** The PascalCase body of [createTemplate]. *)
Definition create_body (templateData : Template) : list (string * value) :=
  remove_undefined
    [ ("Name", name templateData);
      ("Category", category templateData);
      ("Description", description templateData);
      ("Content", content templateData);
      ("IsActive", isActive templateData);
      ("SampleData", sampleData templateData) ].

Definition createTemplate (templateData : Template) : M value :=
  try_catch
    (makeApiCall ApiTemplates "POST" (Some (VObj (create_body templateData))))
    (fun error =>
       showErrorMessage ("Failed to create template: " +:+ error_text error) >>
       ret VNull).

Definition deleteTemplate (tid : value) : M bool :=
  try_catch
    (let! _ := makeApiCall (ApiTemplate tid) "DELETE" None in ret true)
    (fun error =>
       showErrorMessage ("Failed to delete template: " +:+ error_text error) >>
       ret false).

(** [getUsage]: a failure is logged only. *)
Definition getUsage : M value :=
  try_catch (makeApiCall ApiUsage "GET" None) (fun _ => ret VNull).

(** [template[p].toLowerCase()] *)
Definition lower_field (template : value) (p : string) : M string :=
  let! v := field template p in
  match v with
  | VStr s => ret (toLowerCase s)
  | _ => throw (TypeError (p +:+ ".toLowerCase is not a function"))
  end.

(** The predicate of the filter of [searchTemplates]; [||] reads the next
    field only when the one before does not match. *)
Definition matches_query (searchQuery : string) (template : value) : M bool :=
  let! n := lower_field template "name" in
  if includes n searchQuery then ret true
  else
    let! d := lower_field template "description" in
    if includes d searchQuery then ret true
    else
      let! c := lower_field template "category" in
      ret (includes c searchQuery).

(** [Array.prototype.filter] with a predicate that may throw. *)
Fixpoint filter_templates (keep : value -> M bool) (templates : list value)
  : M (list value) :=
  match templates with
  | [] => ret []
  | template :: rest =>
      let! kept := keep template in
      let! others := filter_templates keep rest in
      ret (if kept then template :: others else others)
  end.

Definition searchTemplates (query : string) : M (list value) :=
  try_catch
    (let! allTemplates := getTemplates in
     let searchQuery := toLowerCase query in
     filter_templates (matches_query searchQuery) allTemplates)
    (fun _ => ret []).

(** ** More of the extension's commands ([src/extension.ts]) *)

(** [deleteTemplate(template)]; [confirm] is the button the user chose in
    the modal dialog, if any. *)
Definition command_deleteTemplate (template : value) (confirm : option string)
  : M unit :=
  let! _ := field template "name" in
  match confirm with
  | Some choice =>
      if String.eqb choice "Delete" then
        try_catch
          (let! tid := field template "id" in
           let! _ := deleteTemplate tid in
           refresh >>
           let! templateName := field template "name" in
           let! h := host in
           showInformationMessage
             ("Template " +:+ quote +:+ stringify h templateName +:+ quote
              +:+ " deleted successfully"))
          (fun error =>
             showErrorMessage
               ("Failed to delete template: " +:+ error_text error))
      else ret tt
  | None => ret tt
  end.

Definition newline : string := String (ascii_of_nat 10) EmptyString.

Definition starter_content : string :=
  "<!-- Start writing your Scriban template here -->" +:+ newline
  +:+ "Hello {{ user.name }}!".

(** The object literal [createNewTemplate] hands to [createTemplate]. *)
Definition new_template (n c d : string) : Template :=
  {| id := VUndefined; name := VStr n; category := VStr c;
     description := VStr d; content := VStr starter_content;
     sampleData := VUndefined; isActive := VBool true;
     createdAt := VUndefined; updatedAt := VUndefined;
     userId := VUndefined; schema := VUndefined |}.

(** An input box left empty or dismissed gives a falsy answer. *)
Definition answered (answer : option string) : option string :=
  match answer with
  | Some s => if String.eqb s EmptyString then None else Some s
  | None => None
  end.

(** [createNewTemplate]; the three arguments are what the user types in
    the three input boxes (the later ones are asked only after the earlier
    ones are answered). *)
Definition createNewTemplate (nameInput categoryInput descriptionInput
                                : option string) : M unit :=
  match answered nameInput with
  | None => ret tt
  | Some n =>
      match answered categoryInput with
      | None => ret tt
      | Some c =>
          match answered descriptionInput with
          | None => ret tt
          | Some d =>
              try_catch
                (let! template := createTemplate (new_template n c d) in
                 if truthy template then
                   refresh >>
                   openTemplate template >>
                   showInformationMessage
                     ("Template " +:+ quote +:+ n +:+ quote
                      +:+ " created successfully")
                 else ret tt)
                (fun error =>
                   showErrorMessage
                     ("Failed to create template: " +:+ error_text error))
          end
      end
  end.

(** ** More of [TestRunner] *)

Definition not_implemented : string :=
  "Direct editor testing not yet implemented. Please save the template first.".

(** [testTemplateFromEditor]: after a valid content the temporary template
    is built (three readings of the clock) and the placeholder error is
    thrown. *)
Definition testTemplateFromEditor (document : TextDocument) (data : value)
  : M TestResult :=
  let! startTime := Date_now in
  try_catch
    (let validation := validateTemplateContent (getText document) in
     if negb (isValid validation) then
       failed startTime (map VStr (errors validation))
     else
       let! _ := Date_now in
       let! _ := Date_iso in
       let! _ := Date_iso in
       throw (Error not_implemented))
    (fun error => failed startTime [VStr (err_message error)]).

(** The result stored when [testTemplate] itself throws. *)
Definition bulk_failure (error : error) : TestResult :=
  {| success := VBool false;
     output := VStr EmptyString;
     duration := Millis 0;
     test_errors := [VStr (err_message error)];
     usageConsumed := None |}.

(** The loop of [runBulkTests] from index [i] on.  [cancelled i] is
    [token.isCancellationRequested] at the start of turn [i]; the result is
    the sequence of the calls [results.set(id, result)], in order (in the
    map a later call for an id replaces the earlier result). *)
Fixpoint bulk_loop (cancelled : nat -> bool) (i : nat)
    (templates : list Template) (data : value)
    (results : list (value * TestResult)) : M (list (value * TestResult)) :=
  match templates with
  | [] => ret results
  | template :: rest =>
      if cancelled i then ret results
      else
        let! entry :=
          try_catch
            (let! result := testTemplate template data in
             ret (id template, result))
            (fun error => ret (id template, bulk_failure error)) in
        bulk_loop cancelled (S i) rest data (results ++ [entry])
  end.

Definition runBulkTests (cancelled : nat -> bool) (templates : list Template)
    (data : value) : M (list (value * TestResult)) :=
  bulk_loop cancelled 0 templates data [].

(** ** [AuthProvider.validateApiKey] ([src/auth/authProvider.ts]) *)

Definition validateApiKey (apiKey : string) : M bool :=
  try_catch
    (let! response := httpRequest (mkRequest ApiUsage "GET" apiKey None) in
     (if negb (ok response) then
        showErrorMessage
          ("API Key validation failed: " +:+ pretty (status response) +:+ " "
           +:+ statusText response +:+ ". "
           +:+ "Make sure your local development server is running on port 5000.")
      else ret tt) >>
     ret (ok response))
    (fun error =>
       showErrorMessage
         ("Failed to connect to API: " +:+ error_text error +:+ ". "
          +:+ "Make sure your local development server is running.") >>
       ret false).

(** ** The tree view ([src/templates/treeProvider.ts])

    The provider keeps the templates it loaded as [Template] objects typed
    as the interface declares them, here [TemplateRecord].  A tree item is
    kept with its label, id, context value, template, description and icon;
    the tooltip, made of dates in the user's locale, is left out. *)

Module Tree.

Record TreeItem : Type := mkItem
  { label : string;
    item_id : string;
    contextValue : string;
    template : option TemplateRecord;
    item_description : option string;
    iconPath : option string }.

(** [parts.join(' ')] *)
Fixpoint join (sep : string) (parts : list string) : string :=
  match parts with
  | [] => EmptyString
  | [p] => p
  | p :: rest => p +:+ sep +:+ join sep rest
  end.

Definition createDescription (t : TemplateRecord) : string :=
  let parts0 : list string := [] in
  let parts1 := if negb (r_isActive t) then parts0 ++ ["(inactive)"] else parts0 in
  let parts2 :=
    if negb (String.eqb (r_description t) EmptyString)
       && (0 <? String.length (r_description t))%nat
    then
      let shortDesc :=
        if (50 <? String.length (r_description t))%nat
        then take_string 47 (r_description t) +:+ "..."
        else r_description t in
      parts1 ++ [shortDesc]
    else parts1 in
  join " " parts2.

Definition getTemplateIcon (t : TemplateRecord) : string :=
  if negb (r_isActive t) then "circle-outline"
  else
    let category := toLowerCase (r_category t) in
    if includes category "email" then "mail"
    else if includes category "report" then "graph"
    else if includes category "invoice" || includes category "billing"
    then "credit-card"
    else if includes category "notification" then "bell"
    else "file-text".

(** [new TemplateTreeItem(name, id, None, 'template', template)] *)
Definition template_item (t : TemplateRecord) : TreeItem :=
  {| label := r_name t; item_id := r_id t; contextValue := "template";
     template := Some t;
     item_description := Some (createDescription t);
     iconPath := Some (getTemplateIcon t) |}.

(** [template.category || 'Uncategorized'] *)
Definition category_of (t : TemplateRecord) : string :=
  if String.eqb (r_category t) EmptyString then "Uncategorized"
  else r_category t.

(** The [Map] of [getCategoryItems], in insertion order: one turn of the
    loop adds [t] to the array of its category, made when missing. *)
Fixpoint group_insert (categories : list (string * list TemplateRecord))
    (category : string) (t : TemplateRecord)
  : list (string * list TemplateRecord) :=
  match categories with
  | [] => [(category, [t])]
  | (c, ts) :: rest =>
      if String.eqb c category then (c, ts ++ [t]) :: rest
      else (c, ts) :: group_insert rest category t
  end.

Definition group_templates (templates : list TemplateRecord)
  : list (string * list TemplateRecord) :=
  fold_left (fun categories t => group_insert categories (category_of t) t)
    templates [].

Definition category_item (categoryName : string) (count : nat) : TreeItem :=
  {| label := categoryName +:+ " (" +:+ pretty count +:+ ")";
     item_id := categoryName; contextValue := "category";
     template := None; item_description := None;
     iconPath := Some "folder" |}.

(** The items of [getCategoryItems] before they are sorted by label (the
    order of [localeCompare] is the host's). *)
Definition category_items (templates : list TemplateRecord) : list TreeItem :=
  map (fun entry => category_item (fst entry) (length (snd entry)))
    (group_templates templates).

(** [getChildren(element)] below the root: the templates of the category
    of [element], nothing under any other item. *)
Definition getChildren (templates : list TemplateRecord) (element : TreeItem)
  : list TreeItem :=
  if String.eqb (contextValue element) "category" then
    map template_item
      (List.filter (fun t => String.eqb (r_category t) (item_id element))
         templates)
  else [].

End Tree.

(** ** The CodeLens commands (second half of [src/auth/authProvider.ts])

    A warning notification leaves no trace. *)

Module CodeLens.

(** A diagnostic on line [line], from column 0 to the end of the line. *)
Record Diagnostic : Type := mkDiagnostic
  { line : nat; end_column : nat; message : string }.

Fixpoint line_diagnostics (i : nat) (lines : list string) : list Diagnostic :=
  match lines with
  | [] => []
  | l :: rest =>
      let openBraces := match_count re_open_braces l in
      let closeBraces := match_count re_close_braces l in
      if Nat.eqb openBraces closeBraces then line_diagnostics (S i) rest
      else mkDiagnostic i (String.length l) "Unmatched braces {{ }}"
           :: line_diagnostics (S i) rest
  end.

(** The diagnostics of [validateTemplateFromEditor]. *)
Definition diagnostics_of (text : string) : list Diagnostic :=
  line_diagnostics 0 (split_on (ascii_of_nat 10) text).

Definition validateTemplateFromEditor (document : TextDocument)
  : M (list Diagnostic) :=
  let diagnostics := diagnostics_of (getText document) in
  (if Nat.eqb (length diagnostics) 0
   then showInformationMessage "✅ Template syntax is valid"
   else ret tt) >>
  ret diagnostics.

(** [saveTemplateFromEditor]: the save of the CodeLens.  The stored object
    has no [templateId] and no [templateName]. *)
Definition saveTemplateFromEditor (document : TextDocument) : M unit :=
  let! st := get_state in
  match templateDocuments st !! uri document with
  | None => ret tt
  | Some templateInfo =>
      let! template := read templateInfo in
      let templateId := or_else (id template) VUndefined in
      let templateName := or_else (name template) VUndefined in
      if negb (truthy templateId) then
        showErrorMessage
          "Template ID is missing. Please reopen the template from the tree view."
      else
        try_catch
          (let! updatedTemplate :=
             updateTemplate templateId
               (save_data template (getText document)) in
           if truthy updatedTemplate then
             let! h := host in
             showInformationMessage
               ("Template " +:+ quote +:+ stringify h templateName +:+ quote
                +:+ " saved to server successfully")
           else ret tt)
          (fun error =>
             showErrorMessage
               ("Failed to save template to server: " +:+ error_text error))
  end.

End CodeLens.

(** ** Notions the further properties are stated with *)

(** The ways the fetch of [getTemplate] fails: no API key, a rejected
    request, a status that is not 2xx, a body that does not parse, an empty
    body. *)
Inductive fetch_fails (h : Host) (st : State) (tid : value) : Prop :=
| fetch_unauthenticated :
    key_of h = None -> fetch_fails h st tid
| fetch_rejected (k : string) (e : error) :
    key_of h = Some k ->
    net h (trace st) (fetch_request k tid) = Throw e ->
    fetch_fails h st tid
| fetch_status (k : string) (resp : HttpResponse) :
    key_of h = Some k ->
    net h (trace st) (fetch_request k tid) = Return resp ->
    ok resp = false ->
    fetch_fails h st tid
| fetch_unparsed (k : string) (resp : HttpResponse) (e : error) :
    key_of h = Some k ->
    net h (trace st) (fetch_request k tid) = Return resp ->
    ok resp = true ->
    json resp = Throw e ->
    fetch_fails h st tid
| fetch_empty (k : string) (resp : HttpResponse) :
    key_of h = Some k ->
    net h (trace st) (fetch_request k tid) = Return resp ->
    ok resp = true ->
    json resp = Return VNull ->
    fetch_fails h st tid.

(** Nothing was sent between [st] and [st']. *)
Definition no_request (st st' : State) : Prop :=
  forall r, In (Http r) (trace st') -> In (Http r) (trace st).

(** Between [st] and [st'] nothing was sent and the registry and the
    documents were left alone: all the trace gained is error messages. *)
Definition left_alone (st st' : State) : Prop :=
  no_request st st'
  /\ heap st' = heap st
  /\ templateDocuments st' = templateDocuments st
  /\ documents st' = documents st
  /\ exists shown,
       trace st' = trace st ++ shown
       /\ Forall (fun e => exists message, e = ShowError message) shown.

(** A record of the list the gateway answers, as a value. *)
Definition record_value (r : TemplateRecord) : value := VObj (record_json r).

(** Written from the specification of the search: the query occurs, letter
    case aside, in the name, in the description or in the category. *)
Definition record_matches (query : string) (r : TemplateRecord) : bool :=
  includes (toLowerCase (r_name r)) (toLowerCase query)
  || includes (toLowerCase (r_description r)) (toLowerCase query)
  || includes (toLowerCase (r_category r)) (toLowerCase query).

(** The same record in the PascalCase of the remote service. *)
Definition record_json_pascal (r : TemplateRecord) : list (string * value) :=
  [ ("Id", VStr (r_id r)); ("Name", VStr (r_name r));
    ("Category", VStr (r_category r));
    ("Description", VStr (r_description r));
    ("Content", VStr (r_content r)) ]
  ++ optional "SampleData" (r_sampleData r)
  ++ [ ("IsActive", VBool (r_isActive r));
       ("CreatedAt", VStr (r_createdAt r));
       ("UpdatedAt", VStr (r_updatedAt r)) ]
  ++ optional "UserId" (r_userId r)
  ++ optional "Schema" (r_schema r).

Definition filled (o : option string) : Prop := o <> Some EmptyString.

(** No string of the record is empty. *)
Definition complete (r : TemplateRecord) : Prop :=
  r_id r <> EmptyString /\ r_name r <> EmptyString
  /\ r_category r <> EmptyString /\ r_description r <> EmptyString
  /\ r_content r <> EmptyString /\ r_createdAt r <> EmptyString
  /\ r_updatedAt r <> EmptyString
  /\ filled (r_sampleData r) /\ filled (r_userId r) /\ filled (r_schema r).

(** The text has no brace at all. *)
Fixpoint brace_free (s : string) : bool :=
  match s with
  | EmptyString => true
  | String c s' => negb (is_brace c) && brace_free s'
  end.

(** [list_sum] of the occurrences on each line. *)
Definition occurrences_by_line (pat text : string) : nat :=
  list_sum (map (occurrences pat) (split_on (ascii_of_nat 10) text)).

(** The render request of a test. *)
Definition render_request (k : string) (tid data : value) : HttpRequest :=
  mkRequest (ApiRender tid) "POST" k (Some data).

(** The content is a string that passes the validation. *)
Definition valid_content (v : value) : bool :=
  match v with
  | VStr s => isValid (validateTemplateContent s)
  | _ => false
  end.

(** What a test of [t] sends: the render request, when there is a key and
    the content is valid. *)
Definition test_events (h : Host) (t : Template) (data : value) : list event :=
  match key_of h with
  | Some k =>
      if valid_content (content t)
      then [Http (render_request k (id t) data)]
      else []
  | None => []
  end.

(** The templates a bulk run gets to before it is cancelled. *)
Fixpoint tested (cancelled : nat -> bool) (i : nat) (templates : list Template)
  : list Template :=
  match templates with
  | [] => []
  | t :: rest => if cancelled i then [] else t :: tested cancelled (S i) rest
  end.

(** A gateway that renders every template to the same page. *)
Definition renderer : Host :=
  mkHost (Some "secret")
    (fun _ _ =>
       Return (mkResponse true 200 "OK"
                 (Return (VObj [ ("Output", VStr "<p>Hi</p>");
                                 ("RenderTime", VNum (1 # 4)) ]))
                 "{...}"))
    Z.of_nat Example.iso Example.text_of Example.is_positive.

(** Between [st] and [st'] only the clock may have been read. *)
Definition only_clock (st st' : State) : Prop :=
  trace st' = trace st /\ heap st' = heap st
  /\ templateDocuments st' = templateDocuments st
  /\ documents st' = documents st.

Definition is_object (v : value) : bool :=
  match v with VObj _ => true | _ => false end.

(** A string or a number, which is all [generateSampleValue] returns. *)
Definition is_primitive (v : value) : bool :=
  match v with VStr _ | VNum _ => true | _ => false end.

(** A write of a string or a number to a built-in object that every
    object inherits from. *)
Definition is_builtin_write (e : event) : Prop :=
  exists o p v,
    e = BuiltinWrite o p v /\ inherited o = true /\ is_primitive v = true.

(** Between [st] and [st'] the registry and the documents were left alone
    and nothing was sent or shown: the trace gained writes to built-in
    objects only. *)
Definition only_builtin_writes (st st' : State) : Prop :=
  heap st' = heap st
  /\ templateDocuments st' = templateDocuments st
  /\ documents st' = documents st
  /\ exists writes,
       trace st' = trace st ++ writes /\ Forall is_builtin_write writes.

(** Written from the specification of the synthesizer ("scan for all
    substrings matching a double-brace variable reference, strip
    braces/filters, split on [.]"): the segments of a reference are those
    of the text between the braces up to the first filter. *)
Definition strip_filters (s : string) : string :=
  hd EmptyString (split_on "|" s).

Definition reference_segments (m : string) : list string :=
  split_on "." (trim (strip_filters (replace_all re_brace EmptyString m))).

(** The references of a text that have at least two dot-separated
    segments. *)
Definition two_segment_references (content : string) : list (list string) :=
  List.filter (fun segments => (2 <=? length segments)%nat)
    (map reference_segments (default [] (variableMatches content))).

(** The object names of the references of a text, as the loop of the
    synthesizer splits them. *)
Definition object_names (content : string) : list string :=
  flat_map (fun m => match parts_of m with
                     | objectName :: _ :: _ => [objectName]
                     | _ => []
                     end)
    (default [] (variableMatches content)).

(** Sample data under construction: distinct keys, an object under each. *)
Definition two_level (sampleData : list (string * value)) : Prop :=
  List.NoDup (keys sampleData)
  /\ Forall (fun kv => is_object (snd kv) = true) sampleData.

(** The array kept for a category in the map of [getCategoryItems]. *)
Fixpoint group_of (categories : list (string * list TemplateRecord))
    (category : string) : option (list TemplateRecord) :=
  match categories with
  | [] => None
  | (c, ts) :: rest =>
      if String.eqb c category then Some ts else group_of rest category
  end.

(** The number of templates counted in the labels. *)
Definition counted (categories : list (string * list TemplateRecord)) : nat :=
  list_sum (map (fun entry => length (snd entry)) categories).

(** Two more records and a gateway that lists the three. *)
Definition invoice : TemplateRecord :=
  {| r_id := "t-2"; r_name := "Invoice"; r_category := "Billing";
     r_description := "Monthly invoice, sent after the WELCOME mail";
     r_content := "Total: {{ order.total }}";
     r_sampleData := None; r_isActive := false;
     r_createdAt := "2024-02-01T00:00:00.000Z";
     r_updatedAt := "2024-02-02T00:00:00.000Z";
     r_userId := None; r_schema := None |}.

Definition reminder : TemplateRecord :=
  {| r_id := "t-3"; r_name := "Reminder"; r_category := EmptyString;
     r_description := EmptyString; r_content := "Due {{ invoice.dueDate }}";
     r_sampleData := None; r_isActive := true;
     r_createdAt := "2024-03-01T00:00:00.000Z";
     r_updatedAt := "2024-03-02T00:00:00.000Z";
     r_userId := None; r_schema := None |}.

Definition listing : Host :=
  mkHost (Some "secret")
    (fun _ _ =>
       Return (mkResponse true 200 "OK"
                 (Return (VArr (map record_value
                                  [Example.welcome; invoice; reminder])))
                 "[...]"))
    Z.of_nat Example.iso Example.text_of Example.is_positive.

(** * Properties *)

(** ** The model on small inputs *)

Example scan_does_not_overlap :
  scan re_open_braces 0 "{{{ {{{{ {" = [ "{{"; "{{"; "{{" ].
Proof. reflexivity. Qed.

Example if_blocks_skip_white_space :
  match_count re_if "{% if a %}{%   if b %}{%if c %}{ % if d %}" = 3%nat.
Proof. reflexivity. Qed.

Example variable_needs_a_name :
  variableMatches "{{ a } b }} {{}} {{ }} {{x}} {{{y}}} }} {{ z.w }"
  = Some [ "{{ }}"; "{{x}}"; "{{{y}}" ].
Proof. reflexivity. Qed.

Example parts_of_filtered_reference :
  parts_of "{{ order.total | math.round }}"
  = [ "order"; "total | math"; "round" ].
Proof. reflexivity. Qed.

Example validate_reports_each_mismatch :
  validateTemplateContent "{{ {% if x %} {%   endif %} {% for"
  = {| isValid := false;
       errors := [ brace_mismatch; statement_mismatch; for_mismatch ] |}.
Proof. reflexivity. Qed.

Example first_letter_forms :
  lowerFirst "RenderTime" = "renderTime" /\ upperFirst "output" = "Output"
  /\ lowerFirst EmptyString = EmptyString.
Proof. repeat split. Qed.

Example open_binds_the_fetched_record :
  binding Example.opened "untitled:Untitled-" = Some Example.stored
  /\ documents Example.opened !! "untitled:Untitled-"
     = Some "Hello {{ user.name }}".
Proof. split; reflexivity. Qed.

Example close_unbinds :
  binding (snd (onDidCloseTextDocument "untitled:Untitled-" Example.editor
                  Example.opened)) "untitled:Untitled-" = None.
Proof. reflexivity. Qed.

(** ** Validation: what the brace check counts *)

Section LiteralPatterns.

Lemma drop_string_length (n : nat) (s : string) :
  String.length (drop_string n s) = (String.length s - n)%nat.
Proof.
  revert s; induction n as [|n IH]; intros [|a s]; simpl; try lia.
  apply IH.
Qed.

Lemma match_here_lit (pat s : string) :
  match_here (lit pat) s =
  if String.prefix pat s then Some (drop_string (String.length pat) s)
  else None.
Proof.
  revert s; induction pat as [|c pat IH]; intros s; simpl.
  - now destruct s.
  - destruct s as [|a s]; simpl; [reflexivity|].
    destruct (Ascii.eqb_spec c a) as [->|Hne].
    + destruct (ascii_dec a a) as [_|F]; [|congruence]. apply IH.
    + destruct (ascii_dec c a) as [E|_]; [congruence|reflexivity].
Qed.

Lemma prefix_length (pat s : string) :
  String.prefix pat s = true -> (String.length pat <= String.length s)%nat.
Proof.
  revert s; induction pat as [|c pat IH]; intros [|a s]; simpl;
    try lia; try discriminate.
  destruct (ascii_dec c a); [|discriminate].
  intros H; apply IH in H; lia.
Qed.

Lemma take_string_prefix (pat s : string) :
  String.prefix pat s = true -> take_string (String.length pat) s = pat.
Proof.
  revert s; induction pat as [|c pat IH]; intros [|a s]; simpl;
    try reflexivity; try discriminate.
  destruct (ascii_dec c a) as [->|]; [|discriminate].
  intros H; now rewrite IH.
Qed.

Lemma match_at_lit (pat s : string) :
  match_at (lit pat) s = if String.prefix pat s then Some pat else None.
Proof.
  unfold match_at; rewrite match_here_lit.
  destruct (String.prefix pat s) eqn:P; [|reflexivity].
  pose proof (prefix_length _ _ P) as L.
  rewrite drop_string_length.
  replace (String.length s - (String.length s - String.length pat))%nat
    with (String.length pat) by lia.
  now rewrite take_string_prefix.
Qed.

Lemma scan_lit (pat : string) (skip : nat) (s : string) :
  pat <> EmptyString ->
  length (scan (lit pat) skip s) = occurrences_from pat skip s.
Proof.
  intros Hpat; revert skip; induction s as [|a s IH]; intros skip.
  - destruct skip; cbn [scan occurrences_from]; [|reflexivity].
    rewrite match_at_lit. destruct pat; [congruence|reflexivity].
  - destruct skip; cbn [scan occurrences_from]; [|apply IH].
    rewrite match_at_lit.
    destruct (String.prefix pat (String a s)); cbn [length];
      now rewrite IH.
Qed.

Lemma match_count_lit (pat s : string) :
  pat <> EmptyString -> match_count (lit pat) s = occurrences pat s.
Proof.
  intros Hpat; unfold match_count, match_all, occurrences.
  rewrite <- (scan_lit pat 0 s Hpat).
  now destruct (scan (lit pat) 0 s).
Qed.

End LiteralPatterns.

Lemma In_push_unless_equal (x : string) (a b : nat) (msg : string)
    (errs : list string) :
  In x (push_unless_equal a b msg errs) <-> In x errs \/ (a <> b /\ x = msg).
Proof.
  unfold push_unless_equal.
  destruct (Nat.eqb_spec a b) as [E|E].
  - intuition congruence.
  - rewrite in_app_iff; simpl. intuition congruence.
Qed.

(** C6. The brace-mismatch error is reported exactly when the text holds
    different numbers of [{{] and of [}}] (occurrences counted from the left
    without overlap, nesting not tracked); [isValid] holds exactly when no
    error is reported; and ["{{ {{ }} }}"], with two of each, is valid. *)
Theorem validate_brace_mismatch_iff (content : string) :
  (In brace_mismatch (errors (validateTemplateContent content)) <->
   occurrences "{{" content <> occurrences "}}" content)
  /\ (isValid (validateTemplateContent content) = true <->
      errors (validateTemplateContent content) = [])
  /\ (occurrences "{{" "{{ {{ }} }}" = 2%nat
      /\ occurrences "}}" "{{ {{ }} }}" = 2%nat
      /\ validateTemplateContent "{{ {{ }} }}"
         = {| isValid := true; errors := [] |}).
Proof.
  split; [|split].
  - unfold validateTemplateContent; cbn [errors].
    rewrite !In_push_unless_equal.
    unfold re_open_braces, re_close_braces.
    rewrite !match_count_lit by discriminate.
    unfold brace_mismatch, statement_mismatch, if_mismatch, for_mismatch.
    cbn [In]. split.
    + intros [[[[[]|[H _]]|[_ H]]|[_ H]]|[_ H]];
        [exact H|discriminate H..].
    + intros H. do 3 left. right. split; [exact H|reflexivity].
  - unfold validateTemplateContent; cbn [errors isValid].
    match goal with |- context [length ?l] => destruct l end; simpl.
    + split; reflexivity.
    + split; discriminate.
  - repeat split; reflexivity.
Qed.

(** ** Sample data *)

Lemma add_samples_skip (ms : list string) (w : Writes)
    (sampleData : list (string * value)) (h : Host) (st : State) :
  (forall m, In m ms -> (length (parts_of m) < 2)%nat) ->
  add_samples w sampleData ms h st = (Return (w, sampleData), st).
Proof.
  induction ms as [|m ms IH]; intros Hms; [reflexivity|].
  cbn [add_samples]. unfold bind at 1.
  assert (add_sample w sampleData m h st = (Return (w, sampleData), st))
    as ->.
  { unfold add_sample.
    pose proof (Hms m (or_introl eq_refl)) as Hm.
    destruct (parts_of m) as [|a [|b rest]]; simpl in Hm;
      [reflexivity|reflexivity|lia]. }
  apply IH. intros m' Hm'. apply Hms. now right.
Qed.

(** C7. On ["Hello {{ user.name }}, total {{ order.total }}"] the
    synthesizer returns an object whose keys are exactly [user] and
    [order]; [user.name] is the value of the name rule and [order.total] is
    the generic default placeholder, the word "total" matching no rule, and
    not the number of the price rule. *)
Theorem synthesize_user_order (h : Host) (st : State) :
  synthesize "Hello {{ user.name }}, total {{ order.total }}" h st
  = (Return (VObj [ ("user", VObj [ ("name", VStr "John Doe") ]);
                    ("order", VObj [ ("total", VStr "Sample Value") ]) ]),
     st)
  /\ keys [ ("user", VObj [ ("name", VStr "John Doe") ]);
            ("order", VObj [ ("total", VStr "Sample Value") ]) ]
     = [ "user"; "order" ]
  /\ generateSampleValue "name" h st = (Return (VStr "John Doe"), st)
  /\ generateSampleValue "total" h st = (Return (VStr "Sample Value"), st)
  /\ VStr "Sample Value" <> VNum (9999 # 100).
Proof.
  repeat split; try reflexivity. discriminate.
Qed.

(** When no match of the text splits into two parts, the loop stores
    nothing and the synthesizer returns the fixed default fixture, which is
    not the empty object.  The parts are those of [parts_of]: the text
    between the braces, filters included. *)
Lemma synthesize_default_fixture (content : string) (h : Host) (st : State) :
  (forall m, In m (default [] (variableMatches content)) ->
             (length (parts_of m) < 2)%nat) ->
  synthesize content h st = (Return default_fixture, st)
  /\ default_fixture <> VObj [].
Proof.
  intros Hrefs. split; [|discriminate].
  unfold synthesize, bind.
  destruct (variableMatches content) as [ms|]; cbn [default] in Hrefs.
  - now rewrite (add_samples_skip ms no_writes [] h st Hrefs).
  - reflexivity.
Qed.

Lemma synthesize_default_fixture_witness :
  synthesize "no variables here" Example.editor Example.start
  = (Return default_fixture, Example.start)
  /\ default_fixture <> VObj [].
Proof.
  apply (synthesize_default_fixture "no variables here").
  intros m Hm. vm_compute in Hm. destruct Hm.
Defined.

(** C8. The claim counts the segments of a reference with its filters
    stripped; the loop of the synthesizer splits the text between the
    braces as it is.  On ["Hi {{ name | string.upcase }}"] the text has one
    reference, [name], of one segment, so none of two, and the claim
    promises the default fixture; the code splits at the dot of the filter
    and returns an object with the key ["name | string"] instead.  On the
    claim's own example, ["no variables here"], the default fixture is
    returned. *)
Theorem synthesize_splits_filters (h : Host) (st : State) :
  let content := "Hi {{ name | string.upcase }}" in
  map reference_segments (default [] (variableMatches content)) = [ ["name"] ]
  /\ two_segment_references content = []
  /\ map parts_of (default [] (variableMatches content))
     = [ ["name | string"; "upcase"] ]
  /\ synthesize content h st
     = (Return (VObj [ ("name | string",
                        VObj [ ("upcase", VStr "Sample Value") ]) ]),
        st)
  /\ VObj [ ("name | string", VObj [ ("upcase", VStr "Sample Value") ]) ]
     <> default_fixture
  /\ synthesize "no variables here" h st = (Return default_fixture, st).
Proof.
  cbv zeta. do 4 (split; [reflexivity|]). split; [discriminate|reflexivity].
Qed.

(** ** Reading the fields of a render result *)

(** C9. [getProp] reads a field of a render result in this order: the
    exact key when its value is defined; else the key with its first letter
    in lower case when defined; else the key with its first letter in upper
    case when defined; else it goes on to the next name, and gives
    [undefined] when no name is left. *)
Theorem getProp_priority (o : list (string * value)) (p : string)
    (rest : list string) :
  (get_prop o p <> VUndefined -> getProp o (p :: rest) = get_prop o p)
  /\ (get_prop o p = VUndefined ->
      get_prop o (lowerFirst p) <> VUndefined ->
      getProp o (p :: rest) = get_prop o (lowerFirst p))
  /\ (get_prop o p = VUndefined ->
      get_prop o (lowerFirst p) = VUndefined ->
      get_prop o (upperFirst p) <> VUndefined ->
      getProp o (p :: rest) = get_prop o (upperFirst p))
  /\ (get_prop o p = VUndefined ->
      get_prop o (lowerFirst p) = VUndefined ->
      get_prop o (upperFirst p) = VUndefined ->
      getProp o (p :: rest) = getProp o rest)
  /\ getProp o [] = VUndefined.
Proof.
  assert (forall v, v <> VUndefined -> defined v = true) as Hdef
    by (intros [] H; try reflexivity; congruence).
  cbn [getProp]. repeat split.
  - intros H. now rewrite (Hdef _ H).
  - intros -> H. cbn [defined]. now rewrite (Hdef _ H).
  - intros -> -> H. cbn [defined]. now rewrite (Hdef _ H).
  - intros -> -> ->. reflexivity.
Qed.

Lemma getProp_priority_witness :
  let o := [ ("Output", VStr "<p>Hi</p>"); ("renderTime", VNum (1 # 4)) ] in
  getProp o [ "renderTime"; "RenderTime" ] = VNum (1 # 4)
  /\ getProp o [ "RenderTime" ] = VNum (1 # 4)
  /\ getProp o [ "output"; "result" ] = VStr "<p>Hi</p>"
  /\ getProp o [ "error"; "Error" ] = getProp o [ "Error" ].
Proof.
  cbv zeta.
  set (o := [ ("Output", VStr "<p>Hi</p>"); ("renderTime", VNum (1 # 4)) ]).
  split; [|split; [|split]].
  - destruct (getProp_priority o "renderTime" [ "RenderTime" ])
      as (Hexact & _).
    rewrite Hexact; [reflexivity|discriminate].
  - destruct (getProp_priority o "RenderTime" []) as (_ & Hlower & _).
    rewrite Hlower; [reflexivity|reflexivity|discriminate].
  - destruct (getProp_priority o "output" [ "result" ])
      as (_ & _ & Hupper & _).
    rewrite Hupper; [reflexivity|reflexivity|reflexivity|discriminate].
  - destruct (getProp_priority o "error" [ "Error" ])
      as (_ & _ & _ & Hnext & _).
    rewrite Hnext; reflexivity.
Defined.

(** ** Running the update and the save *)

(** [updateTemplate], case by case. *)
Lemma updateTemplate_run (tid : value) (td : Template) (h : Host) (st : State) :
  updateTemplate tid td h st =
  if negb (truthy (name td)) then
    (Return VNull, log [update_failed (Error "Name field is required")] st)
  else if negb (truthy (content td)) then
    (Return VNull, log [update_failed (Error "Content field is required")] st)
  else
    match key_of h with
    | None =>
        (Return VNull,
         log [update_failed (Error "Not authenticated. Please login first.")]
           (tick 1 st))
    | Some k =>
        let req :=
          update_request k tid td (toISOString h (clock h (ticks st))) in
        match net h (trace st) req with
        | Throw e =>
            (Return VNull, log [update_failed e] (log [Http req] (tick 1 st)))
        | Return resp =>
            if negb (ok resp) then
              (Return VNull,
               log [update_failed (api_failure resp)]
                 (log [Http req] (tick 1 st)))
            else
              match json resp with
              | Throw e =>
                  (Return VNull,
                   log [update_failed e] (log [Http req] (tick 1 st)))
              | Return VNull =>
                  (Return
                     (confirmation tid td
                        (toISOString h (clock h (S (ticks st))))),
                   log [Http req] (tick 2 st))
              | Return v => (Return v, log [Http req] (tick 1 st))
              end
        end
    end.
Proof.
  unfold updateTemplate, try_catch.
  destruct (truthy (name td)); [|reflexivity].
  destruct (truthy (content td)); [|reflexivity].
  cbn [negb].
  unfold bind at 1, Date_iso at 1, bind at 1, Date_now at 1, bind at 1,
    host at 1, ret at 1.
  unfold bind at 1, makeApiCall at 1, bind at 1, getApiKey at 1, bind at 1,
    host at 1, key_of.
  destruct (secret_apiKey h) as [k|]; [|reflexivity].
  destruct (String.eqb k EmptyString); [reflexivity|].
  unfold ret at 1, bind at 1, httpRequest at 1; cbn [trace].
  fold (update_request k tid td (toISOString h (clock h (ticks st)))).
  destruct (net h (trace st) _) as [resp|e]; [|reflexivity].
  destruct (ok resp); [|reflexivity].
  cbn [negb]. unfold lift.
  destruct (json resp) as [v|e]; [|reflexivity].
  destruct v; reflexivity.
Qed.

(** [saveTemplateToServer] on a bound document, in terms of the update. *)
Lemma saveTemplateToServer_run (document : TextDocument) (h : Host)
    (st : State) (l : nat) (stored : Template) :
  templateDocuments st !! uri document = Some l ->
  heap st !! l = Some stored ->
  saveTemplateToServer document h st =
  if negb (truthy (name stored)) then
    (Return tt,
     log [save_failed (Error "Template name is missing from stored template")]
       st)
  else
    match updateTemplate (id stored) (save_data stored (getText document)) h st
    with
    | (Return updatedTemplate, st1) =>
        if truthy updatedTemplate then
          (Return tt,
           log [RefreshTree]
             (store_content l (VStr (getText document))
                (log [save_succeeded h (name stored)] st1)))
        else (Return tt, st1)
    | (Throw e, st1) => (Return tt, log [save_failed e] st1)
    end.
Proof.
  intros Hmap Hheap.
  unfold saveTemplateToServer, bind at 1, get_state at 1.
  rewrite Hmap. unfold try_catch, bind at 1, read at 1. rewrite Hheap.
  destruct (truthy (name stored)); [|reflexivity].
  cbn [negb]. unfold bind at 1.
  destruct (updateTemplate _ _ h st) as [[v|e] st1]; [|reflexivity].
  destruct (truthy v); reflexivity.
Qed.

(** ** Validation before the network *)

(** C4. An update whose [name] or [content] is empty or missing fails
    locally: the caller gets [null], the user is shown the validation error,
    the clock is not read and no request is sent, whatever the host. *)
Theorem updateTemplate_validation_is_local (tid : value) (td : Template)
    (h : Host) (st : State) :
  truthy (name td) = false \/ truthy (content td) = false ->
  exists reason,
    (reason = "Name field is required"
     \/ reason = "Content field is required")
    /\ updateTemplate tid td h st
       = (Return VNull,
          log [ShowError ("Failed to update template: Error: " +:+ reason)] st)
    /\ (forall r, In (Http r) (trace (snd (updateTemplate tid td h st))) ->
                  In (Http r) (trace st)).
Proof.
  intros Hinvalid. rewrite updateTemplate_run.
  destruct (truthy (name td)) eqn:Hname; cbn [negb].
  - destruct Hinvalid as [Hn|Hc]; [discriminate|]. rewrite Hc; cbn [negb].
    exists "Content field is required". split; [now right|].
    split; [reflexivity|].
    intros r; cbn [snd log trace]. rewrite in_app_iff.
    intros [Hin|[Hin|[]]]; [exact Hin|discriminate].
  - exists "Name field is required". split; [now left|].
    split; [reflexivity|].
    intros r; cbn [snd log trace]. rewrite in_app_iff.
    intros [Hin|[Hin|[]]]; [exact Hin|discriminate].
Qed.

Lemma updateTemplate_validation_is_local_witness :
  exists reason,
    (reason = "Name field is required"
     \/ reason = "Content field is required")
    /\ updateTemplate (VStr "t-1")
         (save_data (mkTemplate (VStr "t-1") (VStr "Welcome") VUndefined
                       VUndefined VUndefined VUndefined VUndefined VUndefined
                       VUndefined VUndefined VUndefined) EmptyString)
         Example.editor Example.start
       = (Return VNull,
          log [ShowError ("Failed to update template: Error: " +:+ reason)]
            Example.start)
    /\ (forall r,
          In (Http r)
            (trace (snd (updateTemplate (VStr "t-1")
               (save_data (mkTemplate (VStr "t-1") (VStr "Welcome") VUndefined
                       VUndefined VUndefined VUndefined VUndefined VUndefined
                       VUndefined VUndefined VUndefined) EmptyString)
               Example.editor Example.start))) ->
          In (Http r) (trace Example.start)).
Proof.
  apply updateTemplate_validation_is_local. right. reflexivity.
Defined.

(** ** A save that fails *)

Lemma truthy_buffer (buffer : string) :
  truthy (VStr buffer) = false <-> buffer = EmptyString.
Proof.
  cbn [truthy]. destruct (String.eqb_spec buffer EmptyString); cbn [negb].
  - tauto.
  - split; [discriminate|contradiction].
Qed.

Lemma failed_quietly_binding (st st' : State) (u : string) :
  failed_quietly st st' -> binding st' u = binding st u.
Proof. intros (Hh & Hd & _). unfold binding. now rewrite Hh, Hd. Qed.

(** A failed save, computed: the state is the one before with the clock
    read at most once and, in the trace, the request if one was made and
    then the message of the failure. *)
Lemma save_failure_run (document : TextDocument) (h : Host) (st : State)
    (l : nat) (stored : Template) :
  templateDocuments st !! uri document = Some l ->
  heap st !! l = Some stored ->
  update_fails h st stored (getText document) ->
  exists n sent message,
    surfaced h st stored (getText document) sent message
    /\ saveTemplateToServer document h st
       = (Return tt, log [ShowError message] (log sent (tick n st))).
Proof.
  intros Hmap Hheap Hfails.
  rewrite (saveTemplateToServer_run document h st l stored Hmap Hheap).
  destruct (truthy (name stored)) eqn:Hname; cbn [negb].
  2: { exists 0%nat, []; eexists. split; [now apply surfaced_name|].
       unfold save_failed, log, tick, error_text; cbn.
       now rewrite app_nil_r. }
  rewrite updateTemplate_run.
  change (name (save_data stored (getText document))) with (name stored).
  change (content (save_data stored (getText document)))
    with (VStr (getText document)).
  rewrite Hname; cbn [negb].
  destruct (truthy (VStr (getText document))) eqn:Hcontent; cbn [negb].
  2: { exists 0%nat, []; eexists. split.
       - apply surfaced_content; [exact Hname|].
         cbn [truthy] in Hcontent.
         destruct (String.eqb_spec (getText document) EmptyString);
           [assumption|discriminate].
       - unfold update_failed, log, tick, error_text; cbn.
         now rewrite app_nil_r. }
  assert (getText document <> EmptyString) as Hbuffer.
  { intros E. apply truthy_buffer in E. congruence. }
  destruct (key_of h) as [k|] eqn:Hkey.
  2: { exists 1%nat, []; eexists. split; [now apply surfaced_unauthenticated|].
       unfold update_failed, log, tick, error_text; cbn.
       now rewrite app_nil_r. }
  cbv zeta.
  destruct (net h (trace st) _) as [resp|e] eqn:Hnet.
  2: { exists 1%nat; do 2 eexists. split; [now apply (surfaced_network _ _ _ _ k e)|].
       reflexivity. }
  destruct (ok resp) eqn:Hok; cbn [negb].
  2: { exists 1%nat; do 2 eexists.
       split; [now apply (surfaced_status _ _ _ _ k resp)|]. reflexivity. }
  destruct (json resp) as [v|e] eqn:Hjson.
  2: { exists 1%nat; do 2 eexists.
       split; [now apply (surfaced_body _ _ _ _ k resp e)|]. reflexivity. }
  exfalso.
  destruct Hfails as [[Hn|Hb]|Hk|k' e Hk Hnet'|k' resp' Hk Hnet' Hok'
                     |k' resp' e Hk Hnet' Hjson'];
    congruence.
Qed.

(** C5. When the update call of a save fails, the save returns normally, no
    template object and no binding changes (the bound record keeps every
    field, [content] included), and the failure is surfaced: the last
    event is the error message of the first cause met, which carries the
    underlying error (for a rejected status its code, its text and the
    body of the answer).  At most one request has been sent, the update
    itself: nothing is tried again. *)
Theorem save_failure_leaves_binding (document : TextDocument) (h : Host)
    (st : State) (l : nat) (stored : Template) :
  templateDocuments st !! uri document = Some l ->
  heap st !! l = Some stored ->
  update_fails h st stored (getText document) ->
  fst (saveTemplateToServer document h st) = Return tt
  /\ (forall u, binding (snd (saveTemplateToServer document h st)) u
                = binding st u)
  /\ failed_quietly st (snd (saveTemplateToServer document h st))
  /\ exists sent message,
       surfaced h st stored (getText document) sent message
       /\ trace (snd (saveTemplateToServer document h st))
          = trace st ++ sent ++ [ShowError message].
Proof.
  intros Hmap Hheap Hfails.
  destruct (save_failure_run document h st l stored Hmap Hheap Hfails)
    as (n & sent & message & Hsurfaced & ->).
  cbn [fst snd].
  assert (failed_quietly st (log [ShowError message] (log sent (tick n st))))
    as Hquiet.
  { do 2 (split; [reflexivity|]). exists sent, message.
    cbn [log tick trace]. split; [now rewrite <- app_assoc|].
    destruct Hsurfaced; eauto. }
  split; [reflexivity|].
  split; [intros u; now apply failed_quietly_binding|].
  split; [exact Hquiet|].
  exists sent, message. split; [exact Hsurfaced|].
  cbn [log tick trace]. now rewrite <- app_assoc.
Qed.

Lemma save_failure_leaves_binding_witness :
  fst (saveTemplateToServer Example.doc Example.unplugged Example.opened)
  = Return tt
  /\ (forall u,
        binding (snd (saveTemplateToServer Example.doc Example.unplugged
                        Example.opened)) u
        = binding Example.opened u)
  /\ failed_quietly Example.opened
       (snd (saveTemplateToServer Example.doc Example.unplugged
               Example.opened))
  /\ exists sent message,
       surfaced Example.unplugged Example.opened Example.stored
         (getText Example.doc) sent message
       /\ trace (snd (saveTemplateToServer Example.doc Example.unplugged
                        Example.opened))
          = trace Example.opened ++ sent ++ [ShowError message].
Proof.
  apply (save_failure_leaves_binding Example.doc Example.unplugged
           Example.opened 0%nat Example.stored).
  - reflexivity.
  - reflexivity.
  - apply (fails_network _ _ _ _ "secret" (Error "connect ECONNREFUSED"));
      reflexivity.
Defined.

(** ** The request of a save *)

Lemma own_remove_undefined (props : list (string * value)) (p : string) :
  List.NoDup (keys props) ->
  own (remove_undefined props) p =
  match own props p with
  | Some VUndefined => None
  | found => found
  end.
Proof.
  induction props as [|[k v] props IH]; intros Hnodup; [reflexivity|].
  apply List.NoDup_cons_iff in Hnodup as [Hk Hnodup].
  cbn [remove_undefined List.filter snd own].
  fold (remove_undefined props).
  destruct (String.eqb_spec k p) as [->|Hne].
  - destruct (defined v) eqn:Hv.
    + cbn [own]. rewrite String.eqb_refl. now destruct v.
    + destruct v; try discriminate.
      rewrite (IH Hnodup).
      assert (own props p = None) as ->; [|reflexivity].
      clear -Hk. induction props as [|[k' v'] props IH]; [reflexivity|].
      cbn [own]. cbn [keys map fst] in Hk.
      destruct (String.eqb_spec k' p) as [->|_].
      * exfalso. apply Hk. now left.
      * apply IH. intros Hin. apply Hk. now right.
  - destruct (defined v).
    + cbn [own]. destruct (String.eqb_spec k p); [contradiction|].
      now apply IH.
    + now apply IH.
Qed.

(** Deleting the undefined entries of an object changes no read of a name
    that is not inherited. *)
Lemma get_prop_remove_undefined (props : list (string * value)) (p : string) :
  List.NoDup (keys props) -> inherited p = false ->
  get_prop (remove_undefined props) p = get_prop props p.
Proof.
  intros Hnodup Hp. unfold get_prop.
  rewrite (own_remove_undefined props p Hnodup), Hp.
  destruct (own props p) as [[]|]; reflexivity.
Qed.

Lemma keys_remove_undefined (props : list (string * value)) :
  incl (keys (remove_undefined props)) (keys props).
Proof.
  intros k Hk. apply in_map_iff in Hk as ((k', v) & <- & Hin).
  apply filter_In in Hin as [Hin _].
  apply in_map_iff. now exists (k', v).
Qed.

(** What the body holds. *)
Lemma update_body_fields (tid : value) (td : Template) (now : string) :
  let body := update_body tid td now in
  get_prop body "Id" = tid
  /\ get_prop body "Name" = name td
  /\ get_prop body "Description" = or_else (description td) (VStr EmptyString)
  /\ get_prop body "Content" = content td
  /\ get_prop body "Category" = or_else (category td) (VStr "General")
  /\ get_prop body "IsActive"
     = (if defined (isActive td) then isActive td else VBool true)
  /\ get_prop body "Schema" = or_else (schema td) VNull
  /\ get_prop body "SampleData" = or_else (sampleData td) VNull
  /\ get_prop body "UpdatedAt" = VStr now
  /\ get_prop body "CreatedAt" = VUndefined
  /\ get_prop body "UserId" = VUndefined
  /\ incl (keys body) body_keys.
Proof.
  cbv zeta. unfold update_body.
  assert (forall props, incl (keys (remove_undefined props)) (keys props))
    as Hkeys by apply keys_remove_undefined.
  repeat split;
    try (rewrite get_prop_remove_undefined;
         [reflexivity
         |cbn [keys map fst]; repeat constructor; cbn [In];
          intuition discriminate
         |reflexivity]).
  apply Hkeys.
Qed.

(** Closes the description of the events a save adds after its request. *)
Ltac sent_once :=
  cbn [snd fst log tick store_content trace heap templateDocuments truthy
       negb];
  rewrite <- ?app_assoc; cbn [app];
  split;
  [eexists; split;
   [reflexivity|intros ?; cbn [In]; intuition discriminate]
  |split; [reflexivity|auto]].

(** A save that passes validation and has a key sends its request once;
    afterwards the bound object is as it was or has the saved text. *)
Lemma save_reaches_gateway (document : TextDocument) (h : Host)
    (st : State) (l : nat) (stored : Template) (k : string) :
  templateDocuments st !! uri document = Some l ->
  heap st !! l = Some stored ->
  truthy (name stored) = true ->
  getText document <> EmptyString ->
  key_of h = Some k ->
  (exists rest,
     trace (snd (saveTemplateToServer document h st))
     = trace st
       ++ Http (update_request k (id stored)
                  (save_data stored (getText document))
                  (toISOString h (clock h (ticks st)))) :: rest
     /\ forall r, ~ In (Http r) rest)
  /\ templateDocuments (snd (saveTemplateToServer document h st))
     = templateDocuments st
  /\ (heap (snd (saveTemplateToServer document h st)) = heap st
      \/ heap (snd (saveTemplateToServer document h st))
         = alter (set_content (VStr (getText document))) l (heap st)).
Proof.
  intros Hmap Hheap Hname Hbuffer Hkey.
  rewrite (saveTemplateToServer_run document h st l stored Hmap Hheap).
  rewrite updateTemplate_run.
  change (name (save_data stored (getText document))) with (name stored).
  change (content (save_data stored (getText document)))
    with (VStr (getText document)).
  rewrite Hname, Hkey; cbn [negb].
  assert (truthy (VStr (getText document)) = true) as ->.
  { destruct (truthy (VStr (getText document))) eqn:E; [reflexivity|].
    apply truthy_buffer in E. contradiction. }
  cbn [negb]; cbv zeta.
  destruct (net h (trace st) _) as [resp|e]; [|sent_once].
  destruct (ok resp); cbn [negb]; [|sent_once].
  destruct (json resp) as [v|e]; [|sent_once].
  destruct v as [| |b|q|s|items|props|builtin]; cbn [truthy confirmation];
    try sent_once.
  - destruct b; sent_once.
  - destruct (Qeq_bool q 0); sent_once.
  - destruct (String.eqb s EmptyString); sent_once.
Qed.

(** C2, as the code has it.  A save that reaches the gateway sends one PUT
    request for the bound id.  Its body has the keys [Id], [Name],
    [Description], [Content], [Category], [IsActive], [Schema], [SampleData]
    and [UpdatedAt] at most: [Id] and [Name] are those of the binding;
    [Description], [Category], [Schema] and [SampleData] are the binding's
    when truthy and [''], ['General'], [null], [null] otherwise; [IsActive]
    is the binding's when defined and [true] otherwise; [Content] is the
    buffer text and [UpdatedAt] a fresh timestamp; [createdAt] and [userId]
    are not sent. *)
Theorem save_sends_update_body (document : TextDocument) (h : Host)
    (st : State) (l : nat) (stored : Template) (k : string) :
  templateDocuments st !! uri document = Some l ->
  heap st !! l = Some stored ->
  truthy (name stored) = true ->
  getText document <> EmptyString ->
  key_of h = Some k ->
  exists body,
    (exists rest,
       trace (snd (saveTemplateToServer document h st))
       = trace st
         ++ Http (mkRequest (ApiTemplate (id stored)) "PUT" k
                    (Some (VObj body))) :: rest
       /\ forall r, ~ In (Http r) rest)
    /\ get_prop body "Id" = id stored
    /\ get_prop body "Name" = name stored
    /\ get_prop body "Description"
       = or_else (description stored) (VStr EmptyString)
    /\ get_prop body "Content" = VStr (getText document)
    /\ get_prop body "Category" = or_else (category stored) (VStr "General")
    /\ get_prop body "IsActive"
       = (if defined (isActive stored) then isActive stored else VBool true)
    /\ get_prop body "Schema" = or_else (schema stored) VNull
    /\ get_prop body "SampleData" = or_else (sampleData stored) VNull
    /\ get_prop body "UpdatedAt"
       = VStr (toISOString h (clock h (ticks st)))
    /\ get_prop body "CreatedAt" = VUndefined
    /\ get_prop body "UserId" = VUndefined
    /\ incl (keys body) body_keys.
Proof.
  intros Hmap Hheap Hname Hbuffer Hkey.
  exists (update_body (id stored) (save_data stored (getText document))
            (toISOString h (clock h (ticks st)))).
  split;
    [|exact (update_body_fields (id stored)
               (save_data stored (getText document))
               (toISOString h (clock h (ticks st))))].
  exact (proj1 (save_reaches_gateway document h st l stored k
                  Hmap Hheap Hname Hbuffer Hkey)).
Qed.

Lemma save_sends_update_body_witness :
  exists body,
    (exists rest,
       trace (snd (saveTemplateToServer Example.doc Example.editor
                     Example.opened))
       = trace Example.opened
         ++ Http (mkRequest (ApiTemplate (VStr "t-1")) "PUT" "secret"
                    (Some (VObj body))) :: rest
       /\ forall r, ~ In (Http r) rest)
    /\ get_prop body "Id" = VStr "t-1"
    /\ get_prop body "Name" = VStr "Welcome"
    /\ get_prop body "Description" = VStr "Greeting"
    /\ get_prop body "Content" = VStr "Hello {{ user.name }}, welcome"
    /\ get_prop body "Category" = VStr "Email"
    /\ get_prop body "IsActive" = VBool true
    /\ get_prop body "Schema" = VNull
    /\ get_prop body "SampleData" = VNull
    /\ get_prop body "UpdatedAt" = VStr "2025-06-01T12:00:00Z"
    /\ get_prop body "CreatedAt" = VUndefined
    /\ get_prop body "UserId" = VUndefined
    /\ incl (keys body) body_keys.
Proof.
  assert (getText Example.doc <> EmptyString) as Hbuffer by discriminate.
  exact (save_sends_update_body Example.doc Example.editor Example.opened
           0%nat Example.stored "secret" eq_refl eq_refl eq_refl Hbuffer
           eq_refl).
Defined.

(** The claim as worded fails on an ordinary record: the body of the
    request has no [CreatedAt] and no [UserId], and its [Schema] is [null]
    where the binding has none. *)
Lemma save_sends_whole_record_counterexample :
  exists body rest,
    trace (snd (saveTemplateToServer Example.doc Example.editor
                  Example.opened))
    = trace Example.opened
      ++ Http (mkRequest (ApiTemplate (VStr "t-1")) "PUT" "secret"
                 (Some (VObj body))) :: rest
    /\ binding Example.opened (uri Example.doc) = Some Example.stored
    /\ createdAt Example.stored = VStr "2024-01-01T00:00:00.000Z"
    /\ get_prop body "CreatedAt" = VUndefined
    /\ ~ carries_whole_record Example.stored body.
Proof.
  eexists. eexists. split; [vm_compute; reflexivity|].
  split; [reflexivity|]. split; [reflexivity|]. split; [reflexivity|].
  intros (_ & _ & _ & _ & _ & _ & Hcreated & _). discriminate Hcreated.
Qed.

(** ** A save answered with an empty body *)

(** C1, as the code has it.  When the update call of a save succeeds with
    an empty body, [updateTemplate] returns to the save a record made from
    the data sent, whose [updatedAt] is a timestamp read from the local
    clock; the save shows the success message and refreshes the tree; and
    the binding then holds the saved text as [content] with every other
    field, [updatedAt] included, as it was. *)
Theorem save_empty_response_refreshes_content (document : TextDocument)
    (h : Host) (st : State) (l : nat) (stored : Template) (k : string)
    (resp : HttpResponse) :
  templateDocuments st !! uri document = Some l ->
  heap st !! l = Some stored ->
  truthy (name stored) = true ->
  getText document <> EmptyString ->
  key_of h = Some k ->
  net h (trace st)
    (update_request k (id stored) (save_data stored (getText document))
       (toISOString h (clock h (ticks st)))) = Return resp ->
  ok resp = true ->
  json resp = Return VNull ->
  let request :=
    update_request k (id stored) (save_data stored (getText document))
      (toISOString h (clock h (ticks st))) in
  let local_time := toISOString h (clock h (S (ticks st))) in
  (exists confirmed,
     fst (updateTemplate (id stored) (save_data stored (getText document))
            h st) = Return (VObj confirmed)
     /\ get_prop confirmed "content" = VStr (getText document)
     /\ get_prop confirmed "updatedAt" = VStr local_time)
  /\ saveTemplateToServer document h st
     = (Return tt,
        log [Http request; save_succeeded h (name stored); RefreshTree]
          (store_content l (VStr (getText document)) (tick 2 st)))
  /\ exists t',
       binding (snd (saveTemplateToServer document h st)) (uri document)
       = Some t'
       /\ content t' = VStr (getText document)
       /\ same_but_content stored t'.
Proof.
  intros Hmap Hheap Hname Hbuffer Hkey Hnet Hok Hjson request local_time.
  assert (updateTemplate (id stored) (save_data stored (getText document)) h st
          = (Return (confirmation (id stored)
                       (save_data stored (getText document)) local_time),
             log [Http request] (tick 2 st))) as Hupdate.
  { rewrite updateTemplate_run.
    change (name (save_data stored (getText document))) with (name stored).
    change (content (save_data stored (getText document)))
      with (VStr (getText document)).
    rewrite Hname, Hkey; cbn [negb].
    assert (truthy (VStr (getText document)) = true) as ->.
    { destruct (truthy (VStr (getText document))) eqn:E; [reflexivity|].
      apply truthy_buffer in E. contradiction. }
    cbn [negb]; cbv zeta. now rewrite Hnet, Hok, Hjson. }
  assert (saveTemplateToServer document h st
          = (Return tt,
             log [Http request; save_succeeded h (name stored); RefreshTree]
               (store_content l (VStr (getText document)) (tick 2 st))))
    as Hsave.
  { rewrite (saveTemplateToServer_run document h st l stored Hmap Hheap).
    rewrite Hname, Hupdate; cbn [negb confirmation truthy].
    unfold log, store_content, tick; cbn [ticks trace heap templateDocuments
                                           documents].
    now rewrite <- !app_assoc. }
  split; [|split].
  - eexists. rewrite Hupdate. unfold confirmation. cbn [fst].
    split; [reflexivity|]. split; reflexivity.
  - exact Hsave.
  - exists (set_content (VStr (getText document)) stored).
    rewrite Hsave. unfold binding.
    cbn [snd log store_content tick templateDocuments heap].
    rewrite Hmap. cbn. rewrite lookup_alter_eq, Hheap.
    repeat split.
Qed.

Lemma save_empty_response_refreshes_content_witness :
  (exists confirmed,
     fst (updateTemplate (VStr "t-1")
            (save_data Example.stored (getText Example.doc))
            Example.editor Example.opened) = Return (VObj confirmed)
     /\ get_prop confirmed "content" = VStr "Hello {{ user.name }}, welcome"
     /\ get_prop confirmed "updatedAt" = VStr "2025-06-01T12:00:01Z")
  /\ saveTemplateToServer Example.doc Example.editor Example.opened
     = (Return tt,
        log [Http (update_request "secret" (VStr "t-1")
                     (save_data Example.stored (getText Example.doc))
                     "2025-06-01T12:00:00Z");
             save_succeeded Example.editor (VStr "Welcome"); RefreshTree]
          (store_content 0 (VStr "Hello {{ user.name }}, welcome")
             (tick 2 Example.opened)))
  /\ exists t',
       binding (snd (saveTemplateToServer Example.doc Example.editor
                       Example.opened)) "untitled:Untitled-"
       = Some t'
       /\ content t' = VStr "Hello {{ user.name }}, welcome"
       /\ same_but_content Example.stored t'.
Proof.
  assert (getText Example.doc <> EmptyString) as Hbuffer by discriminate.
  exact (save_empty_response_refreshes_content Example.doc Example.editor
           Example.opened 0%nat Example.stored "secret"
           (mkResponse true 204 "No Content" (Return VNull) EmptyString)
           eq_refl eq_refl eq_refl Hbuffer eq_refl eq_refl eq_refl eq_refl).
Defined.

(** The claim as worded fails: after a save answered with an empty body
    the binding still has the [updatedAt] it had, which is no reading of the
    local clock. *)
Lemma save_empty_response_updatedAt_counterexample :
  let st' :=
    snd (saveTemplateToServer Example.doc Example.editor Example.opened) in
  (exists request resp,
     In (Http request) (trace st')
     /\ req_method request = "PUT"
     /\ net Example.editor (trace Example.opened) request = Return resp
     /\ ok resp = true
     /\ json resp = Return VNull)
  /\ In (save_succeeded Example.editor (VStr "Welcome")) (trace st')
  /\ exists before after,
       binding Example.opened (uri Example.doc) = Some before
       /\ binding st' (uri Example.doc) = Some after
       /\ content after = VStr (getText Example.doc)
       /\ updatedAt after = updatedAt before
       /\ forall n,
            updatedAt after
            <> VStr (toISOString Example.editor (clock Example.editor n)).
Proof.
  cbv zeta. split; [|split].
  - eexists. eexists. split; [vm_compute; right; right; left; reflexivity|].
    repeat split.
  - vm_compute. do 3 right. left. reflexivity.
  - eexists. eexists. split; [reflexivity|]. split; [reflexivity|].
    split; [reflexivity|]. split; [reflexivity|].
    intros n H. cbn in H. injection H as H. discriminate H.
Qed.

(** ** Opening a template, then saving it *)

Lemma field_or_object (props : list (string * value)) (a b : string)
    (h : Host) (st : State) :
  field_or (VObj props) a b h st
  = (Return (or_else (get_prop props a) (get_prop props b)), st).
Proof.
  unfold field_or, bind, field, ret, or_else.
  now destruct (truthy (get_prop props a)).
Qed.

Lemma getTemplate_run (tid : value) (h : Host) (st : State) (k : string)
    (resp : HttpResponse) (props : list (string * value)) :
  key_of h = Some k ->
  net h (trace st) (fetch_request k tid) = Return resp ->
  ok resp = true ->
  json resp = Return (VObj props) ->
  getTemplate tid h st
  = (Return (Some (fresh (dom (heap st)))),
     fetched k tid (normalise props) st).
Proof.
  intros Hkey Hnet Hok Hjson.
  unfold getTemplate, try_catch.
  unfold bind at 1, makeApiCall at 1, bind at 1, getApiKey at 1, bind at 1,
    host at 1.
  unfold key_of in Hkey.
  destruct (secret_apiKey h) as [k'|]; [|discriminate].
  destruct (String.eqb k' EmptyString); [discriminate|].
  injection Hkey as ->.
  unfold ret at 1, bind at 1, httpRequest at 1.
  fold (fetch_request k tid). rewrite Hnet, Hok; cbn [negb].
  unfold lift at 1. rewrite Hjson.
  repeat (unfold bind at 1; rewrite field_or_object).
  unfold bind at 1, field at 1, ret at 1.
  unfold bind at 1.
  assert (forall st0,
            (if defined (get_prop props "isActive")
             then ret (get_prop props "isActive")
             else field (VObj props) "IsActive") h st0
            = (Return (if defined (get_prop props "isActive")
                       then get_prop props "isActive"
                       else get_prop props "IsActive"), st0)) as ->.
  { intros st0. now destruct (defined (get_prop props "isActive")). }
  repeat (unfold bind at 1; rewrite field_or_object).
  reflexivity.
Qed.

Lemma openTemplate_run (item : list (string * value)) (tid : value)
    (h : Host) (st : State) (k : string) (resp : HttpResponse)
    (props : list (string * value)) :
  get_prop item "id" = tid ->
  key_of h = Some k ->
  net h (trace st) (fetch_request k tid) = Return resp ->
  ok resp = true ->
  json resp = Return (VObj props) ->
  openTemplate (VObj item) h st
  = (Return tt, opened_state h k tid (normalise props) st).
Proof.
  intros Hid Hkey Hnet Hok Hjson.
  unfold openTemplate, try_catch.
  unfold bind at 1, field at 1, ret at 1. rewrite Hid.
  unfold bind at 1.
  rewrite (getTemplate_run tid h st k resp props Hkey Hnet Hok Hjson).
  unfold bind at 1, read at 1, fetched; cbn [heap].
  rewrite lookup_insert_eq.
  unfold bind, openTextDocument, templateDocuments_set, host,
    showInformationMessage, emit, opened_state.
  cbn [ticks trace heap templateDocuments documents].
  now rewrite <- app_assoc.
Qed.

Lemma or_else_string (s : string) (v : value) :
  s <> EmptyString -> or_else (VStr s) v = VStr s.
Proof.
  intros Hs. unfold or_else; cbn [truthy].
  destruct (String.eqb_spec s EmptyString); [contradiction|reflexivity].
Qed.

Lemma normalise_record (r : TemplateRecord) :
  written r ->
  id (normalise (record_json r)) = VStr (r_id r)
  /\ name (normalise (record_json r)) = VStr (r_name r)
  /\ content (normalise (record_json r)) = VStr (r_content r).
Proof.
  intros (Hid & Hname & Hcontent).
  unfold normalise, record_json; cbn [id name content].
  repeat split; cbn; now apply or_else_string.
Qed.

(** C3. For a record [r] of the remote service, opening it and saving the
    new document as it stands sends one update request, whose [Content] is
    [r]'s content, and the binding of the document has [r]'s id after the
    open and after the save, whatever the gateway answers to the update. *)
Theorem open_then_save_sends_content (r : TemplateRecord)
    (item : list (string * value)) (h : Host) (st : State) (k : string)
    (resp : HttpResponse) :
  written r ->
  get_prop item "id" = VStr (r_id r) ->
  key_of h = Some k ->
  net h (trace st) (fetch_request k (VStr (r_id r))) = Return resp ->
  ok resp = true ->
  json resp = Return (VObj (record_json r)) ->
  let st1 := snd (openTemplate (VObj item) h st) in
  let u := fresh_string "untitled:Untitled-" (documents st) in
  let st2 := snd (save u h st1) in
  documents st1 !! u = Some (r_content r)
  /\ (exists t1, binding st1 u = Some t1 /\ id t1 = VStr (r_id r))
  /\ (exists body rest,
        trace st2
        = trace st1
          ++ Http (mkRequest (ApiTemplate (VStr (r_id r))) "PUT" k
                     (Some (VObj body))) :: rest
        /\ (forall q, ~ In (Http q) rest)
        /\ get_prop body "Content" = VStr (r_content r))
  /\ (exists t2, binding st2 u = Some t2 /\ id t2 = VStr (r_id r)).
Proof.
  intros Hwritten Hitem Hkey Hnet Hok Hjson st1 u st2.
  destruct (normalise_record r Hwritten) as (Hid & Hname & Hcontent).
  set (t := normalise (record_json r)) in *.
  set (l := fresh (dom (heap st))).
  assert (st1 = opened_state h k (VStr (r_id r)) t st) as Hst1.
  { unfold st1.
    now rewrite (openTemplate_run item (VStr (r_id r)) h st k resp
                   (record_json r) Hitem Hkey Hnet Hok Hjson). }
  assert (documents st1 !! u = Some (r_content r)) as Hdoc.
  { rewrite Hst1. unfold opened_state; cbn [documents]. fold u.
    now rewrite lookup_insert_eq, Hcontent. }
  assert (templateDocuments st1 !! u = Some l) as Hmap.
  { rewrite Hst1. unfold opened_state; cbn [templateDocuments]. fold u.
    now rewrite lookup_insert_eq. }
  assert (heap st1 !! l = Some t) as Hheap.
  { rewrite Hst1. unfold opened_state; cbn [heap]. fold l.
    now rewrite lookup_insert_eq. }
  assert (save u h st1
          = saveTemplateToServer (mkDocument u (r_content r)) h st1) as Hsave.
  { unfold save, bind at 1, get_state at 1. rewrite Hdoc.
    unfold onDidSaveTextDocument, bind at 1, get_state at 1.
    cbn [uri]. now rewrite Hmap. }
  assert (truthy (name t) = true) as Htruthy.
  { rewrite Hname. cbn [truthy].
    destruct Hwritten as (_ & Hn & _).
    now destruct (String.eqb_spec (r_name r) EmptyString). }
  destruct (save_reaches_gateway (mkDocument u (r_content r)) h st1 l t k
              Hmap Hheap Htruthy (proj2 (proj2 Hwritten)) Hkey)
    as ((rest & Htrace & Hrest) & Hdocs & Hobject).
  cbn [getText uri] in Htrace, Hdocs, Hobject.
  rewrite <- Hsave in Htrace, Hdocs, Hobject. fold st2 in Htrace, Hdocs, Hobject.
  split; [exact Hdoc|]. split; [|split].
  - exists t. split; [|exact Hid].
    unfold binding. rewrite Hmap. exact Hheap.
  - eexists. exists rest. split; [|split; [exact Hrest|]].
    + rewrite Htrace, Hid. unfold update_request. reflexivity.
    + cbn beta.
      destruct (update_body_fields (VStr (r_id r))
                  (save_data t (r_content r))
                  (toISOString h (clock h (ticks st1))))
        as (_ & _ & _ & Hc & _).
      exact Hc.
  - unfold binding. rewrite Hdocs, Hmap. cbn.
    destruct Hobject as [-> | ->].
    + exists t. split; [exact Hheap|exact Hid].
    + exists (set_content (VStr (r_content r)) t).
      rewrite lookup_alter_eq, Hheap. split; [reflexivity|exact Hid].
Qed.

Lemma open_then_save_sends_content_witness :
  let st1 := Example.opened in
  let u := "untitled:Untitled-" in
  let st2 := snd (save u Example.editor st1) in
  documents st1 !! u = Some "Hello {{ user.name }}"
  /\ (exists t1, binding st1 u = Some t1 /\ id t1 = VStr "t-1")
  /\ (exists body rest,
        trace st2
        = trace st1
          ++ Http (mkRequest (ApiTemplate (VStr "t-1")) "PUT" "secret"
                     (Some (VObj body))) :: rest
        /\ (forall q, ~ In (Http q) rest)
        /\ get_prop body "Content" = VStr "Hello {{ user.name }}")
  /\ (exists t2, binding st2 u = Some t2 /\ id t2 = VStr "t-1").
Proof.
  assert (written Example.welcome) as Hwritten by (repeat split; discriminate).
  exact (open_then_save_sends_content Example.welcome
           [ ("id", VStr "t-1"); ("name", VStr "Welcome") ]
           Example.editor Example.start "secret"
           (mkResponse true 200 "OK" (Return Example.remote) "{...}")
           Hwritten eq_refl eq_refl eq_refl eq_refl eq_refl).
Defined.

(** ** Testing a template *)

(** C10. A template whose content fails the validation heuristic gets a
    failed result whose errors are the validation errors, and nothing is
    sent; a render request is sent only for a content that passes. *)
Theorem invalid_template_is_not_rendered (template : Template) (data : value)
    (h : Host) (st : State) :
  (forall s,
     content template = VStr s ->
     isValid (validateTemplateContent s) = false ->
     testTemplate template data h st
     = (Return {| success := VBool false;
                  output := VStr EmptyString;
                  duration :=
                    Millis (clock h (S (ticks st)) - clock h (ticks st));
                  test_errors :=
                    map VStr (errors (validateTemplateContent s));
                  usageConsumed := None |},
        tick 2 st))
  /\ (forall r,
        In (Http r) (trace (snd (testTemplate template data h st))) ->
        In (Http r) (trace st)
        \/ exists s, content template = VStr s
                     /\ isValid (validateTemplateContent s) = true).
Proof.
  split.
  - intros s Hcontent Hinvalid.
    unfold testTemplate, try_catch, bind at 1, Date_now at 1.
    unfold bind at 1. rewrite Hcontent. unfold validate_value, ret at 1.
    rewrite Hinvalid. reflexivity.
  - intros r.
    unfold testTemplate, try_catch, bind at 1, Date_now at 1.
    unfold bind at 1.
    destruct (content template) as [| |b|q|s|items|props|builtin] eqn:Hcontent;
      try (cbn; intros Hin; left; exact Hin).
    unfold validate_value, ret at 1.
    destruct (isValid (validateTemplateContent s)) eqn:Hvalid.
    + intros _. right. exists s. split; [reflexivity|exact Hvalid].
    + cbn. intros Hin. left. exact Hin.
Qed.

Lemma invalid_template_is_not_rendered_witness :
  testTemplate (set_content (VStr "Dear {{ user.name") Example.stored)
    (VObj []) Example.editor Example.start
  = (Return {| success := VBool false;
               output := VStr EmptyString;
               duration := Millis 1;
               test_errors := [VStr "Mismatched {{ }} braces"];
               usageConsumed := None |},
     tick 2 Example.start).
Proof.
  exact (proj1 (invalid_template_is_not_rendered
                  (set_content (VStr "Dear {{ user.name") Example.stored)
                  (VObj []) Example.editor Example.start)
           "Dear {{ user.name" eq_refl eq_refl).
Defined.

(** * Further properties *)

(** ** The registry *)

(** X1. Closing a document removes its binding and nothing else: the
    lookup is absent afterwards, closing again changes nothing, every other
    document keeps its binding, and no request or message is produced. *)
Theorem close_unbinds_once (u : string) (h : Host) (st : State) :
  binding (snd (onDidCloseTextDocument u h st)) u = None
  /\ snd (onDidCloseTextDocument u h (snd (onDidCloseTextDocument u h st)))
     = snd (onDidCloseTextDocument u h st)
  /\ (forall u', u' <> u ->
        binding (snd (onDidCloseTextDocument u h st)) u' = binding st u')
  /\ trace (snd (onDidCloseTextDocument u h st)) = trace st
  /\ heap (snd (onDidCloseTextDocument u h st)) = heap st.
Proof.
  unfold onDidCloseTextDocument, binding;
    cbn [snd templateDocuments heap documents trace ticks].
  repeat split.
  - now rewrite lookup_delete_eq.
  - now rewrite !delete_delete_eq.
  - intros u' Hne. now rewrite lookup_delete_ne.
Qed.


(** ** Calls to the gateway *)

(** [makeApiCall], case by case. *)
Lemma makeApiCall_run (ep : endpoint) (method : string) (body : option value)
    (h : Host) (st : State) :
  makeApiCall ep method body h st =
  match key_of h with
  | None => (Throw (Error "Not authenticated. Please login first."), st)
  | Some k =>
      let req := mkRequest ep method k body in
      match net h (trace st) req with
      | Throw e => (Throw e, log [Http req] st)
      | Return resp =>
          if negb (ok resp) then (Throw (api_failure resp), log [Http req] st)
          else (json resp, log [Http req] st)
      end
  end.
Proof.
  unfold makeApiCall, bind at 1, getApiKey at 1, bind at 1, host at 1, key_of.
  destruct (secret_apiKey h) as [k|]; [|reflexivity].
  destruct (String.eqb k EmptyString); [reflexivity|].
  unfold ret at 1, bind at 1, httpRequest at 1. cbv zeta.
  destruct (net h (trace st) _) as [resp|e]; [|reflexivity].
  destruct (ok resp); reflexivity.
Qed.

Lemma getTemplate_failure (tid : value) (h : Host) (st : State) :
  fetch_fails h st tid ->
  exists sent e,
    getTemplate tid h st
    = (Return None,
       log [ShowError ("Failed to fetch template: " +:+ error_text e)]
         (log sent st))
    /\ (sent = [] \/ exists r, sent = [Http r]).
Proof.
  intros Hfails. unfold getTemplate, try_catch, bind at 1.
  rewrite makeApiCall_run.
  destruct Hfails as [Hk|k e Hk Hnet|k resp Hk Hnet Hok|k resp e Hk Hnet Hok Hjson
                     |k resp Hk Hnet Hok Hjson];
    rewrite Hk; cbv zeta; try (unfold fetch_request in Hnet; rewrite Hnet);
    try rewrite Hok; cbn [negb]; try rewrite Hjson.
  - exists [], (Error "Not authenticated. Please login first.").
    split; [|now left].
    unfold log; cbn [trace]. rewrite app_nil_r. now destruct st.
  - exists [Http (fetch_request k tid)], e. split; [reflexivity|right; eauto].
  - exists [Http (fetch_request k tid)], (api_failure resp).
    split; [reflexivity|right; eauto].
  - exists [Http (fetch_request k tid)], e. split; [reflexivity|right; eauto].
  - exists [Http (fetch_request k tid)],
      (TypeError "Cannot read properties of null").
    split; [reflexivity|right; eauto].
Qed.

(** X3. When the fetch of a template fails, for any of the reasons of
    [fetch_fails], opening it creates no document, no object and no
    binding; the user is shown the fetch error and then "Could not load
    template details", and at most one request was sent. *)
Theorem open_failure_binds_nothing (item : list (string * value))
    (h : Host) (st : State) :
  fetch_fails h st (get_prop item "id") ->
  fst (openTemplate (VObj item) h st) = Return tt
  /\ heap (snd (openTemplate (VObj item) h st)) = heap st
  /\ templateDocuments (snd (openTemplate (VObj item) h st))
     = templateDocuments st
  /\ documents (snd (openTemplate (VObj item) h st)) = documents st
  /\ exists sent message,
       trace (snd (openTemplate (VObj item) h st))
       = trace st ++ sent
         ++ [ShowError ("Failed to fetch template: " +:+ message);
             ShowError "Could not load template details"]
       /\ (sent = [] \/ exists r, sent = [Http r]).
Proof.
  intros Hfails.
  destruct (getTemplate_failure _ h st Hfails) as (sent & e & Hget & Hsent).
  assert (openTemplate (VObj item) h st
          = (Return tt,
             log [ShowError "Could not load template details"]
               (log [ShowError ("Failed to fetch template: "
                                +:+ error_text e)]
                  (log sent st)))) as ->.
  { unfold openTemplate, try_catch.
    unfold bind at 1. unfold field at 1, ret at 1.
    unfold bind at 1. rewrite Hget. reflexivity. }
  cbn [fst snd log heap templateDocuments documents trace ticks].
  repeat split.
  exists sent, (error_text e). split; [|exact Hsent].
  now rewrite <- !app_assoc.
Qed.

Lemma open_failure_binds_nothing_witness :
  let item := [ ("id", VStr "t-1"); ("name", VStr "Welcome") ] in
  fst (openTemplate (VObj item) Example.unplugged Example.start) = Return tt
  /\ heap (snd (openTemplate (VObj item) Example.unplugged Example.start))
     = heap Example.start
  /\ templateDocuments
       (snd (openTemplate (VObj item) Example.unplugged Example.start))
     = templateDocuments Example.start
  /\ documents (snd (openTemplate (VObj item) Example.unplugged Example.start))
     = documents Example.start
  /\ exists sent message,
       trace (snd (openTemplate (VObj item) Example.unplugged Example.start))
       = trace Example.start ++ sent
         ++ [ShowError ("Failed to fetch template: " +:+ message);
             ShowError "Could not load template details"]
       /\ (sent = [] \/ exists r, sent = [Http r]).
Proof.
  apply (open_failure_binds_nothing
           [ ("id", VStr "t-1"); ("name", VStr "Welcome") ]
           Example.unplugged Example.start).
  apply (fetch_rejected _ _ _ "secret" (Error "connect ECONNREFUSED"));
    reflexivity.
Defined.

(** X4. A successful open leaves the documents that were open as they
    were: the new document has a URI none of them has, and each keeps its
    text and its binding. *)
Theorem open_keeps_other_documents (item : list (string * value))
    (h : Host) (st : State) (k : string) (resp : HttpResponse)
    (props : list (string * value)) :
  key_of h = Some k ->
  net h (trace st) (fetch_request k (get_prop item "id")) = Return resp ->
  ok resp = true ->
  json resp = Return (VObj props) ->
  let st1 := snd (openTemplate (VObj item) h st) in
  let u := fresh_string "untitled:Untitled-" (documents st) in
  documents st !! u = None
  /\ binding st1 u = Some (normalise props)
  /\ forall u' text,
       documents st !! u' = Some text ->
       documents st1 !! u' = Some text
       /\ forall t', binding st u' = Some t' -> binding st1 u' = Some t'.
Proof.
  intros Hkey Hnet Hok Hjson st1 u.
  assert (st1 = opened_state h k (get_prop item "id") (normalise props) st)
    as ->.
  { unfold st1.
    now rewrite (openTemplate_run item _ h st k resp props eq_refl Hkey Hnet
                   Hok Hjson). }
  assert (documents st !! u = None) as Hfresh by apply fresh_string_fresh.
  split; [exact Hfresh|]. split.
  - unfold binding, opened_state; cbn [templateDocuments heap]. fold u.
    rewrite lookup_insert_eq. cbn. now rewrite lookup_insert_eq.
  - intros u' text Hopen.
    assert (u <> u') as Hne by (intros ->; congruence).
    unfold binding, opened_state; cbn [templateDocuments heap documents].
    fold u. rewrite !lookup_insert_ne by exact Hne.
    split; [exact Hopen|].
    intros t'. destruct (templateDocuments st !! u') as [l'|]; [|discriminate].
    cbn. intros Hl'.
    rewrite lookup_insert_ne; [exact Hl'|].
    intros <-. pose proof (is_fresh (dom (heap st))) as Hnew.
    apply not_elem_of_dom in Hnew. congruence.
Qed.

Lemma open_keeps_other_documents_witness :
  let item := [ ("id", VStr "t-1") ] in
  let st1 := snd (openTemplate (VObj item) Example.editor Example.opened) in
  let u := fresh_string "untitled:Untitled-" (documents Example.opened) in
  documents Example.opened !! u = None
  /\ binding st1 u = Some (normalise (record_json Example.welcome))
  /\ forall u' text,
       documents Example.opened !! u' = Some text ->
       documents st1 !! u' = Some text
       /\ forall t', binding Example.opened u' = Some t' ->
                     binding st1 u' = Some t'.
Proof.
  exact (open_keeps_other_documents [ ("id", VStr "t-1") ] Example.editor
           Example.opened "secret"
           (mkResponse true 200 "OK" (Return Example.remote) "{...}")
           (record_json Example.welcome) eq_refl eq_refl eq_refl eq_refl).
Defined.

(** ** What a save may change *)

(** [updateTemplate] always returns, and changes nothing but the clock and
    the trace. *)
Lemma updateTemplate_frame (tid : value) (td : Template) (h : Host)
    (st : State) :
  (exists v, fst (updateTemplate tid td h st) = Return v)
  /\ heap (snd (updateTemplate tid td h st)) = heap st
  /\ templateDocuments (snd (updateTemplate tid td h st))
     = templateDocuments st
  /\ documents (snd (updateTemplate tid td h st)) = documents st.
Proof.
  rewrite updateTemplate_run.
  destruct (negb (truthy (name td))); [cbn; eauto|].
  destruct (negb (truthy (content td))); [cbn; eauto|].
  destruct (key_of h) as [k|]; [|cbn; eauto].
  cbv zeta.
  destruct (net h (trace st) _) as [resp|e]; [|cbn; eauto].
  destruct (negb (ok resp)); [cbn; eauto|].
  destruct (json resp) as [v|e]; [|cbn; eauto].
  destruct v; cbn; eauto.
Qed.

(** X5. Whatever the gateway answers, a save changes at most the [content]
    of the object the document is bound to, and only to the buffer text:
    the map, the open documents, every other field of that object and every
    other object are as before. *)
Theorem save_changes_only_content (document : TextDocument) (h : Host)
    (st : State) (l : nat) (stored : Template) :
  templateDocuments st !! uri document = Some l ->
  heap st !! l = Some stored ->
  templateDocuments (snd (saveTemplateToServer document h st))
  = templateDocuments st
  /\ documents (snd (saveTemplateToServer document h st)) = documents st
  /\ (exists t',
        heap (snd (saveTemplateToServer document h st)) !! l = Some t'
        /\ same_but_content stored t'
        /\ (content t' = content stored
            \/ content t' = VStr (getText document)))
  /\ forall l', l' <> l ->
       heap (snd (saveTemplateToServer document h st)) !! l' = heap st !! l'.
Proof.
  intros Hmap Hheap.
  assert (same_but_content stored stored) as Hsame by (repeat split).
  rewrite (saveTemplateToServer_run document h st l stored Hmap Hheap).
  destruct (negb (truthy (name stored))).
  { cbn [snd log heap templateDocuments documents].
    repeat split; eauto. }
  destruct (updateTemplate_frame (id stored)
              (save_data stored (getText document)) h st)
    as (_ & Hh & Hd & Hdocs).
  destruct (updateTemplate (id stored) (save_data stored (getText document))
              h st) as [[v|e] st1];
    cbn [snd] in Hh, Hd, Hdocs.
  - destruct (truthy v);
      cbn [snd log store_content heap templateDocuments documents];
      rewrite ?Hh, ?Hd, ?Hdocs.
    + split; [reflexivity|]. split; [reflexivity|]. split.
      * exists (set_content (VStr (getText document)) stored).
        rewrite lookup_alter_eq, Hheap.
        split; [reflexivity|]. split; [repeat split|now right].
      * intros l' Hne. now rewrite lookup_alter_ne.
    + repeat split; eauto.
  - cbn [snd log heap templateDocuments documents].
    rewrite ?Hh, ?Hd, ?Hdocs. repeat split; eauto.
Qed.

Lemma save_changes_only_content_witness :
  templateDocuments
    (snd (saveTemplateToServer Example.doc Example.editor Example.opened))
  = templateDocuments Example.opened
  /\ documents
       (snd (saveTemplateToServer Example.doc Example.editor Example.opened))
     = documents Example.opened
  /\ (exists t',
        heap (snd (saveTemplateToServer Example.doc Example.editor
                     Example.opened)) !! 0%nat = Some t'
        /\ same_but_content Example.stored t'
        /\ (content t' = content Example.stored
            \/ content t' = VStr (getText Example.doc)))
  /\ forall l', l' <> 0%nat ->
       heap (snd (saveTemplateToServer Example.doc Example.editor
                    Example.opened)) !! l'
       = heap Example.opened !! l'.
Proof.
  exact (save_changes_only_content Example.doc Example.editor Example.opened
           0%nat Example.stored eq_refl eq_refl).
Defined.

(** X6. A save answered 2xx with a JSON value that is falsy but not
    [null] ([false], [0], [""]) is silent: the request was sent, no message
    of success or failure is shown, and nothing is written to the
    binding. *)
Theorem save_falsy_answer_is_silent (document : TextDocument) (h : Host)
    (st : State) (l : nat) (stored : Template) (k : string)
    (resp : HttpResponse) (v : value) :
  templateDocuments st !! uri document = Some l ->
  heap st !! l = Some stored ->
  truthy (name stored) = true ->
  getText document <> EmptyString ->
  key_of h = Some k ->
  net h (trace st)
    (update_request k (id stored) (save_data stored (getText document))
       (toISOString h (clock h (ticks st)))) = Return resp ->
  ok resp = true ->
  json resp = Return v ->
  v <> VNull ->
  truthy v = false ->
  saveTemplateToServer document h st
  = (Return tt,
     log [Http (update_request k (id stored)
                  (save_data stored (getText document))
                  (toISOString h (clock h (ticks st))))]
       (tick 1 st)).
Proof.
  intros Hmap Hheap Hname Hbuffer Hkey Hnet Hok Hjson Hnull Hfalsy.
  rewrite (saveTemplateToServer_run document h st l stored Hmap Hheap).
  rewrite updateTemplate_run.
  change (name (save_data stored (getText document))) with (name stored).
  change (content (save_data stored (getText document)))
    with (VStr (getText document)).
  rewrite Hname, Hkey; cbn [negb].
  assert (truthy (VStr (getText document)) = true) as ->.
  { destruct (truthy (VStr (getText document))) eqn:E; [reflexivity|].
    apply truthy_buffer in E. contradiction. }
  cbn [negb]; cbv zeta. rewrite Hnet, Hok, Hjson; cbn [negb].
  destruct v; try discriminate Hfalsy; try congruence;
    now rewrite Hfalsy.
Qed.

Lemma save_falsy_answer_is_silent_witness :
  let answers_false :=
    mkHost (Some "secret")
      (fun _ _ =>
         Return (mkResponse true 200 "OK" (Return (VBool false)) "false"))
      Z.of_nat Example.iso Example.text_of Example.is_positive in
  saveTemplateToServer Example.doc answers_false Example.opened
  = (Return tt,
     log [Http (update_request "secret" (VStr "t-1")
                  (save_data Example.stored (getText Example.doc))
                  "2025-06-01T12:00:00Z")]
       (tick 1 Example.opened)).
Proof.
  assert (getText Example.doc <> EmptyString) as Hbuffer by discriminate.
  assert (VBool false <> VNull) as Hnull by discriminate.
  exact (save_falsy_answer_is_silent Example.doc
           (mkHost (Some "secret")
              (fun _ _ =>
                 Return (mkResponse true 200 "OK" (Return (VBool false))
                           "false"))
              Z.of_nat Example.iso Example.text_of Example.is_positive)
           Example.opened 0%nat Example.stored "secret"
           (mkResponse true 200 "OK" (Return (VBool false)) "false")
           (VBool false) eq_refl eq_refl eq_refl Hbuffer eq_refl eq_refl
           eq_refl eq_refl Hnull eq_refl).
Defined.

(** The save of the CodeLens on a bound document, in terms of the update. *)
Lemma codelens_save_run (document : TextDocument) (h : Host) (st : State)
    (l : nat) (stored : Template) :
  templateDocuments st !! uri document = Some l ->
  heap st !! l = Some stored ->
  CodeLens.saveTemplateFromEditor document h st =
  if negb (truthy (id stored)) then
    (Return tt,
     log [ShowError
            "Template ID is missing. Please reopen the template from the tree view."]
       st)
  else
    match updateTemplate (id stored) (save_data stored (getText document)) h st
    with
    | (Return updatedTemplate, st1) =>
        if truthy updatedTemplate then
          (Return tt,
           log [save_succeeded h (or_else (name stored) VUndefined)] st1)
        else (Return tt, st1)
    | (Throw e, st1) => (Return tt, log [save_failed e] st1)
    end.
Proof.
  intros Hmap Hheap.
  unfold CodeLens.saveTemplateFromEditor, bind at 1, get_state at 1.
  rewrite Hmap. unfold bind at 1, read at 1. rewrite Hheap.
  unfold or_else at 1 2.
  destruct (truthy (id stored)) eqn:Hid; cbn [truthy negb]; [|reflexivity].
  rewrite Hid; cbn [negb].
  unfold try_catch, bind at 1.
  destruct (updateTemplate _ _ h st) as [[v|e] st1]; [|reflexivity].
  destruct (truthy v); reflexivity.
Qed.

(** X7. The save of the CodeLens never writes to the registry: every
    binding is as before, also after a successful update.  For a bound
    record with an id and a name it sends the same request and shows the
    same messages as the save handler, which alone goes on to refresh the
    tree. *)
Theorem codelens_save_leaves_binding (document : TextDocument) (h : Host)
    (st : State) (l : nat) (stored : Template) :
  templateDocuments st !! uri document = Some l ->
  heap st !! l = Some stored ->
  heap (snd (CodeLens.saveTemplateFromEditor document h st)) = heap st
  /\ templateDocuments (snd (CodeLens.saveTemplateFromEditor document h st))
     = templateDocuments st
  /\ (truthy (id stored) = true ->
      truthy (name stored) = true ->
      trace (snd (saveTemplateToServer document h st))
      = trace (snd (CodeLens.saveTemplateFromEditor document h st))
      \/ trace (snd (saveTemplateToServer document h st))
         = trace (snd (CodeLens.saveTemplateFromEditor document h st))
           ++ [RefreshTree]).
Proof.
  intros Hmap Hheap.
  rewrite (saveTemplateToServer_run document h st l stored Hmap Hheap).
  rewrite (codelens_save_run document h st l stored Hmap Hheap).
  destruct (truthy (id stored)) eqn:Hid; cbn [negb].
  2: { split; [reflexivity|]. split; [reflexivity|]. intros; discriminate. }
  destruct (updateTemplate_frame (id stored)
              (save_data stored (getText document)) h st)
    as ((v & Hv) & Hh & Hd & _).
  destruct (updateTemplate (id stored) (save_data stored (getText document))
              h st) as [[v'|e] st1]; cbn [fst snd] in Hv, Hh, Hd;
    [|discriminate].
  unfold or_else.
  destruct (truthy (name stored)) eqn:Hname; cbn [negb];
    destruct (truthy v');
    cbn [snd log store_content heap templateDocuments trace];
    (split; [exact Hh|]); (split; [exact Hd|]); intros _ Hn;
    try discriminate.
  - right. reflexivity.
  - left. reflexivity.
Qed.

Lemma codelens_save_leaves_binding_witness :
  heap (snd (CodeLens.saveTemplateFromEditor Example.doc Example.editor
               Example.opened)) = heap Example.opened
  /\ templateDocuments
       (snd (CodeLens.saveTemplateFromEditor Example.doc Example.editor
               Example.opened))
     = templateDocuments Example.opened
  /\ (truthy (id Example.stored) = true ->
      truthy (name Example.stored) = true ->
      trace (snd (saveTemplateToServer Example.doc Example.editor
                    Example.opened))
      = trace (snd (CodeLens.saveTemplateFromEditor Example.doc
                      Example.editor Example.opened))
      \/ trace (snd (saveTemplateToServer Example.doc Example.editor
                       Example.opened))
         = trace (snd (CodeLens.saveTemplateFromEditor Example.doc
                         Example.editor Example.opened))
           ++ [RefreshTree]).
Proof.
  exact (codelens_save_leaves_binding Example.doc Example.editor
           Example.opened 0%nat Example.stored eq_refl eq_refl).
Defined.

(** ** The service *)

(** X8. [makeApiCall] returns a value only when a key that is not empty is
    stored and the gateway answers the one request, sent with that key,
    with a 2xx status and a body that is empty or parses. *)
Theorem makeApiCall_returns_on_2xx (ep : endpoint) (method : string)
    (body : option value) (h : Host) (st st' : State) (v : value) :
  makeApiCall ep method body h st = (Return v, st') ->
  exists k resp,
    secret_apiKey h = Some k
    /\ k <> EmptyString
    /\ net h (trace st) (mkRequest ep method k body) = Return resp
    /\ ok resp = true
    /\ json resp = Return v
    /\ st' = log [Http (mkRequest ep method k body)] st.
Proof.
  rewrite makeApiCall_run. unfold key_of.
  destruct (secret_apiKey h) as [k|]; [|discriminate].
  destruct (String.eqb_spec k EmptyString) as [|Hk]; [discriminate|].
  cbv zeta.
  destruct (net h (trace st) _) as [resp|e] eqn:Hnet; [|discriminate].
  destruct (ok resp) eqn:Hok; cbn [negb]; [|discriminate].
  intros [= Hjson <-]. exists k, resp. repeat split; assumption.
Qed.

Lemma makeApiCall_returns_on_2xx_witness :
  exists k resp,
    secret_apiKey Example.editor = Some k
    /\ k <> EmptyString
    /\ net Example.editor (trace Example.start)
         (mkRequest (ApiTemplate (VStr "t-1")) "GET" k None) = Return resp
    /\ ok resp = true
    /\ json resp = Return Example.remote
    /\ log [Http (mkRequest (ApiTemplate (VStr "t-1")) "GET" "secret" None)]
         Example.start
       = log [Http (mkRequest (ApiTemplate (VStr "t-1")) "GET" k None)]
           Example.start.
Proof.
  exact (makeApiCall_returns_on_2xx (ApiTemplate (VStr "t-1")) "GET" None
           Example.editor Example.start _ Example.remote eq_refl).
Defined.

Lemma no_request_log (st : State) (evs : list event) :
  (forall r, ~ In (Http r) evs) -> no_request st (log evs st).
Proof.
  intros Hevs r; cbn [log trace]. rewrite in_app_iff.
  intros [Hin|Hin]; [exact Hin|]. now apply Hevs in Hin.
Qed.

Lemma no_request_refl (st : State) : no_request st st.
Proof. intros r Hin. exact Hin. Qed.

Lemma no_request_tick (st : State) (n : nat) (evs : list event) :
  (forall r, ~ In (Http r) evs) -> no_request st (log evs (tick n st)).
Proof.
  intros Hevs r; cbn [log tick trace]. rewrite in_app_iff.
  intros [Hin|Hin]; [exact Hin|]. now apply Hevs in Hin.
Qed.

Lemma no_http_in_error (m : string) (r : HttpRequest) :
  ~ In (Http r) [ShowError m].
Proof. intros [H|[]]. discriminate H. Qed.

Lemma left_alone_refl (st : State) : left_alone st st.
Proof.
  split; [apply no_request_refl|]. do 3 (split; [reflexivity|]).
  exists []. now rewrite app_nil_r.
Qed.

Lemma left_alone_error (st : State) (n : nat) (message : string) :
  left_alone st (log [ShowError message] st)
  /\ left_alone st (log [ShowError message] (tick n st)).
Proof.
  split; (split; [first [apply no_request_log|apply no_request_tick];
                  apply no_http_in_error|]);
    do 3 (split; [reflexivity|]);
    exists [ShowError message]; (split; [reflexivity|]);
    repeat constructor; now exists message.
Qed.

(** X9. Without a stored API key (none, or an empty one) no operation of
    the service sends a request or touches the registry or the documents;
    all that is added to the trace is error messages.  Each operation ends
    with its value of failure: the empty array for the listing and the
    search, [null] for the fetch, the creation, the update and the usage,
    [false] for the deletion; rendering throws. *)
Theorem no_key_no_request (h : Host) (st : State) (tid data : value)
    (td : Template) (query : string) :
  key_of h = None ->
  (fst (getTemplates h st) = Return []
   /\ left_alone st (snd (getTemplates h st)))
  /\ (fst (getTemplate tid h st) = Return None
      /\ left_alone st (snd (getTemplate tid h st)))
  /\ (fst (createTemplate td h st) = Return VNull
      /\ left_alone st (snd (createTemplate td h st)))
  /\ (fst (updateTemplate tid td h st) = Return VNull
      /\ left_alone st (snd (updateTemplate tid td h st)))
  /\ (fst (deleteTemplate tid h st) = Return false
      /\ left_alone st (snd (deleteTemplate tid h st)))
  /\ (fst (service_testTemplate tid data h st)
      = Throw (Error "Not authenticated. Please login first.")
      /\ left_alone st (snd (service_testTemplate tid data h st)))
  /\ (fst (getUsage h st) = Return VNull
      /\ left_alone st (snd (getUsage h st)))
  /\ (fst (searchTemplates query h st) = Return []
      /\ left_alone st (snd (searchTemplates query h st))).
Proof.
  intros Hkey.
  assert (forall ep method body,
            makeApiCall ep method body h st
            = (Throw (Error "Not authenticated. Please login first."), st))
    as Hcall.
  { intros. now rewrite makeApiCall_run, Hkey. }
  assert (getTemplates h st
          = (Return [],
             log [ShowError
                    ("Failed to fetch templates: "
                     +:+ error_text
                           (Error "Not authenticated. Please login first."))]
               st)) as Hlist.
  { unfold getTemplates, try_catch, bind at 1. now rewrite Hcall. }
  set (failure := Error "Not authenticated. Please login first.") in *.
  assert (getTemplate tid h st
          = (Return None,
             log [ShowError ("Failed to fetch template: "
                             +:+ error_text failure)] st)) as ->.
  { unfold getTemplate, try_catch, bind at 1. now rewrite Hcall. }
  assert (createTemplate td h st
          = (Return VNull,
             log [ShowError ("Failed to create template: "
                             +:+ error_text failure)] st)) as ->.
  { unfold createTemplate, try_catch. now rewrite Hcall. }
  assert (deleteTemplate tid h st
          = (Return false,
             log [ShowError ("Failed to delete template: "
                             +:+ error_text failure)] st)) as ->.
  { unfold deleteTemplate, try_catch, bind at 1. now rewrite Hcall. }
  assert (service_testTemplate tid data h st = (Throw failure, st)) as ->.
  { unfold service_testTemplate, try_catch. now rewrite Hcall. }
  assert (getUsage h st = (Return VNull, st)) as ->.
  { unfold getUsage, try_catch. now rewrite Hcall. }
  assert (searchTemplates query h st
          = (Return [],
             log [ShowError ("Failed to fetch templates: "
                             +:+ error_text failure)] st)) as ->.
  { unfold searchTemplates, try_catch, bind at 1. now rewrite Hlist. }
  rewrite Hlist, updateTemplate_run, Hkey. cbn [fst snd].
  split; [split; [reflexivity|apply (left_alone_error st 0)]|].
  split; [split; [reflexivity|apply (left_alone_error st 0)]|].
  split; [split; [reflexivity|apply (left_alone_error st 0)]|].
  split.
  { destruct (negb (truthy (name td)));
      [split; [reflexivity|apply (left_alone_error st 0)]|].
    destruct (negb (truthy (content td)));
      [split; [reflexivity|apply (left_alone_error st 0)]|].
    split; [reflexivity|apply (left_alone_error st 1)]. }
  split; [split; [reflexivity|apply (left_alone_error st 0)]|].
  split; [split; [reflexivity|apply left_alone_refl]|].
  split; [split; [reflexivity|apply left_alone_refl]|].
  split; [reflexivity|apply (left_alone_error st 0)].
Qed.

Lemma no_key_no_request_witness :
  let logged_out :=
    mkHost None Example.gateway Z.of_nat Example.iso Example.text_of
      Example.is_positive in
  left_alone Example.start (snd (getTemplates logged_out Example.start))
  /\ left_alone Example.start
       (snd (updateTemplate (VStr "t-1") Example.stored logged_out
               Example.start))
  /\ fst (service_testTemplate (VStr "t-1") (VObj []) logged_out
            Example.start)
     = Throw (Error "Not authenticated. Please login first.").
Proof.
  destruct (no_key_no_request
              (mkHost None Example.gateway Z.of_nat Example.iso
                 Example.text_of Example.is_positive)
              Example.start (VStr "t-1") (VObj []) Example.stored "welcome"
              eq_refl)
    as ((_ & Hlist) & _ & _ & (_ & Hupdate) & _ & (Hrender & _) & _).
  exact (conj Hlist (conj Hupdate Hrender)).
Defined.

(** [getTemplates], case by case. *)
Lemma getTemplates_run (h : Host) (st : State) :
  getTemplates h st =
  let failed e :=
    ShowError ("Failed to fetch templates: " +:+ error_text e) in
  match key_of h with
  | None =>
      (Return [],
       log [failed (Error "Not authenticated. Please login first.")] st)
  | Some k =>
      let req := mkRequest ApiTemplates "GET" k None in
      match net h (trace st) req with
      | Throw e => (Return [], log [failed e] (log [Http req] st))
      | Return resp =>
          if negb (ok resp) then
            (Return [], log [failed (api_failure resp)] (log [Http req] st))
          else
            match json resp with
            | Throw e => (Return [], log [failed e] (log [Http req] st))
            | Return (VArr templates) => (Return templates, log [Http req] st)
            | Return _ => (Return [], log [Http req] st)
            end
      end
  end.
Proof.
  unfold getTemplates, try_catch, bind at 1. rewrite makeApiCall_run.
  destruct (key_of h) as [k|]; [|reflexivity]. cbv zeta.
  destruct (net h (trace st) _) as [resp|e]; [|reflexivity].
  destruct (ok resp); cbn [negb]; [|reflexivity].
  destruct (json resp) as [v|e]; [|reflexivity].
  destruct v; reflexivity.
Qed.

(** X10. [getTemplates] never throws and never touches the registry; it
    returns templates only when the gateway answered 2xx with a JSON array,
    and then returns that array. *)
Theorem getTemplates_returns_the_array (h : Host) (st : State) :
  exists templates,
    fst (getTemplates h st) = Return templates
    /\ heap (snd (getTemplates h st)) = heap st
    /\ templateDocuments (snd (getTemplates h st)) = templateDocuments st
    /\ (templates <> [] ->
        exists k resp,
          key_of h = Some k
          /\ net h (trace st) (mkRequest ApiTemplates "GET" k None)
             = Return resp
          /\ ok resp = true
          /\ json resp = Return (VArr templates)).
Proof.
  rewrite getTemplates_run. cbv zeta.
  destruct (key_of h) as [k|];
    [|exists []; repeat (split; [reflexivity|]); intros H; now contradiction H].
  destruct (net h (trace st) _) as [resp|e] eqn:Hnet;
    [|exists []; repeat (split; [reflexivity|]); intros H; now contradiction H].
  destruct (ok resp) eqn:Hok; cbn [negb];
    [|exists []; repeat (split; [reflexivity|]); intros H; now contradiction H].
  destruct (json resp) as [v|e] eqn:Hjson;
    [|exists []; repeat (split; [reflexivity|]); intros H; now contradiction H].
  destruct v as [| |b|q|s|items|props|builtin];
    try (exists []; repeat (split; [reflexivity|]);
         intros H; now contradiction H).
  exists items. repeat (split; [reflexivity|]).
  intros _. exists k, resp. now repeat split.
Qed.

(** *** Searching *)

Lemma lower_char_upper_char (c : ascii) :
  lower_char (upper_char c) = lower_char c.
Proof.
  destruct c as [[] [] [] [] [] [] [] []]; reflexivity.
Qed.

Lemma lower_char_idempotent (c : ascii) :
  lower_char (lower_char c) = lower_char c.
Proof.
  destruct c as [[] [] [] [] [] [] [] []]; reflexivity.
Qed.

Lemma toLowerCase_toUpperCase (s : string) :
  toLowerCase (toUpperCase s) = toLowerCase s.
Proof.
  induction s as [|c s IH]; [reflexivity|].
  unfold toLowerCase, toUpperCase in *; cbn [map_string].
  now rewrite lower_char_upper_char, IH.
Qed.

Lemma toLowerCase_idempotent (s : string) :
  toLowerCase (toLowerCase s) = toLowerCase s.
Proof.
  induction s as [|c s IH]; [reflexivity|].
  unfold toLowerCase in *; cbn [map_string].
  now rewrite lower_char_idempotent, IH.
Qed.

(** The filter's predicate on a record of the declared type. *)
Lemma matches_query_record (searchQuery : string) (r : TemplateRecord)
    (h : Host) (st : State) :
  matches_query searchQuery (record_value r) h st
  = (Return (includes (toLowerCase (r_name r)) searchQuery
             || includes (toLowerCase (r_description r)) searchQuery
             || includes (toLowerCase (r_category r)) searchQuery),
     st).
Proof.
  unfold matches_query, record_value, lower_field, bind, field, ret,
    record_json.
  cbn [get_prop own app String.eqb Ascii.eqb Bool.eqb].
  destruct (includes (toLowerCase (r_name r)) searchQuery); [reflexivity|].
  destruct (includes (toLowerCase (r_description r)) searchQuery);
    reflexivity.
Qed.

Lemma filter_templates_records (searchQuery : string)
    (records : list TemplateRecord) (h : Host) (st : State) :
  filter_templates (matches_query searchQuery) (map record_value records) h st
  = (Return
       (map record_value
          (List.filter
             (fun r =>
                includes (toLowerCase (r_name r)) searchQuery
                || includes (toLowerCase (r_description r)) searchQuery
                || includes (toLowerCase (r_category r)) searchQuery)
             records)),
     st).
Proof.
  induction records as [|r records IH]; [reflexivity|].
  cbn [map filter_templates List.filter]. unfold bind at 1.
  rewrite matches_query_record. unfold bind at 1. rewrite IH.
  unfold ret.
  now destruct (includes (toLowerCase (r_name r)) searchQuery
                || includes (toLowerCase (r_description r)) searchQuery
                || includes (toLowerCase (r_category r)) searchQuery).
Qed.

(** X11. When the gateway lists records of the declared type, a search
    returns, in the order of the list, exactly the records whose name,
    description or category contains the query, letter case aside; it sends
    the one request of the listing and shows nothing. *)
Theorem search_matches_any_field (query : string)
    (records : list TemplateRecord) (h : Host) (st : State) (k : string)
    (resp : HttpResponse) :
  key_of h = Some k ->
  net h (trace st) (mkRequest ApiTemplates "GET" k None) = Return resp ->
  ok resp = true ->
  json resp = Return (VArr (map record_value records)) ->
  searchTemplates query h st
  = (Return (map record_value (List.filter (record_matches query) records)),
     log [Http (mkRequest ApiTemplates "GET" k None)] st).
Proof.
  intros Hkey Hnet Hok Hjson.
  unfold searchTemplates, try_catch, bind at 1.
  rewrite getTemplates_run, Hkey; cbv zeta. rewrite Hnet, Hok; cbn [negb].
  rewrite Hjson. rewrite filter_templates_records. reflexivity.
Qed.

Lemma search_matches_any_field_witness :
  searchTemplates "Welcome" listing Example.start
  = (Return [record_value Example.welcome; record_value invoice],
     log [Http (mkRequest ApiTemplates "GET" "secret" None)] Example.start).
Proof.
  exact (search_matches_any_field "Welcome"
           [Example.welcome; invoice; reminder] listing Example.start "secret"
           (mkResponse true 200 "OK"
              (Return (VArr (map record_value
                               [Example.welcome; invoice; reminder])))
              "[...]")
           eq_refl eq_refl eq_refl eq_refl).
Defined.

(** X12. For a query of ASCII characters the letter case of the query
    does not matter: the query and its upper-case or lower-case form give
    the same run of the search, whatever the gateway lists.  (Outside
    ASCII this fails in JavaScript, where the upper case of a letter need
    not come back to it in lower case.) *)
Theorem search_ignores_query_case (query : string) (h : Host) (st : State) :
  ascii_only query = true ->
  searchTemplates (toUpperCase query) h st = searchTemplates query h st
  /\ searchTemplates (toLowerCase query) h st = searchTemplates query h st.
Proof.
  intros _. unfold searchTemplates.
  now rewrite toLowerCase_toUpperCase, toLowerCase_idempotent.
Qed.

Lemma search_ignores_query_case_witness :
  searchTemplates "WELCOME" listing Example.start
  = searchTemplates "Welcome" listing Example.start
  /\ searchTemplates "welcome" listing Example.start
     = searchTemplates "Welcome" listing Example.start.
Proof.
  exact (search_ignores_query_case "Welcome" listing Example.start eq_refl).
Defined.

(** The filter's predicate changes no state, whatever it is given. *)
Lemma matches_query_state (searchQuery : string) (template : value)
    (h : Host) (st : State) :
  snd (matches_query searchQuery template h st) = st.
Proof.
  unfold matches_query, lower_field, bind, field, ret, throw.
  destruct template as [| |b|q|s|items|props|builtin]; cbn [snd fst defined];
    try reflexivity;
    repeat match goal with
           | |- context [match ?v with _ => _ end] =>
               lazymatch v with
               | get_prop _ _ => destruct v eqn:?
               | includes _ _ => destruct v eqn:?
               end; cbn [snd fst]; try reflexivity
           end.
Qed.

Lemma filter_templates_state (searchQuery : string) (templates : list value)
    (h : Host) (st : State) :
  snd (filter_templates (matches_query searchQuery) templates h st) = st.
Proof.
  induction templates as [|t templates IH]; [reflexivity|].
  cbn [filter_templates]. unfold bind at 1.
  pose proof (matches_query_state searchQuery t h st) as Ht.
  destruct (matches_query searchQuery t h st) as [[b|e] st1];
    cbn [snd] in Ht; subst st1; [|reflexivity].
  unfold bind at 1.
  destruct (filter_templates (matches_query searchQuery) templates h st)
    as [[l|e] st1]; cbn [snd] in IH; subst st1; reflexivity.
Qed.

Lemma filter_templates_throws (searchQuery : string) (templates : list value)
    (bad : list (string * value)) (h : Host) (st : State) :
  In (VObj bad) templates ->
  (forall s, get_prop bad "name" <> VStr s) ->
  exists e,
    filter_templates (matches_query searchQuery) templates h st = (Throw e, st).
Proof.
  intros Hin Hname.
  induction templates as [|t templates IH]; [destruct Hin|].
  cbn [filter_templates]. unfold bind at 1.
  pose proof (matches_query_state searchQuery t h st) as Ht.
  destruct (matches_query searchQuery t h st) as [[b|e] st1] eqn:Hm;
    cbn [snd] in Ht; subst st1; [|eauto].
  destruct Hin as [->|Hin].
  - exfalso. revert Hm.
    unfold matches_query, lower_field, bind at 1, bind at 1, field, ret.
    destruct (get_prop bad "name") eqn:Hn; try discriminate.
    now destruct (Hname s).
  - destruct (IH Hin) as (e & He). unfold bind at 1. rewrite He. eauto.
Qed.

(** X13. One listed template without a string [name] spoils every search:
    the filter throws on it, the search catches that and returns the empty
    array, for any query, and shows no message. *)
Theorem search_fails_on_unnamed_template (query : string)
    (templates : list value) (bad : list (string * value)) (h : Host)
    (st : State) (k : string) (resp : HttpResponse) :
  key_of h = Some k ->
  net h (trace st) (mkRequest ApiTemplates "GET" k None) = Return resp ->
  ok resp = true ->
  json resp = Return (VArr templates) ->
  In (VObj bad) templates ->
  (forall s, get_prop bad "name" <> VStr s) ->
  searchTemplates query h st
  = (Return [], log [Http (mkRequest ApiTemplates "GET" k None)] st).
Proof.
  intros Hkey Hnet Hok Hjson Hin Hname.
  unfold searchTemplates, try_catch, bind at 1.
  rewrite getTemplates_run, Hkey; cbv zeta. rewrite Hnet, Hok; cbn [negb].
  rewrite Hjson.
  destruct (filter_templates_throws (toLowerCase query) templates bad h
              (log [Http (mkRequest ApiTemplates "GET" k None)] st) Hin Hname)
    as (e & ->).
  reflexivity.
Qed.

Lemma search_fails_on_unnamed_template_witness :
  let templates :=
    [ record_value Example.welcome; VObj [ ("id", VStr "t-9") ] ] in
  let unnamed :=
    mkHost (Some "secret")
      (fun _ _ =>
         Return (mkResponse true 200 "OK" (Return (VArr templates)) "[...]"))
      Z.of_nat Example.iso Example.text_of Example.is_positive in
  searchTemplates "welcome" unnamed Example.start
  = (Return [],
     log [Http (mkRequest ApiTemplates "GET" "secret" None)] Example.start).
Proof.
  assert (forall s, get_prop [ ("id", VStr "t-9") ] "name" <> VStr s)
    as Hname by (intros s; discriminate).
  exact (search_fails_on_unnamed_template "welcome"
           [ record_value Example.welcome; VObj [ ("id", VStr "t-9") ] ]
           [ ("id", VStr "t-9") ]
           (mkHost (Some "secret")
              (fun _ _ =>
                 Return (mkResponse true 200 "OK"
                           (Return (VArr [ record_value Example.welcome;
                                           VObj [ ("id", VStr "t-9") ] ]))
                           "[...]"))
              Z.of_nat Example.iso Example.text_of Example.is_positive)
           Example.start "secret"
           (mkResponse true 200 "OK"
              (Return (VArr [ record_value Example.welcome;
                              VObj [ ("id", VStr "t-9") ] ]))
              "[...]")
           eq_refl eq_refl eq_refl eq_refl
           (or_intror (or_introl eq_refl)) Hname).
Defined.

(** *** Field casing *)

Lemma or_else_undefined (v : value) : or_else VUndefined v = v.
Proof. reflexivity. Qed.

(** An answer in PascalCase and the same answer in camelCase normalise to
    the same object. *)
Lemma normalise_pascal (r : TemplateRecord) :
  complete r ->
  normalise (record_json_pascal r) = normalise (record_json r).
Proof.
  intros (Hid & Hname & Hcat & Hdesc & Hcontent & Hcreated & Hupdated
          & Hsample & Huser & Hschema).
  unfold normalise, record_json_pascal, record_json.
  destruct (r_sampleData r) as [sd|], (r_userId r) as [us|],
    (r_schema r) as [sc|];
    cbn [optional app get_prop own String.eqb Ascii.eqb Bool.eqb inherited
         existsb object_prototype_names orb defined];
    rewrite ?or_else_undefined, ?or_else_string;
    try reflexivity; try assumption;
    try (intros ->; (now apply Hsample) || (now apply Huser)
                    || (now apply Hschema)).
Qed.

(** X14. [getTemplate] normalises the casing of the answer: for a record
    none of whose strings is empty, a PascalCase answer gives the very
    object a camelCase answer gives, with camelCase fields. *)
Theorem getTemplate_normalises_casing (r : TemplateRecord) (tid : value)
    (h : Host) (st : State) (k : string) (resp : HttpResponse) :
  complete r ->
  key_of h = Some k ->
  net h (trace st) (fetch_request k tid) = Return resp ->
  ok resp = true ->
  json resp = Return (VObj (record_json_pascal r)) ->
  getTemplate tid h st
  = (Return (Some (fresh (dom (heap st)))),
     fetched k tid (normalise (record_json r)) st)
  /\ id (normalise (record_json r)) = VStr (r_id r)
  /\ name (normalise (record_json r)) = VStr (r_name r)
  /\ category (normalise (record_json r)) = VStr (r_category r)
  /\ description (normalise (record_json r)) = VStr (r_description r)
  /\ content (normalise (record_json r)) = VStr (r_content r)
  /\ isActive (normalise (record_json r)) = VBool (r_isActive r).
Proof.
  intros Hcomplete Hkey Hnet Hok Hjson.
  split.
  - rewrite (getTemplate_run tid h st k resp (record_json_pascal r)
               Hkey Hnet Hok Hjson).
    now rewrite (normalise_pascal r Hcomplete).
  - destruct Hcomplete as (Hid & Hname & Hcat & Hdesc & Hcontent & _).
    unfold normalise, record_json; cbn [id name category description content
                                        isActive].
    destruct (r_sampleData r);
      repeat split; cbn; first [reflexivity|now apply or_else_string].
Qed.

Lemma getTemplate_normalises_casing_witness :
  let pascal :=
    mkHost (Some "secret")
      (fun _ _ =>
         Return (mkResponse true 200 "OK"
                   (Return (VObj (record_json_pascal Example.welcome)))
                   "{...}"))
      Z.of_nat Example.iso Example.text_of Example.is_positive in
  getTemplate (VStr "t-1") pascal Example.start
  = (Return (Some 0%nat),
     fetched "secret" (VStr "t-1") Example.stored Example.start)
  /\ id Example.stored = VStr "t-1"
  /\ name Example.stored = VStr "Welcome"
  /\ category Example.stored = VStr "Email"
  /\ description Example.stored = VStr "Greeting"
  /\ content Example.stored = VStr "Hello {{ user.name }}"
  /\ isActive Example.stored = VBool true.
Proof.
  assert (complete Example.welcome) as Hcomplete
    by (repeat split; discriminate).
  exact (getTemplate_normalises_casing Example.welcome (VStr "t-1")
           (mkHost (Some "secret")
              (fun _ _ =>
                 Return (mkResponse true 200 "OK"
                           (Return (VObj (record_json_pascal Example.welcome)))
                           "{...}"))
              Z.of_nat Example.iso Example.text_of Example.is_positive)
           Example.start "secret"
           (mkResponse true 200 "OK"
              (Return (VObj (record_json_pascal Example.welcome))) "{...}")
           Hcomplete eq_refl eq_refl eq_refl eq_refl).
Defined.

(** ** More on validation *)

(** Which counts each error reports. *)
Lemma errors_reported (content : string) :
  let reported msg := In msg (errors (validateTemplateContent content)) in
  (reported brace_mismatch <->
   match_count re_open_braces content <> match_count re_close_braces content)
  /\ (reported statement_mismatch <->
      match_count re_open_statements content
      <> match_count re_close_statements content)
  /\ (reported if_mismatch <->
      match_count re_if content <> match_count re_endif content)
  /\ (reported for_mismatch <->
      match_count re_for content <> match_count re_endfor content).
Proof.
  cbv zeta. unfold validateTemplateContent; cbn [errors].
  rewrite !In_push_unless_equal.
  unfold brace_mismatch, statement_mismatch, if_mismatch, for_mismatch.
  cbn [In].
  repeat split; intros H;
    repeat match goal with
           | H : _ \/ _ |- _ => destruct H as [H|H]
           | H : _ /\ _ |- _ => destruct H as [? H]
           | H : False |- _ => destruct H
           end;
    try assumption; try discriminate;
    intuition congruence.
Qed.

(** X15. The validation reports each of its four errors exactly when the
    two counts it compares differ ([{%] against [%}], [{% if] against
    [{% endif], [{% for] against [{% endfor], white space allowed after
    [{%]), always in the same order and at most once each. *)
Theorem validate_reports_in_order (content : string) :
  (In statement_mismatch (errors (validateTemplateContent content)) <->
   occurrences "{%" content <> occurrences "%}" content)
  /\ (In if_mismatch (errors (validateTemplateContent content)) <->
      match_count re_if content <> match_count re_endif content)
  /\ (In for_mismatch (errors (validateTemplateContent content)) <->
      match_count re_for content <> match_count re_endfor content)
  /\ sublist (errors (validateTemplateContent content))
       [ brace_mismatch; statement_mismatch; if_mismatch; for_mismatch ].
Proof.
  destruct (errors_reported content) as (_ & Hstatement & Hif & Hfor).
  cbv zeta in *.
  unfold re_open_statements, re_close_statements in Hstatement.
  rewrite !match_count_lit in Hstatement by discriminate.
  repeat (split; [assumption|]).
  unfold validateTemplateContent, push_unless_equal; cbn [errors].
  destruct (Nat.eqb _ _), (Nat.eqb _ _), (Nat.eqb _ _), (Nat.eqb _ _);
    cbn [app]; repeat constructor.
Qed.

Lemma scan_nothing (r : regex) (s : string) :
  (forall s', brace_free s' = true -> match_here r s' = None) ->
  brace_free s = true ->
  forall skip, scan r skip s = [].
Proof.
  intros Hr. induction s as [|c s IH]; intros Hfree skip.
  - destruct skip; cbn [scan]; [|reflexivity].
    unfold match_at. now rewrite (Hr EmptyString Hfree).
  - cbn [brace_free] in Hfree. apply andb_prop in Hfree as [Hc Hs].
    destruct skip; cbn [scan]; [|now apply IH].
    unfold match_at. rewrite Hr; [now apply IH|].
    cbn [brace_free]. now rewrite Hc, Hs.
Qed.

Lemma match_here_open_brace (r : regex) (s : string) :
  brace_free s = true -> match_here (chr "{" :: r) s = None.
Proof.
  destruct s as [|c s]; [reflexivity|]. cbn [brace_free match_here chr].
  intros H. apply andb_prop in H as [Hc _]. unfold is_brace in Hc.
  rewrite Ascii.eqb_sym. now destruct (Ascii.eqb c "{").
Qed.

Lemma match_here_close_brace (r : regex) (s : string) :
  brace_free s = true -> match_here (chr "}" :: r) s = None.
Proof.
  destruct s as [|c s]; [reflexivity|]. cbn [brace_free match_here chr].
  intros H. apply andb_prop in H as [Hc _]. unfold is_brace in Hc.
  rewrite Ascii.eqb_sym.
  destruct (Ascii.eqb c "{"); [discriminate|]. now destruct (Ascii.eqb c "}").
Qed.

Lemma match_here_close_statement (s : string) :
  brace_free s = true -> match_here re_close_statements s = None.
Proof.
  destruct s as [|c s]; [reflexivity|].
  unfold re_close_statements; cbn [lit brace_free]. intros H.
  apply andb_prop in H as [_ Hs].
  change (match_here (chr "%" :: chr "}" :: []) (String c s))
    with (if Ascii.eqb "%" c then match_here (chr "}" :: []) s else None).
  destruct (Ascii.eqb "%" c); [|reflexivity].
  now apply match_here_close_brace.
Qed.

(** X16. A text without any brace passes the validation: no count can be
    positive, so no error is reported. *)
Theorem validate_accepts_brace_free_text (content : string) :
  brace_free content = true ->
  validateTemplateContent content = {| isValid := true; errors := [] |}.
Proof.
  intros Hfree.
  assert (forall r,
            (forall s', brace_free s' = true -> match_here r s' = None) ->
            match_count r content = 0%nat) as Hzero.
  { intros r Hr. unfold match_count, match_all.
    now rewrite (scan_nothing r content Hr Hfree 0). }
  unfold validateTemplateContent.
  rewrite (Hzero re_open_braces), (Hzero re_close_braces),
    (Hzero re_open_statements), (Hzero re_close_statements),
    (Hzero re_if), (Hzero re_endif), (Hzero re_for), (Hzero re_endfor);
    try reflexivity;
    try (intros s' Hs'; now apply match_here_open_brace);
    try (intros s' Hs'; now apply match_here_close_brace).
  intros s' Hs'. now apply match_here_close_statement.
Qed.

Lemma validate_accepts_brace_free_text_witness :
  validateTemplateContent "Dear customer, 100% of your order has shipped."
  = {| isValid := true; errors := [] |}.
Proof.
  apply validate_accepts_brace_free_text. reflexivity.
Defined.

(** *** Line by line *)

Section Lines.

Variables a b : ascii.
Hypothesis a_not_newline : a <> ascii_of_nat 10.
Hypothesis b_not_newline : b <> ascii_of_nat 10.

Let pat : string := String a (String b EmptyString).
Let nl : ascii := ascii_of_nat 10.

Lemma split_on_cons (sep : ascii) (s : string) :
  exists h t, split_on sep s = h :: t.
Proof.
  destruct s as [|c s]; cbn [split_on]; [eauto|].
  destruct (Ascii.eqb c sep); [eauto|].
  destruct (split_on sep s); eauto.
Qed.

Lemma first_line_head (s : string) :
  String.prefix (String b EmptyString) s
  = String.prefix (String b EmptyString) (hd EmptyString (split_on nl s)).
Proof.
  destruct s as [|c s]; [reflexivity|]. cbn [split_on].
  destruct (Ascii.eqb_spec c nl) as [->|Hc]; cbn [hd String.prefix].
  - destruct (ascii_dec b nl); [contradiction|reflexivity].
  - destruct (split_on_cons nl s) as (h & t & ->). cbn [hd String.prefix].
    destruct (ascii_dec b c); [|reflexivity]. now destruct s, h.
Qed.

Lemma occurrences_first_line (s : string) (skip : nat) :
  skip = 0%nat
  \/ (skip = 1%nat /\ String.prefix (String b EmptyString) s = true) ->
  occurrences_from pat skip s
  = (occurrences_from pat skip (hd EmptyString (split_on nl s))
     + list_sum (map (occurrences pat) (tl (split_on nl s))))%nat.
Proof.
  unfold occurrences, pat, list_sum.
  revert skip. induction s as [|c s IH]; intros skip Hskip.
  - cbn [split_on hd tail map fold_right]. lia.
  - pose proof (first_line_head s) as Hhead.
    destruct (split_on_cons nl s) as (h & t & Hsplit).
    cbn [split_on]. fold nl. rewrite Hsplit in *. cbn [hd tail] in *.
    destruct (Ascii.eqb_spec c nl) as [->|Hc];
      cbn [hd tail map fold_right].
    + destruct Hskip as [->|[_ Hb]].
      * cbn [occurrences_from String.prefix].
        destruct (ascii_dec a nl); [contradiction|].
        rewrite (IH 0%nat (or_introl eq_refl)). lia.
      * cbn [String.prefix] in Hb.
        destruct (ascii_dec b nl); [contradiction|discriminate].
    + destruct Hskip as [->|[-> Hb]].
      * cbn [occurrences_from String.prefix String.length Nat.sub].
        destruct (ascii_dec a c); [|].
        -- rewrite <- Hhead.
           destruct (String.prefix (String b EmptyString) s) eqn:Hb.
           ++ rewrite (IH 1%nat (or_intror (conj eq_refl eq_refl))). lia.
           ++ rewrite (IH 0%nat (or_introl eq_refl)). lia.
        -- rewrite (IH 0%nat (or_introl eq_refl)). lia.
      * cbn [occurrences_from].
        rewrite (IH 0%nat (or_introl eq_refl)). lia.
Qed.

(** The occurrences of a two-character pattern without a line break are
    those of the lines, added up. *)
Lemma occurrences_line_by_line (text : string) :
  occurrences pat text = occurrences_by_line pat text.
Proof.
  unfold occurrences_by_line.
  change (occurrences pat text) with (occurrences_from pat 0 text).
  rewrite (occurrences_first_line text 0 (or_introl eq_refl)).
  fold nl. destruct (split_on_cons nl text) as (h & t & ->).
  reflexivity.
Qed.

End Lines.

Lemma line_diagnostics_none (i : nat) (lines : list string) :
  CodeLens.line_diagnostics i lines = [] ->
  map (occurrences "{{") lines = map (occurrences "}}") lines.
Proof.
  revert i. induction lines as [|l lines IH]; intros i; [reflexivity|].
  cbn [CodeLens.line_diagnostics map].
  unfold re_open_braces, re_close_braces.
  rewrite !match_count_lit by discriminate.
  destruct (Nat.eqb_spec (occurrences "{{" l) (occurrences "}}" l)) as [E|];
    [|discriminate].
  intros H. now rewrite E, (IH (S i) H).
Qed.

(** X17. The two validations agree in one direction: when the line-by-line
    check of the editor finds no line with unmatched braces, the service's
    validation of the whole text reports no brace mismatch. *)
Theorem clean_lines_have_matched_braces (text : string) :
  CodeLens.diagnostics_of text = [] ->
  occurrences "{{" text = occurrences "}}" text
  /\ ~ In brace_mismatch (errors (validateTemplateContent text)).
Proof.
  intros Hclean.
  assert (occurrences "{{" text = occurrences "}}" text) as Hequal.
  { rewrite (occurrences_line_by_line "{" "{") by discriminate.
    rewrite (occurrences_line_by_line "}" "}") by discriminate.
    unfold occurrences_by_line.
    now rewrite (line_diagnostics_none 0 _ Hclean). }
  split; [exact Hequal|].
  destruct (errors_reported text) as (Hbrace & _). cbv zeta in Hbrace.
  rewrite Hbrace. unfold re_open_braces, re_close_braces.
  rewrite !match_count_lit by discriminate. now rewrite Hequal.
Qed.

Lemma clean_lines_have_matched_braces_witness :
  let text := "Dear {{ user.name }}," +:+ newline +:+ "total {{ order.total }}" in
  occurrences "{{" text = occurrences "}}" text
  /\ ~ In brace_mismatch (errors (validateTemplateContent text)).
Proof.
  apply clean_lines_have_matched_braces. reflexivity.
Defined.

(** ** The test runner *)

Lemma service_testTemplate_run (tid data : value) (h : Host) (st : State) :
  service_testTemplate tid data h st
  = makeApiCall (ApiRender tid) "POST" (Some data) h st.
Proof.
  unfold service_testTemplate, try_catch, throw.
  now destruct (makeApiCall (ApiRender tid) "POST" (Some data) h st) as [[v|e] st1].
Qed.

(** Closes a branch of [testTemplate] once its result is computed. *)
Ltac test_leaf :=
  unfold failed, bind, Date_now, ret, throw, host;
  cbn [fst snd log];
  do 2 eexists; split; [reflexivity|];
  cbn [trace heap templateDocuments documents log tick success truthy
       test_errors output usageConsumed];
  rewrite ?app_nil_r;
  do 4 (split; [reflexivity|]);
  intros Hpass; discriminate Hpass.

Lemma testTemplate_effect (t : Template) (data : value) (h : Host)
    (st : State) :
  exists r st',
    testTemplate t data h st = (Return r, st')
    /\ trace st' = trace st ++ test_events h t data
    /\ heap st' = heap st
    /\ templateDocuments st' = templateDocuments st
    /\ documents st' = documents st
    /\ (truthy (success r) = true ->
        test_errors r = []
        /\ truthy (output r) = true
        /\ usageConsumed r = Some 1%nat
        /\ exists k, test_events h t data
                     = [Http (render_request k (id t) data)]).
Proof.
  unfold testTemplate, test_events, valid_content, try_catch.
  unfold bind at 1, Date_now at 1.
  destruct (content t) as [| |b|q|s|items|props|builtin];
    try (unfold bind at 1, validate_value at 1, throw at 1;
         destruct (key_of h); test_leaf).
  unfold bind at 1, validate_value at 1, ret at 1.
  destruct (isValid (validateTemplateContent s)) eqn:Hvalid; cbn [negb];
    [|destruct (key_of h); test_leaf].
  unfold bind at 1. rewrite service_testTemplate_run, makeApiCall_run.
  destruct (key_of h) as [k|]; [|test_leaf].
  cbv zeta. fold (render_request k (id t) data).
  destruct (net h _ _) as [resp|e]; [|test_leaf].
  destruct (ok resp); cbn [negb]; [|test_leaf].
  destruct (json resp) as [v|e]; [|test_leaf].
  destruct v as [| |b|q|s'|items|props|builtin];
    try (unfold bind at 1, getProp_of at 1, bind at 1, field at 1, throw at 1;
         test_leaf).
  all: unfold bind, getProp_of, ret, host, Date_now, or_else;
    cbn [fst snd log];
    repeat match goal with
           | |- context [truthy ?v] =>
               lazymatch v with
               | getProp _ _ => destruct (truthy v) eqn:?
               | VStr EmptyString => cbn [truthy String.eqb negb]
               end
           end;
    do 2 eexists; (split; [reflexivity|]);
    cbn [trace heap templateDocuments documents log tick success truthy
         test_errors output usageConsumed String.eqb negb];
    rewrite ?app_nil_r;
    do 4 (split; [reflexivity|]);
    intros Hpass; try discriminate Hpass;
    repeat split; eauto.
Qed.

(** X18. [testTemplate] never throws and never touches the registry or the
    documents; all it may send is one render request for the template's id
    with the sample data, and it sends it exactly when a key is stored and
    the content passes validation. *)
Theorem testTemplate_always_returns (t : Template) (data : value) (h : Host)
    (st : State) :
  (exists r, fst (testTemplate t data h st) = Return r)
  /\ trace (snd (testTemplate t data h st))
     = trace st ++ test_events h t data
  /\ heap (snd (testTemplate t data h st)) = heap st
  /\ templateDocuments (snd (testTemplate t data h st)) = templateDocuments st
  /\ documents (snd (testTemplate t data h st)) = documents st
  /\ (test_events h t data = []
      \/ exists k,
           key_of h = Some k
           /\ valid_content (content t) = true
           /\ test_events h t data = [Http (render_request k (id t) data)]).
Proof.
  destruct (testTemplate_effect t data h st)
    as (r & st' & -> & Htrace & Hh & Hd & Hdocs & _).
  cbn [fst snd]. split; [eauto|]. repeat (split; [assumption|]).
  unfold test_events. destruct (key_of h) as [k|]; [|now left].
  destruct (valid_content (content t)); [right|now left].
  exists k. now repeat split.
Qed.

(** X19. A result that passes is clean: when [success] is truthy the
    result has no errors, a truthy output and one call of usage, and the
    render request for this template was sent. *)
Theorem passing_test_is_clean (t : Template) (data : value) (h : Host)
    (st st' : State) (r : TestResult) :
  testTemplate t data h st = (Return r, st') ->
  truthy (success r) = true ->
  test_errors r = []
  /\ truthy (output r) = true
  /\ usageConsumed r = Some 1%nat
  /\ exists k, trace st' = trace st ++ [Http (render_request k (id t) data)].
Proof.
  intros Hrun Hpass.
  destruct (testTemplate_effect t data h st)
    as (r' & st1 & Hrun' & Htrace & _ & _ & _ & Hclean).
  rewrite Hrun in Hrun'. injection Hrun' as <- <-.
  destruct (Hclean Hpass) as (He & Ho & Hu & k & Hk).
  repeat (split; [assumption|]). exists k. now rewrite Htrace, Hk.
Qed.

Lemma passing_test_is_clean_witness :
  let r := {| success := VBool true;
              output := VStr "<p>Hi</p>";
              duration := RoundedSeconds (VNum (1 # 4));
              test_errors := [];
              usageConsumed := Some 1%nat |} in
  test_errors r = []
  /\ truthy (output r) = true
  /\ usageConsumed r = Some 1%nat
  /\ exists k,
       trace (log [Http (render_request "secret" (VStr "t-1") (VObj []))]
                (tick 1 Example.start))
       = trace Example.start
         ++ [Http (render_request k (id Example.stored) (VObj []))].
Proof.
  exact (passing_test_is_clean Example.stored (VObj []) renderer
           Example.start _
           {| success := VBool true;
              output := VStr "<p>Hi</p>";
              duration := RoundedSeconds (VNum (1 # 4));
              test_errors := [];
              usageConsumed := Some 1%nat |}
           eq_refl eq_refl).
Defined.

(** X20. A test from the editor never reaches the service and never
    passes: an invalid text gives its validation errors, a valid one the
    notice that direct testing is not implemented, after five readings of
    the clock instead of two. *)
Theorem testTemplateFromEditor_never_passes (document : TextDocument)
    (data : value) (h : Host) (st : State) :
  let validation := validateTemplateContent (getText document) in
  let readings := if isValid validation then 5%nat else 2%nat in
  testTemplateFromEditor document data h st
  = (Return {| success := VBool false;
               output := VStr EmptyString;
               duration :=
                 Millis (clock h (readings - 1 + ticks st)
                         - clock h (ticks st));
               test_errors :=
                 if isValid validation then [VStr not_implemented]
                 else map VStr (errors validation);
               usageConsumed := None |},
     tick readings st).
Proof.
  cbv zeta. unfold testTemplateFromEditor, try_catch, bind at 1, Date_now at 1.
  destruct (isValid (validateTemplateContent (getText document)));
    reflexivity.
Qed.

(** The bulk loop, for any results already stored. *)
Lemma bulk_loop_effect (cancelled : nat -> bool) (templates : list Template)
    (data : value) (h : Host) :
  forall (i : nat) (results : list (value * TestResult)) (st : State),
  exists more st',
    bulk_loop cancelled i templates data results h st
    = (Return (results ++ more), st')
    /\ map fst more = map id (tested cancelled i templates)
    /\ trace st'
       = trace st
         ++ concat (map (fun t => test_events h t data)
                      (tested cancelled i templates))
    /\ heap st' = heap st
    /\ templateDocuments st' = templateDocuments st
    /\ documents st' = documents st.
Proof.
  induction templates as [|t templates IH]; intros i results st.
  - exists [], st. cbn. rewrite !app_nil_r. now repeat split.
  - cbn [bulk_loop tested]. destruct (cancelled i).
    + exists [], st. cbn. rewrite !app_nil_r. now repeat split.
    + destruct (testTemplate_effect t data h st)
        as (r & st1 & Hrun & Htrace & Hh & Hd & Hdocs & _).
      unfold bind at 1, try_catch, bind at 1. rewrite Hrun. unfold ret at 1.
      destruct (IH (S i) (results ++ [(id t, r)]) st1)
        as (more & st' & -> & Hids & Htrace' & Hh' & Hd' & Hdocs').
      exists ((id t, r) :: more), st'.
      split; [now rewrite <- app_assoc|].
      cbn [map fst concat]. rewrite Hids, Htrace', Htrace, Hh', Hd', Hdocs'.
      rewrite <- app_assoc. now repeat split.
Qed.

(** X21. A bulk run stores one result per template it gets to, in order
    and under the template's id, and sends exactly the render requests of
    those templates whose content is valid; it never throws and never
    touches the registry.  Unless cancelled it gets to every template. *)
Theorem runBulkTests_tests_each_once (cancelled : nat -> bool)
    (templates : list Template) (data : value) (h : Host) (st : State) :
  (exists results,
     fst (runBulkTests cancelled templates data h st) = Return results
     /\ map fst results = map id (tested cancelled 0 templates))
  /\ trace (snd (runBulkTests cancelled templates data h st))
     = trace st
       ++ concat (map (fun t => test_events h t data)
                    (tested cancelled 0 templates))
  /\ heap (snd (runBulkTests cancelled templates data h st)) = heap st
  /\ templateDocuments (snd (runBulkTests cancelled templates data h st))
     = templateDocuments st
  /\ ((forall i, cancelled i = false) ->
      tested cancelled 0 templates = templates).
Proof.
  unfold runBulkTests.
  destruct (bulk_loop_effect cancelled templates data h 0 [] st)
    as (more & st' & -> & Hids & Htrace & Hh & Hd & _).
  cbn [fst snd app]. split; [eauto|]. repeat (split; [assumption|]).
  intros Hnever. clear - Hnever. generalize 0%nat.
  induction templates as [|t templates IH]; intros i; [reflexivity|].
  cbn [tested]. now rewrite Hnever, IH.
Qed.

(** *** The shape of the sample data *)

Lemma own_None_keys (props : list (string * value)) (p : string) :
  own props p = None <-> ~ In p (keys props).
Proof.
  induction props as [|[k v] props IH]; cbn [own keys map fst In].
  - tauto.
  - destruct (String.eqb_spec k p) as [->|Hne].
    + split; [discriminate|]. intros H. exfalso. apply H. now left.
    + fold (keys props). rewrite IH. tauto.
Qed.

Lemma own_set_prop (props : list (string * value)) (p : string) (v : value) :
  own (set_prop props p v) p = Some v.
Proof.
  induction props as [|[k w] props IH]; cbn [set_prop own].
  - now rewrite String.eqb_refl.
  - destruct (String.eqb_spec k p) as [->|Hne]; cbn [own].
    + now rewrite String.eqb_refl.
    + destruct (String.eqb_spec k p); [contradiction|exact IH].
Qed.

Lemma keys_set_prop (props : list (string * value)) (p : string) (v : value) :
  keys (set_prop props p v)
  = match own props p with
    | Some _ => keys props
    | None => keys props ++ [p]
    end.
Proof.
  induction props as [|[k w] props IH]; cbn [set_prop own keys map fst app];
    [reflexivity|].
  destruct (String.eqb k p); [reflexivity|].
  cbn [map fst]. fold (keys (set_prop props p v)) (keys props).
  rewrite IH. now destruct (own props p).
Qed.

Lemma two_level_set_prop (props : list (string * value)) (p : string)
    (inner : list (string * value)) :
  two_level props -> two_level (set_prop props p (VObj inner)).
Proof.
  intros [Hnodup Hobjects]. split.
  - rewrite keys_set_prop. destruct (own props p) eqn:Hp; [exact Hnodup|].
    apply own_None_keys in Hp.
    apply List.NoDup_rev in Hnodup.
    rewrite <- (rev_involutive (keys props ++ [p])), rev_app_distr.
    apply List.NoDup_rev. cbn [rev app]. constructor; [|exact Hnodup].
    now rewrite <- in_rev.
  - clear Hnodup. induction Hobjects as [|[k w] props Hw Hrest IH];
      cbn [set_prop]; [repeat constructor|].
    destruct (String.eqb k p); constructor; auto.
Qed.

Lemma set_prop_not_empty (props : list (string * value)) (p : string)
    (v : value) : set_prop props p v <> [].
Proof.
  destruct props as [|[k w] props]; cbn [set_prop]; [discriminate|].
  destruct (String.eqb k p); discriminate.
Qed.

Lemma generateSampleValue_effect (propertyName : string) (h : Host)
    (st : State) :
  exists v st',
    generateSampleValue propertyName h st = (Return v, st')
    /\ is_primitive v = true
    /\ only_clock st st'.
Proof.
  unfold generateSampleValue.
  repeat match goal with
         | |- context [if ?c then _ else _] => destruct c
         end;
    do 2 eexists; (split; [reflexivity|]); now repeat split.
Qed.

Lemma own_Forall (P : value -> Prop) (props : list (string * value))
    (p : string) (v : value) :
  Forall (fun kv => P (snd kv)) props -> own props p = Some v -> P v.
Proof.
  induction 1 as [|[k w] props Hw _ IH]; cbn [own]; [discriminate|].
  destruct (String.eqb k p); [|exact IH]. now intros [= <-].
Qed.

Lemma Forall_set_prop (P : value -> Prop) (props : list (string * value))
    (p : string) (v : value) :
  Forall (fun kv => P (snd kv)) props -> P v ->
  Forall (fun kv => P (snd kv)) (set_prop props p v).
Proof.
  intros Hprops Hv.
  induction Hprops as [|[k w] props Hw Hprops IH]; cbn [set_prop];
    [constructor; [exact Hv|constructor]|].
  destruct (String.eqb k p); constructor; assumption.
Qed.

(** What the loop finds under a name: an object of its own, a string or a
    number it wrote to [Object.prototype], a built-in under an inherited
    name, or nothing. *)
Lemma get_prop_over_cases (proto sampleData : list (string * value))
    (objectName : string) :
  two_level sampleData ->
  Forall (fun kv => is_primitive (snd kv) = true) proto ->
  match get_prop_over proto sampleData objectName with
  | VObj _ => own sampleData objectName <> None
  | VBuiltin f => f = objectName /\ inherited objectName = true
  | VArr _ | VNull | VBool _ => False
  | _ => True
  end.
Proof.
  intros [_ Hobjects] Hproto. unfold get_prop_over, get_prop.
  destruct (own sampleData objectName) as [v|] eqn:Hown.
  - apply (own_Forall (fun v => is_object v = true)) in Hown;
      [|exact Hobjects].
    destruct v; try discriminate Hown. discriminate.
  - destruct (own proto objectName) as [v|] eqn:Hwritten.
    + apply (own_Forall (fun v => is_primitive v = true)) in Hwritten;
        [|exact Hproto].
      now destruct v.
    + now destruct (inherited objectName) eqn:Hinherited.
Qed.

Lemma only_clock_writes (st st' : State) :
  only_clock st st' -> only_builtin_writes st st'.
Proof.
  intros (Ht & Hh & Hd & Hdocs). do 3 (split; [assumption|]).
  exists []. rewrite app_nil_r. now split.
Qed.

Lemma only_builtin_writes_emit (st st' : State) (h : Host) (o p : string)
    (v : value) :
  only_clock st st' -> inherited o = true -> is_primitive v = true ->
  only_builtin_writes st (snd (emit (BuiltinWrite o p v) h st')).
Proof.
  intros (Ht & Hh & Hd & Hdocs) Ho Hv. unfold emit.
  cbn [snd heap templateDocuments documents trace].
  do 3 (split; [assumption|]).
  exists [BuiltinWrite o p v]. rewrite Ht. split; [reflexivity|].
  repeat constructor. now exists o, p, v.
Qed.

Lemma only_builtin_writes_trans (st1 st2 st3 : State) :
  only_builtin_writes st1 st2 -> only_builtin_writes st2 st3 ->
  only_builtin_writes st1 st3.
Proof.
  intros (Hh & Hd & Hdocs & w & Ht & Hw) (Hh' & Hd' & Hdocs' & w' & Ht' & Hw').
  split; [congruence|]. split; [congruence|]. split; [congruence|].
  exists (w ++ w'). rewrite Ht', Ht, <- app_assoc. split; [reflexivity|].
  now apply Forall_app.
Qed.

(** One turn of the loop: it stores an object under a name of
    [sampleData], or writes a string or a number to a built-in object, or
    throws a [TypeError]; it sends and shows nothing. *)
Lemma add_sample_effect (w : Writes) (sampleData : list (string * value))
    (m : string) (h : Host) (st : State) :
  two_level sampleData ->
  Forall (fun kv => is_primitive (snd kv) = true) (to_prototype w) ->
  exists out st',
    add_sample w sampleData m h st = (out, st')
    /\ only_builtin_writes st st'
    /\ match out with
       | Return (w', sampleData') =>
           two_level sampleData'
           /\ Forall (fun kv => is_primitive (snd kv) = true) (to_prototype w')
           /\ (sampleData <> [] -> sampleData' <> [])
       | Throw e => err_name e = "TypeError"
       end.
Proof.
  intros Hshape Hproto. unfold add_sample.
  destruct (parts_of m) as [|objectName [|propertyName rest]];
    try (exists (Return (w, sampleData)), st; split; [reflexivity|];
         split; [apply only_clock_writes; now repeat split|];
         split; [exact Hshape|]; split; [exact Hproto|tauto]).
  destruct (generateSampleValue_effect propertyName h st)
    as (v & st' & Hv & Hprimitive & Hclock).
  unfold bind at 1. rewrite Hv.
  set (sampleData1 :=
         if truthy (get_prop_over (to_prototype w) sampleData objectName)
         then sampleData
         else set_prop sampleData objectName (VObj [])).
  assert (two_level sampleData1) as Hshape1.
  { unfold sampleData1. destruct (truthy _); [exact Hshape|].
    now apply two_level_set_prop. }
  assert (sampleData <> [] -> sampleData1 <> []) as Hkeep.
  { unfold sampleData1. destruct (truthy _); [tauto|].
    intros _. apply set_prop_not_empty. }
  pose proof (get_prop_over_cases (to_prototype w) sampleData1 objectName
                Hshape1 Hproto) as Hfound.
  assert (forall b,
            exists out st2,
              (if String.eqb propertyName "__proto__"
               then ret (w, sampleData1)
               else let! h := host in
                    throw (primitive_error h b propertyName)) h st'
              = (out, st2)
              /\ only_builtin_writes st st2
              /\ match out with
                 | Return (w', sampleData') =>
                     two_level sampleData'
                     /\ Forall (fun kv => is_primitive (snd kv) = true)
                          (to_prototype w')
                     /\ (sampleData <> [] -> sampleData' <> [])
                 | Throw e => err_name e = "TypeError"
                 end) as Hprimitive_base.
  { intros b. destruct (String.eqb propertyName "__proto__").
    - exists (Return (w, sampleData1)), st'. split; [reflexivity|].
      split; [now apply only_clock_writes|].
      split; [exact Hshape1|]. split; [exact Hproto|exact Hkeep].
    - eexists _, st'. split; [reflexivity|].
      split; [now apply only_clock_writes|reflexivity]. }
  destruct (get_prop_over (to_prototype w) sampleData1 objectName)
    as [| |b|q|t|items|inner|f];
    try contradiction; try apply Hprimitive_base.
  - (* an object of the loop *)
    eexists _, st'. split; [reflexivity|].
    split; [now apply only_clock_writes|].
    split; [now apply two_level_set_prop|]. split; [exact Hproto|].
    intros _. apply set_prop_not_empty.
  - (* a built-in *)
    destruct Hfound as [-> Hinherited].
    destruct (String.eqb propertyName "__proto__").
    { exists (Return (w, sampleData1)), st'. split; [reflexivity|].
      split; [now apply only_clock_writes|].
      split; [exact Hshape1|]. split; [exact Hproto|exact Hkeep]. }
    destruct (String.eqb objectName "__proto__").
    { eexists _, _. unfold bind, ret. split; [reflexivity|].
      split; [now apply (only_builtin_writes_emit st st' h)|].
      split; [exact Hshape1|].
      split; [|exact Hkeep]. cbn [to_prototype].
      now apply (Forall_set_prop (fun v => is_primitive v = true)). }
    destruct (function_refuses objectName propertyName).
    { eexists _, st'. split; [reflexivity|].
      split; [now apply only_clock_writes|].
      unfold read_only_error. now destruct (_ || _). }
    eexists _, _. unfold bind, ret. split; [reflexivity|].
    split; [now apply (only_builtin_writes_emit st st' h)|].
    split; [exact Hshape1|]. split; [|exact Hkeep].
    now destruct (String.eqb objectName "constructor").
Qed.

Lemma add_samples_effect (ms : list string) :
  forall (w : Writes) (sampleData : list (string * value)) (h : Host)
         (st : State),
  two_level sampleData ->
  Forall (fun kv => is_primitive (snd kv) = true) (to_prototype w) ->
  exists out st',
    add_samples w sampleData ms h st = (out, st')
    /\ only_builtin_writes st st'
    /\ match out with
       | Return (_, sampleData') => two_level sampleData'
       | Throw e => err_name e = "TypeError"
       end.
Proof.
  induction ms as [|m ms IH]; intros w sampleData h st Hshape Hproto.
  - exists (Return (w, sampleData)), st. split; [reflexivity|].
    split; [apply only_clock_writes; now repeat split|exact Hshape].
  - cbn [add_samples]. unfold bind.
    destruct (add_sample_effect w sampleData m h st Hshape Hproto)
      as ([[w1 sd1]|e] & st1 & -> & Hframe & Hturn).
    + destruct Hturn as (Hshape1 & Hproto1 & _). cbn [fst snd].
      destruct (IH w1 sd1 h st1 Hshape1 Hproto1)
        as (out & st2 & -> & Hframe2 & Hout).
      exists out, st2. split; [reflexivity|]. split; [|exact Hout].
      now apply (only_builtin_writes_trans st st1 st2).
    + exists (Throw e), st1. split; [reflexivity|]. now split.
Qed.

(** A turn on a reference whose object name no object inherits. *)
Lemma add_sample_plain (sampleData : list (string * value)) (m : string)
    (h : Host) (st : State) :
  two_level sampleData ->
  match parts_of m with
  | objectName :: _ :: _ => inherited objectName = false
  | _ => True
  end ->
  exists sampleData' st',
    add_sample no_writes sampleData m h st
    = (Return (no_writes, sampleData'), st')
    /\ two_level sampleData'
    /\ only_clock st st'.
Proof.
  intros Hshape Hplain. unfold add_sample.
  destruct (parts_of m) as [|objectName [|propertyName rest]];
    try (exists sampleData, st; split; [reflexivity|];
         split; [exact Hshape|now repeat split]).
  destruct (generateSampleValue_effect propertyName h st)
    as (v & st' & Hv & _ & Hclock).
  unfold bind at 1. rewrite Hv. cbn [no_writes to_prototype].
  set (sampleData1 :=
         if truthy (get_prop_over [] sampleData objectName) then sampleData
         else set_prop sampleData objectName (VObj [])).
  assert (two_level sampleData1) as Hshape1.
  { unfold sampleData1. destruct (truthy _); [exact Hshape|].
    now apply two_level_set_prop. }
  assert (exists inner,
            get_prop_over [] sampleData1 objectName = VObj inner)
    as (inner & ->).
  { unfold sampleData1, get_prop_over, get_prop.
    destruct (own sampleData objectName) as [b|] eqn:Hown.
    - pose proof Hown as Hobject.
      apply (own_Forall (fun v => is_object v = true)) in Hobject;
        [|apply Hshape].
      destruct b; try discriminate Hobject. cbn [truthy]. rewrite Hown.
      eauto.
    - cbn [own]. rewrite Hplain. cbn [truthy]. rewrite own_set_prop. eauto. }
  eexists _, st'. split; [reflexivity|].
  split; [now apply two_level_set_prop|exact Hclock].
Qed.

Lemma add_samples_plain (ms : list string) :
  forall (sampleData : list (string * value)) (h : Host) (st : State),
  two_level sampleData ->
  (forall m, In m ms ->
             match parts_of m with
             | objectName :: _ :: _ => inherited objectName = false
             | _ => True
             end) ->
  exists sampleData' st',
    add_samples no_writes sampleData ms h st
    = (Return (no_writes, sampleData'), st')
    /\ only_clock st st'.
Proof.
  induction ms as [|m ms IH]; intros sampleData h st Hshape Hplain.
  - exists sampleData, st. now repeat split.
  - destruct (add_sample_plain sampleData m h st Hshape
                (Hplain m (or_introl eq_refl)))
      as (sd1 & st1 & Hrun & Hshape1 & Ht & Hh & Hd & Hdocs).
    destruct (IH sd1 h st1 Hshape1 (fun m' Hm' => Hplain m' (or_intror Hm')))
      as (sd2 & st2 & Hrun2 & Ht2 & Hh2 & Hd2 & Hdocs2).
    exists sd2, st2. cbn [add_samples]. unfold bind. rewrite Hrun.
    cbn [fst snd]. rewrite Hrun2. split; [reflexivity|].
    unfold only_clock. now rewrite Ht2, Hh2, Hd2, Hdocs2.
Qed.

Lemma two_level_default_fixture :
  forall props, default_fixture = VObj props -> props <> [] /\ two_level props.
Proof.
  intros props [= <-]. split; [discriminate|].
  split; [repeat constructor; cbn; intuition discriminate
         |repeat constructor].
Qed.

(** An object name that every object inherits sends the write to a
    built-in: [constructor.name] is refused, the function's [name] being
    read-only; [__proto__.y] writes [y] to [Object.prototype] and leaves
    the sample data empty, so that the default fixture is returned; a later
    reference [y.z] then finds the string under [y] and is refused;
    [constructor.keys] puts a string in the place of [Object.keys], which
    the synthesizer calls after the loop. *)
Example synthesize_constructor_name (h : Host) (st : State) :
  synthesize "{{ constructor.name }}" h st
  = (Throw (TypeError
              ("Cannot assign to read only property 'name' of function "
               +:+ "'function Object() { [native code] }'")),
     st).
Proof. reflexivity. Qed.

Example synthesize_proto_write (h : Host) (st : State) :
  synthesize "{{ __proto__.y }}" h st
  = (Return default_fixture,
     log [BuiltinWrite "__proto__" "y" (VStr "Sample Value")] st).
Proof. reflexivity. Qed.

Example synthesize_reads_its_write (h : Host) (st : State) :
  synthesize "{{ __proto__.y }} {{ y.z }}" h st
  = (Throw (TypeError
              ("Cannot create property 'z' on string '"
               +:+ stringify h (VStr "Sample Value") +:+ "'")),
     log [BuiltinWrite "__proto__" "y" (VStr "Sample Value")] st).
Proof. reflexivity. Qed.

Example synthesize_function_write (h : Host) (st : State) :
  synthesize "{{ user.name }} {{ toString.x }}" h st
  = (Return (VObj [ ("user", VObj [ ("name", VStr "John Doe") ]) ]),
     log [BuiltinWrite "toString" "x" (VStr "Sample Value")] st).
Proof. reflexivity. Qed.

Example synthesize_overwrites_Object_keys (h : Host) (st : State) :
  synthesize "{{ user.name }} {{ constructor.keys }}" h st
  = (Throw (TypeError "Object.keys is not a function"),
     log [BuiltinWrite "constructor" "keys" (VStr "Sample Value")] st).
Proof. reflexivity. Qed.

(** X22. For every text the synthesizer leaves the registry and the
    documents alone and sends and shows nothing: all it may do to the world
    is write strings and numbers to built-in objects that every object
    inherits from.  It returns an object that is never empty, whose keys
    are distinct and whose values are all objects, or it throws a
    [TypeError].  When no reference of the text has an inherited property
    name ([constructor], [__proto__], [toString], ...) as its object name,
    it returns and writes nothing. *)
Theorem synthesize_returns_nested_object (content : string) (h : Host)
    (st : State) :
  only_builtin_writes st (snd (synthesize content h st))
  /\ match fst (synthesize content h st) with
     | Return v => exists props, v = VObj props /\ props <> [] /\ two_level props
     | Throw e => err_name e = "TypeError"
     end
  /\ ((forall objectName,
         In objectName (object_names content) ->
         inherited objectName = false) ->
      (exists props, fst (synthesize content h st) = Return (VObj props))
      /\ only_clock st (snd (synthesize content h st))).
Proof.
  assert (two_level []) as Hempty by (split; constructor).
  assert (forall (w : Writes) (sampleData : list (string * value))
                 (st' : State),
            two_level sampleData ->
            exists out,
              (let! names := Object_keys w sampleData in
               if (0 <? length names)%nat
               then ret (VObj sampleData) else ret default_fixture) h st'
              = (out, st')
              /\ match out with
                 | Return v =>
                     exists props,
                       v = VObj props /\ props <> [] /\ two_level props
                 | Throw e => err_name e = "TypeError"
                 end) as Hreturned.
  { intros w sampleData st' Hshape. unfold Object_keys, bind.
    destruct (own (to_Object w) "keys");
      [eexists; split; [reflexivity|reflexivity]|].
    unfold ret at 1.
    destruct sampleData as [|entry sampleData];
      cbn [keys map length Nat.ltb Nat.leb].
    - eexists. split; [reflexivity|]. eexists. split; [reflexivity|].
      now apply two_level_default_fixture.
    - eexists. split; [reflexivity|]. exists (entry :: sampleData).
      split; [reflexivity|]. split; [discriminate|exact Hshape]. }
  assert (exists out st',
            synthesize content h st = (out, st')
            /\ only_builtin_writes st st'
            /\ match out with
               | Return v =>
                   exists props, v = VObj props /\ props <> [] /\ two_level props
               | Throw e => err_name e = "TypeError"
               end) as (out & st' & Hrun & Hframe & Hout).
  { unfold synthesize. unfold bind at 1.
    destruct (variableMatches content) as [ms|].
    - destruct (add_samples_effect ms no_writes [] h st Hempty
                  (List.Forall_nil _))
        as ([[w sd]|e] & st' & -> & Hframe & Hshape).
      + cbn [fst snd].
        destruct (Hreturned w sd st' Hshape) as (out & -> & Hout).
        now exists out, st'.
      + now exists (Throw e), st'.
    - unfold ret at 1. cbn [fst snd].
      destruct (Hreturned no_writes [] st Hempty) as (out & -> & Hout).
      exists out, st. split; [reflexivity|].
      split; [apply only_clock_writes; now repeat split|exact Hout]. }
  split; [|split].
  - now rewrite Hrun.
  - now rewrite Hrun.
  - clear out st' Hrun Hframe Hout Hreturned.
    intros Hplain.
    assert (exists props st',
              synthesize content h st = (Return (VObj props), st')
              /\ only_clock st st') as (props & st' & -> & Hclock).
    { unfold synthesize. unfold bind at 1.
      destruct (variableMatches content) as [ms|] eqn:Hms.
      - destruct (add_samples_plain ms [] h st Hempty)
          as (sd & st' & -> & Hclock).
        { intros m Hm.
          destruct (parts_of m) as [|objectName [|propertyName rest]]
            eqn:Hparts; try exact I.
          apply Hplain. unfold object_names. rewrite Hms. cbn [default].
          apply in_flat_map. exists m. split; [exact Hm|].
          rewrite Hparts. now left. }
        cbn [fst snd]. unfold Object_keys, bind; cbn [no_writes to_Object own].
        unfold ret at 1.
        destruct (0 <? length (keys sd))%nat; do 2 eexists;
          (split; [reflexivity|exact Hclock]).
      - unfold ret at 1. cbn [fst snd].
        unfold Object_keys, bind; cbn [no_writes to_Object own].
        do 2 eexists. split; [reflexivity|now repeat split]. }
    cbn [fst snd]. split; [now exists props|exact Hclock].
Qed.

Lemma synthesize_returns_nested_object_witness :
  (exists props,
     fst (synthesize "Dear {{ user.name }}, see {{ order.date | date.to_string }}"
            Example.editor Example.start) = Return (VObj props))
  /\ only_clock Example.start
       (snd (synthesize
               "Dear {{ user.name }}, see {{ order.date | date.to_string }}"
               Example.editor Example.start)).
Proof.
  apply (synthesize_returns_nested_object
           "Dear {{ user.name }}, see {{ order.date | date.to_string }}"
           Example.editor Example.start).
  intros objectName Hin. vm_compute in Hin.
  destruct Hin as [<-|[<-|[]]]; reflexivity.
Defined.

(** ** The tree view *)

Lemma group_of_insert (categories : list (string * list TemplateRecord))
    (c c' : string) (t : TemplateRecord) :
  group_of (Tree.group_insert categories c t) c'
  = if String.eqb c c'
    then Some (default [] (group_of categories c) ++ [t])
    else group_of categories c'.
Proof.
  induction categories as [|[k ts] categories IH];
    cbn [Tree.group_insert group_of].
  - now destruct (String.eqb c c').
  - destruct (String.eqb_spec k c) as [->|Hk]; cbn [group_of default].
    + now destruct (String.eqb c c').
    + rewrite IH.
      destruct (String.eqb_spec k c') as [->|Hk'];
        destruct (String.eqb_spec c c') as [->|Hc]; try reflexivity.
      contradiction.
Qed.

Lemma group_keys_insert (categories : list (string * list TemplateRecord))
    (c : string) (t : TemplateRecord) :
  map fst (Tree.group_insert categories c t)
  = match group_of categories c with
    | Some _ => map fst categories
    | None => map fst categories ++ [c]
    end.
Proof.
  induction categories as [|[k ts] categories IH];
    cbn [Tree.group_insert group_of map fst app]; [reflexivity|].
  destruct (String.eqb k c); [reflexivity|].
  cbn [map fst]. rewrite IH. now destruct (group_of categories c).
Qed.

Lemma group_of_None (categories : list (string * list TemplateRecord))
    (c : string) :
  group_of categories c = None <-> ~ In c (map fst categories).
Proof.
  induction categories as [|[k ts] categories IH]; cbn [group_of map fst In].
  - tauto.
  - destruct (String.eqb_spec k c) as [->|Hne].
    + split; [discriminate|]. intros H. exfalso. apply H. now left.
    + rewrite IH. tauto.
Qed.

Lemma group_of_In (categories : list (string * list TemplateRecord))
    (c : string) (ts : list TemplateRecord) :
  List.NoDup (map fst categories) ->
  In (c, ts) categories -> group_of categories c = Some ts.
Proof.
  induction categories as [|[k ts'] categories IH]; [intros _ []|].
  cbn [map fst group_of]. intros Hnodup Hin.
  apply List.NoDup_cons_iff in Hnodup as [Hk Hnodup].
  destruct Hin as [[= -> ->]|Hin].
  - now rewrite String.eqb_refl.
  - destruct (String.eqb_spec k c) as [->|_]; [|now apply IH].
    exfalso. apply Hk. apply in_map_iff. now exists (c, ts).
Qed.

Lemma counted_insert (categories : list (string * list TemplateRecord))
    (c : string) (t : TemplateRecord) :
  counted (Tree.group_insert categories c t) = S (counted categories).
Proof.
  unfold counted, list_sum.
  induction categories as [|[k ts] categories IH];
    cbn [Tree.group_insert map snd fold_right length]; [reflexivity|].
  destruct (String.eqb k c); cbn [map snd fold_right].
  - rewrite length_app. cbn [length]. lia.
  - rewrite IH. lia.
Qed.

Lemma group_fold (templates : list TemplateRecord) :
  forall categories : list (string * list TemplateRecord),
  let grouped :=
    fold_left
      (fun categories t =>
         Tree.group_insert categories (Tree.category_of t) t)
      templates categories in
  (List.NoDup (map fst categories) -> List.NoDup (map fst grouped))
  /\ counted grouped = (counted categories + length templates)%nat
  /\ forall c,
       group_of grouped c
       = match List.filter
                 (fun t => String.eqb (Tree.category_of t) c) templates with
         | [] => group_of categories c
         | extra => Some (default [] (group_of categories c) ++ extra)
         end.
Proof.
  induction templates as [|t templates IH]; intros categories; cbv zeta.
  - cbn [fold_left length List.filter]. split; [tauto|]. split; [lia|].
    reflexivity.
  - cbn [fold_left length List.filter].
    destruct (IH (Tree.group_insert categories (Tree.category_of t) t))
      as (Hnodup & Hcount & Hgroup).
    cbv zeta in Hnodup, Hcount, Hgroup. split; [|split].
    + intros Hkeys. apply Hnodup. rewrite group_keys_insert.
      destruct (group_of categories (Tree.category_of t)) eqn:Hc;
        [exact Hkeys|].
      apply group_of_None in Hc. apply List.NoDup_rev in Hkeys.
      rewrite <- (rev_involutive (map fst categories ++ _)), rev_app_distr.
      apply List.NoDup_rev. cbn [rev app]. constructor; [|exact Hkeys].
      now rewrite <- in_rev.
    + rewrite Hcount, counted_insert. lia.
    + intros c. rewrite Hgroup, group_of_insert.
      destruct (String.eqb_spec (Tree.category_of t) c) as [<-|].
      * destruct (List.filter _ templates); [reflexivity|].
        simpl (default [] (Some _)). now rewrite <- app_assoc.
      * reflexivity.
Qed.

Lemma category_of_not_empty (t : TemplateRecord) :
  Tree.category_of t <> EmptyString.
Proof.
  unfold Tree.category_of.
  destruct (String.eqb_spec (r_category t) EmptyString);
    [discriminate|assumption].
Qed.

Lemma filter_filter (A : Type) (f g : A -> bool) (l : list A) :
  List.filter f (List.filter g l) = List.filter (fun x => g x && f x) l.
Proof.
  induction l as [|x l IH]; [reflexivity|]. cbn [List.filter].
  destruct (g x); cbn [List.filter andb]; [|exact IH].
  destruct (f x); now rewrite IH.
Qed.

(** X23. Grouping by category counts every template once.  Each category
    node stands for the templates whose category, or ['Uncategorized'] when
    it is empty, is the node's name, and there is at least one.  Expanding
    a node lists exactly these templates, except under ['Uncategorized'],
    where the templates with an empty category are counted in the label
    but not listed. *)
Theorem category_nodes_partition_templates (templates : list TemplateRecord) :
  counted (Tree.group_templates templates) = length templates
  /\ List.NoDup (map fst (Tree.group_templates templates))
  /\ forall c ts,
       In (c, ts) (Tree.group_templates templates) ->
       ts <> []
       /\ ts = List.filter (fun t => String.eqb (Tree.category_of t) c)
                 templates
       /\ In (Tree.category_item c (length ts)) (Tree.category_items templates)
       /\ Tree.getChildren templates (Tree.category_item c (length ts))
          = map Tree.template_item
              (if String.eqb c "Uncategorized"
               then List.filter
                      (fun t => negb (String.eqb (r_category t) EmptyString))
                      ts
               else ts).
Proof.
  destruct (group_fold templates []) as (Hnodup & Hcount & Hgroup).
  cbv zeta in Hnodup, Hcount, Hgroup.
  fold (Tree.group_templates templates) in Hnodup, Hcount, Hgroup.
  split; [exact Hcount|]. split; [apply Hnodup; constructor|].
  intros c ts Hin.
  pose proof (group_of_In _ c ts (Hnodup (List.NoDup_nil _)) Hin) as Hc.
  rewrite Hgroup in Hc. cbn [group_of default app] in Hc.
  assert (ts = List.filter (fun t => String.eqb (Tree.category_of t) c)
                 templates /\ ts <> []) as [Hts Hne].
  { destruct (List.filter _ templates); [discriminate|].
    injection Hc as <-. split; [reflexivity|discriminate]. }
  split; [exact Hne|]. split; [exact Hts|]. split.
  - unfold Tree.category_items. apply in_map_iff. now exists (c, ts).
  - unfold Tree.getChildren, Tree.category_item; cbn [Tree.contextValue
                                                       Tree.item_id].
    f_equal.
    destruct (String.eqb_spec c "Uncategorized") as [->|Hc'].
    + rewrite Hts, filter_filter. apply filter_ext. intros t.
      unfold Tree.category_of.
      destruct (String.eqb_spec (r_category t) EmptyString) as [->|];
        cbn [negb]; [reflexivity|].
      now rewrite andb_true_r.
    + assert (c <> EmptyString) as Hc''.
      { destruct ts as [|t0 ts']; [contradiction|].
        assert (In t0 (t0 :: ts')) as Ht0 by now left.
        rewrite Hts in Ht0. apply filter_In in Ht0 as [_ Ht0].
        apply String.eqb_eq in Ht0. rewrite <- Ht0.
        apply category_of_not_empty. }
      rewrite Hts. apply filter_ext. intros t. unfold Tree.category_of.
      destruct (String.eqb_spec (r_category t) EmptyString) as [->|];
        [|reflexivity].
      destruct (String.eqb_spec EmptyString c) as [<-|];
        [contradiction|].
      symmetry. now apply String.eqb_neq.
Qed.

Lemma category_nodes_partition_templates_witness :
  let templates := [ Example.welcome; invoice; reminder ] in
  counted (Tree.group_templates templates) = 3%nat
  /\ In (Tree.category_item "Billing" 1) (Tree.category_items templates)
  /\ Tree.getChildren templates (Tree.category_item "Billing" 1)
     = [ Tree.template_item invoice ]
  /\ In (Tree.category_item "Uncategorized" 1) (Tree.category_items templates)
  /\ Tree.getChildren templates (Tree.category_item "Uncategorized" 1) = [].
Proof.
  cbv zeta.
  destruct (category_nodes_partition_templates
              [ Example.welcome; invoice; reminder ])
    as (Hcount & _ & Hnodes).
  split; [exact Hcount|].
  destruct (Hnodes "Billing" [invoice]) as (_ & _ & Hitem & Hchildren);
    [right; left; reflexivity|].
  destruct (Hnodes "Uncategorized" [reminder])
    as (_ & _ & Hitem' & Hchildren');
    [right; right; left; reflexivity|].
  split; [exact Hitem|]. split; [exact Hchildren|].
  split; [exact Hitem'|exact Hchildren'].
Defined.

Lemma append_length (s1 s2 : string) :
  String.length (s1 +:+ s2) = (String.length s1 + String.length s2)%nat.
Proof.
  induction s1 as [|c s1 IH]; [reflexivity|].
  simpl. now f_equal.
Qed.

Lemma take_string_length (n : nat) (s : string) :
  (String.length (take_string n s) <= n)%nat.
Proof.
  revert s. induction n as [|n IH]; intros [|c s]; cbn [take_string
                                                         String.length];
    try lia.
  specialize (IH s). lia.
Qed.

(** X24. The description shown beside a template is short: at most 50
    characters for an active template and 61 for an inactive one, which is
    marked [(inactive)].  A description of at most 50 characters is shown
    whole, a longer one as its first 47 characters and three dots. *)
Theorem createDescription_is_short (t : TemplateRecord) :
  (String.length (Tree.createDescription t) <= 61)%nat
  /\ (r_isActive t = true ->
      (String.length (Tree.createDescription t) <= 50)%nat)
  /\ (r_isActive t = true ->
      (String.length (r_description t) <= 50)%nat ->
      Tree.createDescription t = r_description t)
  /\ (r_isActive t = true ->
      (50 < String.length (r_description t))%nat ->
      Tree.createDescription t = take_string 47 (r_description t) +:+ "...").
Proof.
  unfold Tree.createDescription.
  pose proof (take_string_length 47 (r_description t)) as Htake.
  destruct (r_isActive t); cbn [negb app];
    destruct (String.eqb_spec (r_description t) EmptyString) as [E|E];
    cbn [negb andb];
    destruct (Nat.ltb_spec 0 (String.length (r_description t)));
    destruct (Nat.ltb_spec 50 (String.length (r_description t)));
    cbn [app Tree.join];
    rewrite ?append_length; cbn [String.length];
    repeat split; intros; try reflexivity; try discriminate; try lia;
    try (rewrite E in *; cbn [String.length] in *; lia);
    try (rewrite E; reflexivity);
    try (destruct (r_description t); [contradiction|cbn in *; lia]).
Qed.

Lemma createDescription_is_short_witness :
  Tree.createDescription Example.welcome = "Greeting"
  /\ Tree.createDescription
       {| r_id := "t-4"; r_name := "Terms"; r_category := "Legal";
          r_description :=
            "General terms and conditions of sale, long version for print";
          r_content := "..."; r_sampleData := None; r_isActive := true;
          r_createdAt := "2024-04-01T00:00:00.000Z";
          r_updatedAt := "2024-04-02T00:00:00.000Z";
          r_userId := None; r_schema := None |}
     = "General terms and conditions of sale, long vers...".
Proof.
  split.
  - destruct (createDescription_is_short Example.welcome)
      as (_ & _ & Hwhole & _).
    apply Hwhole; [reflexivity|cbn; lia].
  - match goal with
    | |- Tree.createDescription ?t = _ =>
        destruct (createDescription_is_short t) as (_ & _ & _ & Hcut)
    end.
    rewrite Hcut; [reflexivity|reflexivity|cbn; lia].
Defined.

(** ** Checking an API key *)

(** X25. [validateApiKey] never throws and does not read the stored key:
    it sends one request with the key it is given, answers [true] exactly
    when the gateway answers that request with a 2xx status, and shows an
    error message exactly when it answers [false]. *)
Theorem validateApiKey_follows_the_status (apiKey : string) (h : Host)
    (st : State) :
  let request := mkRequest ApiUsage "GET" apiKey None in
  let accepted :=
    match net h (trace st) request with
    | Return resp => ok resp
    | Throw _ => false
    end in
  fst (validateApiKey apiKey h st) = Return accepted
  /\ (exists shown,
        trace (snd (validateApiKey apiKey h st))
        = trace st ++ Http request :: shown
        /\ (if accepted then shown = []
            else exists message, shown = [ShowError message]))
  /\ heap (snd (validateApiKey apiKey h st)) = heap st
  /\ templateDocuments (snd (validateApiKey apiKey h st))
     = templateDocuments st.
Proof.
  cbv zeta. unfold validateApiKey, try_catch, bind, httpRequest.
  destruct (net h (trace st) _) as [resp|e].
  - destruct (ok resp); cbn [negb];
      unfold bind, showErrorMessage, emit, ret;
      cbn [fst snd trace heap templateDocuments].
    + split; [reflexivity|]. split; [|now split].
      exists []. now split.
    + split; [reflexivity|]. split; [|now split].
      eexists. rewrite <- app_assoc. split; [reflexivity|]. eauto.
  - unfold bind, showErrorMessage, emit, ret;
      cbn [fst snd trace heap templateDocuments].
    split; [reflexivity|]. split; [|now split].
    eexists. rewrite <- app_assoc. split; [reflexivity|]. eauto.
Qed.

(** ** Deleting and creating *)

Lemma deleteTemplate_frame (tid : value) (h : Host) (st : State) :
  (exists deleted, fst (deleteTemplate tid h st) = Return deleted)
  /\ heap (snd (deleteTemplate tid h st)) = heap st
  /\ templateDocuments (snd (deleteTemplate tid h st)) = templateDocuments st
  /\ documents (snd (deleteTemplate tid h st)) = documents st
  /\ exists evs, trace (snd (deleteTemplate tid h st)) = trace st ++ evs.
Proof.
  unfold deleteTemplate, try_catch, bind, ret. rewrite makeApiCall_run.
  destruct (key_of h) as [k|]; cbv zeta;
    [destruct (net h (trace st) _) as [resp|e];
     [destruct (ok resp); cbn [negb]; [destruct (json resp) as [v|e]|]|]|];
    unfold showErrorMessage, emit, log;
    cbn [fst snd trace heap templateDocuments documents];
    (split; [eauto|]); do 3 (split; [reflexivity|]);
    eexists; rewrite <- ?app_assoc; reflexivity.
Qed.

Lemma command_deleteTemplate_run (template : list (string * value))
    (confirm : option string) (h : Host) (st : State) :
  command_deleteTemplate (VObj template) confirm h st
  = if bool_decide (confirm = Some "Delete") then
      (Return tt,
       log [RefreshTree;
            ShowInformation
              ("Template " +:+ quote
               +:+ stringify h (get_prop template "name") +:+ quote
               +:+ " deleted successfully")]
         (snd (deleteTemplate (get_prop template "id") h st)))
    else (Return tt, st).
Proof.
  unfold command_deleteTemplate, bind, field, ret.
  destruct confirm as [choice|]; [|reflexivity].
  destruct (String.eqb_spec choice "Delete") as [->|Hchoice].
  2: { rewrite bool_decide_eq_false_2; [reflexivity|congruence]. }
  rewrite bool_decide_eq_true_2 by reflexivity.
  unfold try_catch, refresh, emit, host, showInformationMessage, log.
  destruct (deleteTemplate_frame (get_prop template "id") h st)
    as ((deleted & Hdel) & _).
  destruct (deleteTemplate (get_prop template "id") h st) as [[b|e] st1];
    cbn [fst snd] in Hdel |- *; [|discriminate].
  cbn [ticks trace heap templateDocuments documents].
  unfold emit. cbn [ticks trace heap templateDocuments documents].
  now rewrite <- app_assoc.
Qed.

(** X26. Deleting a template never touches the registry or the open
    documents, so a document bound to the deleted template stays bound to
    the record it had.  Nothing at all happens unless the user chose
    [Delete]; once confirmed, the command ends by refreshing the tree and
    announcing success, whether or not the gateway accepted the
    deletion. *)
Theorem delete_command_keeps_bindings (template : list (string * value))
    (confirm : option string) (h : Host) (st : State) :
  let st' := snd (command_deleteTemplate (VObj template) confirm h st) in
  heap st' = heap st
  /\ templateDocuments st' = templateDocuments st
  /\ documents st' = documents st
  /\ (forall u, binding st' u = binding st u)
  /\ (confirm <> Some "Delete" ->
      command_deleteTemplate (VObj template) confirm h st = (Return tt, st))
  /\ (confirm = Some "Delete" ->
      exists evs,
        trace st'
        = trace st ++ evs
          ++ [RefreshTree;
              ShowInformation
                ("Template " +:+ quote
                 +:+ stringify h (get_prop template "name") +:+ quote
                 +:+ " deleted successfully")]).
Proof.
  cbv zeta. rewrite command_deleteTemplate_run.
  destruct (deleteTemplate_frame (get_prop template "id") h st)
    as (_ & Hh & Hd & Hdocs & evs & Htrace).
  assert (forall st1 : State,
            heap st1 = heap st -> templateDocuments st1 = templateDocuments st ->
            forall u, binding st1 u = binding st u) as Hbinding.
  { intros st1 Hh1 Hd1 u. unfold binding. now rewrite Hh1, Hd1. }
  destruct (bool_decide_reflect (confirm = Some "Delete")) as [->|Hother];
    unfold log; cbn [snd heap templateDocuments documents trace].
  - split; [exact Hh|]. split; [exact Hd|]. split; [exact Hdocs|].
    split; [now apply Hbinding|].
    split; [intros H; now contradiction H|].
    intros _. exists evs. rewrite Htrace, <- !app_assoc. reflexivity.
  - do 4 (split; [reflexivity|]).
    split; [reflexivity|]. intros H. contradiction.
Qed.

Lemma delete_command_keeps_bindings_witness :
  let template := [ ("id", VStr "t-1"); ("name", VStr "Welcome") ] in
  let st' :=
    snd (command_deleteTemplate (VObj template) (Some "Delete")
           Example.unplugged Example.opened) in
  binding st' "untitled:Untitled-" = Some Example.stored
  /\ command_deleteTemplate (VObj template) None Example.unplugged
       Example.opened = (Return tt, Example.opened)
  /\ exists evs,
       trace st'
       = trace Example.opened ++ evs
         ++ [RefreshTree;
             ShowInformation
               ("Template " +:+ quote +:+ "Welcome" +:+ quote
                +:+ " deleted successfully")].
Proof.
  cbv zeta.
  destruct (delete_command_keeps_bindings
              [ ("id", VStr "t-1"); ("name", VStr "Welcome") ]
              (Some "Delete") Example.unplugged Example.opened)
    as (_ & _ & _ & Hbinding & _ & Hdone).
  destruct (delete_command_keeps_bindings
              [ ("id", VStr "t-1"); ("name", VStr "Welcome") ]
              None Example.unplugged Example.opened)
    as (_ & _ & _ & _ & Hnothing & _).
  split; [now rewrite Hbinding|].
  split; [apply Hnothing; discriminate|].
  apply Hdone. reflexivity.
Defined.

(** X27. Creating a template needs the three answers: when the name, the
    category or the description is dismissed or left empty, nothing is
    sent, shown or changed.  With the three answers, the record handed to
    the service gives a request body of the name, the category, the
    description, the starter content and [IsActive] true, without
    [SampleData]; and when the service returns a falsy value (null after
    it has shown its error), the command stops there: the tree is not
    refreshed, no document is opened and no success is announced. *)
Theorem createNewTemplate_needs_three_answers
    (nameInput categoryInput descriptionInput : option string) (h : Host)
    (st : State) :
  (answered nameInput = None \/ answered categoryInput = None
   \/ answered descriptionInput = None ->
   createNewTemplate nameInput categoryInput descriptionInput h st
   = (Return tt, st))
  /\ (forall n c d,
        answered nameInput = Some n ->
        answered categoryInput = Some c ->
        answered descriptionInput = Some d ->
        create_body (new_template n c d)
        = [ ("Name", VStr n); ("Category", VStr c); ("Description", VStr d);
            ("Content", VStr starter_content); ("IsActive", VBool true) ]
        /\ forall v st1,
             createTemplate (new_template n c d) h st = (Return v, st1) ->
             truthy v = false ->
             createNewTemplate nameInput categoryInput descriptionInput h st
             = (Return tt, st1)).
Proof.
  split.
  - unfold createNewTemplate. intros [Hn|[Hc|Hd]].
    + now rewrite Hn.
    + rewrite Hc. now destruct (answered nameInput).
    + rewrite Hd.
      now destruct (answered nameInput), (answered categoryInput).
  - intros n c d Hn Hc Hd. split; [reflexivity|].
    intros v st1 Hfailed Hfalsy. unfold createNewTemplate.
    rewrite Hn, Hc, Hd. unfold try_catch, bind at 1.
    now rewrite Hfailed, Hfalsy.
Qed.

Lemma createNewTemplate_needs_three_answers_witness :
  createNewTemplate (Some "Welcome") (Some EmptyString) None Example.editor
    Example.start = (Return tt, Example.start)
  /\ create_body (new_template "Welcome" "Email" "Greeting")
     = [ ("Name", VStr "Welcome"); ("Category", VStr "Email");
         ("Description", VStr "Greeting");
         ("Content", VStr starter_content); ("IsActive", VBool true) ]
  /\ createNewTemplate (Some "Welcome") (Some "Email") (Some "Greeting")
       Example.unplugged Example.start
     = (Return tt,
        log [ShowError
               "Failed to create template: Error: connect ECONNREFUSED"]
          (log [Http (mkRequest ApiTemplates "POST" "secret"
                        (Some (VObj (create_body
                                       (new_template "Welcome" "Email"
                                          "Greeting")))))]
             Example.start)).
Proof.
  destruct (createNewTemplate_needs_three_answers (Some "Welcome")
              (Some EmptyString) None Example.editor Example.start)
    as (Hcancel & _).
  destruct (createNewTemplate_needs_three_answers (Some "Welcome")
              (Some "Email") (Some "Greeting") Example.unplugged
              Example.start)
    as (_ & Hcreate).
  destruct (Hcreate "Welcome" "Email" "Greeting" eq_refl eq_refl eq_refl)
    as (Hbody & Hfailed).
  split; [apply Hcancel; right; left; reflexivity|].
  split; [exact Hbody|].
  apply (Hfailed VNull); reflexivity.
Defined.

(** ** Witnesses of the registry, listing and bulk properties *)

Lemma close_unbinds_once_witness :
  let opened_twice :=
    snd (openTemplate Example.item Example.editor Example.opened) in
  let closed :=
    snd (onDidCloseTextDocument "untitled:Untitled-" Example.editor
           opened_twice) in
  binding closed "untitled:Untitled-" = None
  /\ binding closed "untitled:Untitled-0" = Some Example.stored.
Proof.
  cbv zeta.
  destruct (close_unbinds_once "untitled:Untitled-" Example.editor
              (snd (openTemplate Example.item Example.editor Example.opened)))
    as (Hgone & _ & Hothers & _).
  split; [exact Hgone|].
  rewrite Hothers; [reflexivity|discriminate].
Defined.

Lemma getTemplates_returns_the_array_witness :
  exists k resp,
    key_of listing = Some k
    /\ net listing (trace Example.start) (mkRequest ApiTemplates "GET" k None)
       = Return resp
    /\ ok resp = true
    /\ json resp
       = Return (VArr (map record_value [Example.welcome; invoice; reminder])).
Proof.
  destruct (getTemplates_returns_the_array listing Example.start)
    as (templates & Hreturned & _ & _ & Harray).
  assert (templates = map record_value [Example.welcome; invoice; reminder])
    as Htemplates.
  { vm_compute in Hreturned. injection Hreturned as <-. reflexivity. }
  rewrite <- Htemplates. apply Harray. rewrite Htemplates. discriminate.
Defined.

Lemma runBulkTests_tests_each_once_witness :
  let templates :=
    [ Example.stored; set_content (VStr "Dear {{ user.name") Example.stored ] in
  tested (fun _ => false) 0 templates = templates.
Proof.
  cbv zeta.
  destruct (runBulkTests_tests_each_once (fun _ => false)
              [ Example.stored;
                set_content (VStr "Dear {{ user.name") Example.stored ]
              (VObj []) renderer Example.start)
    as (_ & _ & _ & _ & Hall).
  apply Hall. reflexivity.
Defined.
